(** * Diary task API: a shallow embedding of the Express/Firestore backend

    The backend (server source, [convertTimestamps] and the six route
    handlers) is embedded as pure functions over an explicit store.  The
    JavaScript built-ins the handlers call ([Date], [toISOString],
    [toFixed], double arithmetic) and the Firestore client operations
    ([add], [get], [update], [delete], [orderBy]) are modelled next to them;
    what the language standard leaves to the engine, and what only the
    hosting machine knows (clock, time zone), is a field of [environment].
    The choice of credentials at start-up ([initFirebaseAdmin]) and the
    event handlers of the client (App.jsx) follow the server. *)

From Stdlib Require Import ZArith Lia List Bool Ascii String Sorted Permutation.
From Stdlib Require Import DecimalString.
From stdpp Require Import gmap strings list fin_maps sorting.

Local Open Scope Z_scope.

(** ** Exceptions

    A JavaScript computation either returns or throws an error carrying a
    [message]; every handler catches at its own boundary. *)

Inductive result (A : Type) : Type :=
| Ok (a : A)
| Throw (message : string).
Arguments Ok {A} a.
Arguments Throw {A} message.

#[global] Instance result_ret : MRet result := fun A a => Ok a.

#[global] Instance result_bind : MBind result := fun A B k r =>
  match r with
  | Ok a => k a
  | Throw m => Throw m
  end.

#[global] Instance result_fmap : FMap result := fun A B f r =>
  match r with
  | Ok a => Ok (f a)
  | Throw m => Throw m
  end.

(** [Array.prototype.map] with a callback that may throw: the first throw
    aborts the traversal. *)
Fixpoint mapR {A B : Type} (f : A -> result B) (l : list A) : result (list B) :=
  match l with
  | [] => Ok []
  | a :: l' => b ← f a; bs ← mapR f l'; Ok (b :: bs)
  end.

(** ** Calendar arithmetic (ECMAScript time values)

    A time value is a number of milliseconds since the epoch, in UTC.  Day
    numbers and civil dates are converted with era-based integer
    arithmetic; months are 1..12 in [civil_from_days] and
    [days_from_civil]. *)

Module Calendar.

Definition msPerDay : Z := 86400000.

Definition Day (t : Z) : Z := t / msPerDay.
Definition TimeWithinDay (t : Z) : Z := t mod msPerDay.

Definition civil_from_days (z : Z) : Z * Z * Z :=
  let z := z + 719468 in
  let era := z / 146097 in
  let doe := z - era * 146097 in
  let yoe := (doe - doe / 1460 + doe / 36524 - doe / 146096) / 365 in
  let y := yoe + era * 400 in
  let doy := doe - (365 * yoe + yoe / 4 - yoe / 100) in
  let mp := (5 * doy + 2) / 153 in
  let d := doy - (153 * mp + 2) / 5 + 1 in
  let m := if mp <? 10 then mp + 3 else mp - 9 in
  (if m <=? 2 then y + 1 else y, m, d).

Definition days_from_civil (y m d : Z) : Z :=
  let y := if m <=? 2 then y - 1 else y in
  let era := y / 400 in
  let yoe := y - era * 400 in
  let doy := (153 * (if 2 <? m then m - 3 else m + 9) + 2) / 5 + d - 1 in
  let doe := yoe * 365 + yoe / 4 - yoe / 100 + doy in
  era * 146097 + doe - 719468.

(** [MakeDay year month date] of ECMAScript, [month] counted from 0 and
    [date] allowed to run past the end of the month. *)
Definition MakeDay (year month date : Z) : Z :=
  days_from_civil (year + month / 12) (month mod 12 + 1) 1 + date - 1.

Definition YearFromTime (t : Z) : Z := fst (fst (civil_from_days (Day t))).
Definition MonthFromTime (t : Z) : Z := snd (fst (civil_from_days (Day t))) - 1.
Definition DateFromTime (t : Z) : Z := snd (civil_from_days (Day t)).

End Calendar.

(** ** Fixed-width decimal fields *)

Definition digit_char (n : Z) : ascii := ascii_of_N (Z.to_N (48 + n)).

Definition char_digit (c : ascii) : option Z :=
  let n := Z.of_N (N_of_ascii c) in
  if (48 <=? n) && (n <=? 57) then Some (n - 48) else None.

(** The [width] low decimal digits of [n], most significant first, put in
    front of [rest]. *)
Fixpoint pad_digits (width : nat) (n : Z) (rest : string) : string :=
  match width with
  | O => rest
  | S w => pad_digits w (n / 10) (String (digit_char (n mod 10)) rest)
  end.

Fixpoint read_digits (width : nat) (acc : Z) (s : string) : option (Z * string) :=
  match width with
  | O => Some (acc, s)
  | S w =>
      match s with
      | String c s' =>
          match char_digit c with
          | Some d => read_digits w (acc * 10 + d) s'
          | None => None
          end
      | EmptyString => None
      end
  end.

Definition expect (c : ascii) (s : string) : option string :=
  match s with
  | String c' s' => if Ascii.eqb c c' then Some s' else None
  | EmptyString => None
  end.

(** ** JavaScript [Date]

    A [Date] object holds a time value or is an Invalid Date ([None]). *)

Module JSDate.
Import Calendar.

Definition maxTime : Z := 8640000000000000.

Definition TimeClip (t : Z) : option Z :=
  if Z.abs t <=? maxTime then Some t else None.

Definition year_field (y : Z) (rest : string) : string :=
  if (0 <=? y) && (y <=? 9999) then pad_digits 4 y rest
  else String (if y <? 0 then "-"%char else "+"%char) (pad_digits 6 (Z.abs y) rest).

(** [Date.prototype.toISOString]: [YYYY-MM-DDTHH:mm:ss.sssZ] in UTC, with a
    signed six-digit year outside 0..9999; a [RangeError] on an Invalid
    Date. *)
Definition toISOString (date : option Z) : result string :=
  match date with
  | None => Throw "Invalid time value"
  | Some t =>
      let '(y, m, d) := civil_from_days (Day t) in
      let w := TimeWithinDay t in
      let millis := pad_digits 3 (w mod 1000) "Z" in
      let seconds := pad_digits 2 (w / 1000 mod 60) (String "." millis) in
      let minutes := pad_digits 2 (w / 60000 mod 60) (String ":" seconds) in
      let hours := pad_digits 2 (w / 3600000) (String ":" minutes) in
      let date := pad_digits 2 d (String "T" hours) in
      let month := pad_digits 2 m (String "-" date) in
      Ok (year_field y (String "-" month))
  end.

Definition parse_time_of_day (s : string) : option Z :=
  s ← expect "T" s;
  '(h, s) ← read_digits 2 0 s;
  s ← expect ":" s;
  '(mi, s) ← read_digits 2 0 s;
  s ← expect ":" s;
  '(sec, s) ← read_digits 2 0 s;
  s ← expect "." s;
  '(ms, s) ← read_digits 3 0 s;
  s ← expect "Z" s;
  if (h <=? 23) && (mi <=? 59) && (sec <=? 59) && String.eqb s EmptyString
  then Some (h * 3600000 + mi * 60000 + sec * 1000 + ms)
  else None.

(** The two forms of the ECMAScript date-time string format that the
    client and [toISOString] produce: [YYYY-MM-DD] (midnight UTC) and
    [YYYY-MM-DDTHH:mm:ss.sssZ].  A calendar date is legal when it survives
    the round trip through its day number. *)
Definition parse_iso (s : string) : option Z :=
  '(y, s) ← read_digits 4 0 s;
  s ← expect "-" s;
  '(m, s) ← read_digits 2 0 s;
  s ← expect "-" s;
  '(d, s) ← read_digits 2 0 s;
  let day := days_from_civil y m d in
  let '(y', m', d') := civil_from_days day in
  if (y' =? y) && (m' =? m) && (d' =? d) then
    if String.eqb s EmptyString then Some (day * msPerDay)
    else w ← parse_time_of_day s; Some (day * msPerDay + w)
  else None.

End JSDate.

(** ** JavaScript numbers

    A finite double is [m * 2^e]; the sign of zero is not tracked. *)

Inductive number : Type :=
| NaN
| Infinity (negative : bool)
| Finite (m e : Z).

Module Double.

(** The integer nearest to [a / b] ([0 < b]), ties to even. *)
Definition round_half_even (a b : Z) : Z :=
  let q := a / b in
  let r := a mod b in
  if 2 * r <? b then q
  else if b <? 2 * r then q + 1
  else if Z.even q then q else q + 1.

(** [binade num den] is the [k] with [2^k <= num/den < 2^(k+1)]
    ([0 < num], [0 < den]). *)
Definition binade (num den : Z) : Z :=
  let k := Z.log2 num - Z.log2 den in
  if den * 2 ^ Z.max 0 k <=? num * 2 ^ Z.max 0 (- k) then k else k - 1.

(** IEEE 754 binary64 round-to-nearest-even of the rational [num / den]
    ([0 <= num], [0 < den]): 53 significant bits, gradual underflow below
    [2^-1022], overflow to infinity from [2^1024]. *)
Definition round_double (num den : Z) : number :=
  if num =? 0 then Finite 0 0
  else
    let e := Z.max (binade num den) (-1022) - 52 in
    let m := round_half_even (num * 2 ^ Z.max 0 (- e)) (den * 2 ^ Z.max 0 e) in
    if (0 <=? e) && (2 ^ 1024 <=? m * 2 ^ e) then Infinity false
    else Finite m e.

Definition negate (x : number) : number :=
  match x with
  | NaN => NaN
  | Infinity s => Infinity (negb s)
  | Finite m e => Finite (- m) e
  end.

Definition signed (negative : bool) (x : number) : number :=
  if negative then negate x else x.

Definition is_zero (x : number) : bool :=
  match x with
  | Finite m _ => m =? 0
  | _ => false
  end.

Definition is_negative (x : number) : bool :=
  match x with
  | NaN => false
  | Infinity s => s
  | Finite m _ => m <? 0
  end.

(** [x / y] *)
Definition div (x y : number) : number :=
  match x, y with
  | NaN, _ | _, NaN => NaN
  | Infinity _, Infinity _ => NaN
  | Infinity s, Finite _ _ => Infinity (xorb s (is_negative y))
  | Finite _ _, Infinity _ => Finite 0 0
  | Finite m1 e1, Finite m2 e2 =>
      if m2 =? 0 then (if m1 =? 0 then NaN else Infinity (m1 <? 0))
      else
        signed (xorb (m1 <? 0) (m2 <? 0))
          (round_double (Z.abs m1 * 2 ^ Z.max 0 (e1 - e2))
                        (Z.abs m2 * 2 ^ Z.max 0 (e2 - e1)))
  end.

(** [x * y] *)
Definition mul (x y : number) : number :=
  match x, y with
  | NaN, _ | _, NaN => NaN
  | Infinity s, _ =>
      if is_zero y then NaN else Infinity (xorb s (is_negative y))
  | _, Infinity s =>
      if is_zero x then NaN else Infinity (xorb s (is_negative x))
  | Finite m1 e1, Finite m2 e2 =>
      signed (xorb (m1 <? 0) (m2 <? 0))
        (round_double (Z.abs m1 * Z.abs m2 * 2 ^ Z.max 0 (e1 + e2))
                      (2 ^ Z.max 0 (- (e1 + e2))))
  end.

Definition of_nat (n : nat) : number := Finite (Z.of_nat n) 0.

Definition decimal (n : Z) : string :=
  NilZero.string_of_uint (N.to_uint (Z.to_N n)).

(** The integer nearest to [m * 2^e * 10^f] ([0 <= m]); of two equally
    near, the larger. *)
Definition nearest_scaled (f : nat) (m e : Z) : Z :=
  if 0 <=? e then m * 10 ^ Z.of_nat f * 2 ^ e
  else (2 * m * 10 ^ Z.of_nat f + 2 ^ (- e)) / 2 ^ (- e + 1).

(** [Number.prototype.toFixed(f)].  From [10^21] on the standard switches
    to the general number-to-string conversion, [toString]. *)
Definition toFixed (toString : number -> string) (f : nat) (x : number) : string :=
  match x with
  | NaN => "NaN"
  | Infinity s => if s then "-Infinity" else "Infinity"
  | Finite m e =>
      if Z.abs m * 2 ^ Z.max 0 e <? 10 ^ 21 * 2 ^ Z.max 0 (- e) then
        let n := nearest_scaled f (Z.abs m) e in
        let whole := decimal (n / 10 ^ Z.of_nat f) in
        let body :=
          match f with
          | O => whole
          | S _ => whole +:+ String "." (pad_digits f (n mod 10 ^ Z.of_nat f) EmptyString)
          end in
        if m <? 0 then String "-" body else body
      else toString x
  end.

End Double.

(** ** Values

    One type for what travels through the handlers: JSON from the request
    body, JavaScript [Date] objects built by the handlers, and Firestore
    field values ([VTimestamp] is the store-native temporal value, the only
    one with a [toDate] method).  An absent property ([undefined]) is
    [None] at the place it is read. *)

#[warnings="-register-all"]
Inductive value : Type :=
| VNull
| VBool (b : bool)
| VNum (n : number)
| VStr (s : string)
| VDate (t : option Z)
| VTimestamp (seconds nanoseconds : Z)
| VArr (items : list value)
| VObj (fields : list (string * value)).

(** A JavaScript object: its own properties in insertion order. *)
Abbreviation object := (list (string * value)).

(** The collection [tasks]: document identifier to document data. *)
Abbreviation store := (gmap string object).

Fixpoint obj_get (o : object) (key : string) : option value :=
  match o with
  | [] => None
  | (k, v) :: o' => if String.eqb key k then Some v else obj_get o' key
  end.

(** [o[key] = v]: overwrite in place, or append a new property. *)
Fixpoint obj_set (o : object) (key : string) (v : value) : object :=
  match o with
  | [] => [(key, v)]
  | (k, w) :: o' =>
      if String.eqb key k then (k, v) :: o' else (k, w) :: obj_set o' key v
  end.

Definition obj_keys (o : object) : list string := map fst o.

(** [key in o] *)
Definition obj_has (o : object) (key : string) : bool :=
  match obj_get o key with Some _ => true | None => false end.

(** [{...target, ...src}]: the properties of [src] are assigned onto
    [target] in order. *)
Definition obj_spread (target src : object) : object :=
  fold_left (fun acc kv => obj_set acc (fst kv) (snd kv)) src target.

(** [ToBoolean] *)
Definition truthy (v : option value) : bool :=
  match v with
  | None => false
  | Some VNull => false
  | Some (VBool b) => b
  | Some (VNum NaN) => false
  | Some (VNum (Infinity _)) => true
  | Some (VNum (Finite m _)) => negb (m =? 0)
  | Some (VStr s) => negb (String.eqb s EmptyString)
  | Some _ => true
  end.

(** [a || b] with [b] a defined value *)
Definition js_or (a : option value) (b : value) : value :=
  match a with
  | Some v => if truthy a then v else b
  | None => b
  end.

(** ** The hosting environment

    - [engineDate]: the time value the engine's [Date] constructor gives to
      an argument the model does not interpret itself (a string outside
      the two forms of [JSDate.parse_iso], whose parsing the standard
      leaves to the implementation; an array or object);
    - [engineToString]: number-to-string conversion for [toFixed] beyond
      [10^21];
    - [LocalTZA t isUTC]: the offset of local time from UTC, in
      milliseconds, at the UTC time [t] ([isUTC]) or at the local time [t];
    - [storeAccepts]: the further checks the document store applies to a
      document on write (size, nesting depth, reserved names). *)

Record environment : Type := {
  engineDate : value -> option Z;
  engineToString : number -> string;
  LocalTZA : Z -> bool -> Z;
  storeAccepts : object -> bool
}.

Section Server.

Context (env : environment).

Import Calendar JSDate.

(** *** [Date] construction and local-time methods *)

Definition truncate (m e : Z) : Z :=
  if 0 <=? e then m * 2 ^ e else Z.quot m (2 ^ (- e)).

(** [new Date(v)] *)
Definition new_Date (v : option value) : option Z :=
  match v with
  | None => None
  | Some VNull => TimeClip 0
  | Some (VBool b) => TimeClip (if b then 1 else 0)
  | Some (VNum (Finite m e)) => TimeClip (truncate m e)
  | Some (VNum _) => None
  | Some (VStr s) =>
      match parse_iso s with
      | Some t => TimeClip t
      | None => t ← engineDate env (VStr s); TimeClip t
      end
  | Some (VDate t) => t
  | Some v => t ← engineDate env v; TimeClip t
  end.

Definition LocalTime (t : Z) : Z := t + LocalTZA env t true.
Definition UTC (t : Z) : Z := t - LocalTZA env t false.

Definition MakeTime (hour min sec ms : Z) : Z :=
  hour * 3600000 + min * 60000 + sec * 1000 + ms.
Definition MakeDate (day time : Z) : Z := day * msPerDay + time.

(** [date.setHours(hour, min, sec, ms)] *)
Definition setHours (date : option Z) (hour min sec ms : Z) : option Z :=
  t ← date;
  TimeClip (UTC (MakeDate (Day (LocalTime t)) (MakeTime hour min sec ms))).

(** [date.getDate()] *)
Definition getDate (date : option Z) : option Z :=
  t ← date; Some (DateFromTime (LocalTime t)).

(** [date.setDate(dt)] *)
Definition setDate (date : option Z) (dt : option Z) : option Z :=
  t ← date;
  dt ← dt;
  let local := LocalTime t in
  TimeClip (UTC (MakeDate
    (MakeDay (YearFromTime local) (MonthFromTime local) dt)
    (TimeWithinDay local))).

(** [a >= b] and [a < b] on dates: false as soon as one is invalid *)
Definition date_ge (a b : option Z) : bool :=
  match a, b with
  | Some x, Some y => y <=? x
  | _, _ => false
  end.

Definition date_lt (a b : option Z) : bool :=
  match a, b with
  | Some x, Some y => x <? y
  | _, _ => false
  end.

(** *** Firestore client

    The operations of the Firestore Node client that the handlers call,
    after their documented behaviour: what [Timestamp] accepts, how a
    [Date] is written, how [update] reads its keys as field paths, how
    [orderBy] filters and orders. *)

Definition MIN_SECONDS : Z := -62135596800.
Definition MAX_SECONDS : Z := 253402300799.

(** The error texts of the client name an argument, and a value given
    for it, between double quotes. *)
Definition quoted (s : string) : string :=
  String "034" (s +:+ String "034" EmptyString).

Definition integer_text (n : Z) : string :=
  if n <? 0 then String "-" (Double.decimal (- n)) else Double.decimal n.

Definition not_within (arg : string) (min max n : Z) : string :=
  "Value for argument " +:+ quoted arg +:+ " must be within ["
  +:+ integer_text min +:+ ", " +:+ integer_text max
  +:+ "] inclusive, but was: " +:+ integer_text n.

(** [new Timestamp(seconds, nanoseconds)] validates both arguments. *)
Definition Timestamp_new (seconds nanoseconds : Z) : result value :=
  if (MIN_SECONDS <=? seconds) && (seconds <=? MAX_SECONDS) then
    if (0 <=? nanoseconds) && (nanoseconds <=? 999999999)
    then Ok (VTimestamp seconds nanoseconds)
    else Throw (not_within "nanoseconds" 0 999999999 nanoseconds)
  else Throw (not_within "seconds" MIN_SECONDS MAX_SECONDS seconds).

(** [Timestamp.fromDate(date)]; the seconds of an Invalid Date are
    [NaN]. *)
Definition Timestamp_fromDate (date : option Z) : result value :=
  match date with
  | None => Throw ("Value for argument " +:+ quoted "seconds"
                   +:+ " is not a valid integer.")
  | Some milliseconds =>
      let seconds := milliseconds / 1000 in
      let nanos := (milliseconds - seconds * 1000) * 1000000 in
      Timestamp_new seconds nanos
  end.

(** [timestamp.toDate()]:
    [new Date(seconds * 1000 + Math.round(nanoseconds / 1e6))] *)
Definition Timestamp_toDate (seconds nanoseconds : Z) : option Z :=
  TimeClip (seconds * 1000 + (nanoseconds + 500000) / 1000000).

(** What the client writes for a JavaScript value: a [Date] becomes a
    [Timestamp] (an Invalid Date is refused), everything else is stored as
    it is, arrays and maps element by element. *)
Fixpoint encode (v : value) : result value :=
  match v with
  | VDate d => Timestamp_fromDate d
  | VArr items =>
      VArr <$> (fix go (l : list value) : result (list value) :=
                  match l with
                  | [] => Ok []
                  | x :: l' => x' ← encode x; r ← go l'; Ok (x' :: r)
                  end) items
  | VObj fields =>
      VObj <$> (fix go (l : object) : result object :=
                  match l with
                  | [] => Ok []
                  | (k, x) :: l' => x' ← encode x; r ← go l'; Ok ((k, x') :: r)
                  end) fields
  | _ => Ok v
  end.

Definition encode_fields (data : object) : result object :=
  mapR (fun kv => v ← encode (snd kv); Ok (fst kv, v)) data.

(** A [DocumentSnapshot]: identifier, and the data when the document
    exists. *)
Record snapshot : Type := {
  snap_id : string;
  snap_data : option object
}.

Definition snap_exists (doc : snapshot) : bool :=
  match snap_data doc with Some _ => true | None => false end.

Fixpoint split_on (sep : ascii) (s : string) : list string :=
  match s with
  | EmptyString => [EmptyString]
  | String c s' =>
      if Ascii.eqb c sep then EmptyString :: split_on sep s'
      else match split_on sep s' with
           | seg :: segs => String c seg :: segs
           | [] => [String c EmptyString]
           end
  end.

Fixpoint string_exists (p : ascii -> bool) (s : string) : bool :=
  match s with
  | EmptyString => false
  | String c s' => p c || string_exists p s'
  end.

Definition ends_with (suffix s : string) : bool :=
  (String.length suffix <=? String.length s)%nat
  && String.eqb (substring (String.length s - String.length suffix)
                           (String.length suffix) s) suffix.

(** The strings that can name a document: not empty, without a slash,
    neither [.] nor [..] nor of the form [__.*__], of at most 1500
    bytes. *)
Definition document_id (id : string) : bool :=
  negb (String.eqb id EmptyString)
  && negb (string_exists (Ascii.eqb "/") id)
  && negb (String.eqb id ".") && negb (String.eqb id "..")
  && negb ((4 <=? String.length id)%nat && String.prefix "__" id && ends_with "__" id)
  && (String.length id <=? 1500)%nat.

Fixpoint has_double_slash (s : string) : bool :=
  match s with
  | EmptyString => false
  | String c s' =>
      match s' with
      | EmptyString => false
      | String c' _ => (Ascii.eqb c "/" && Ascii.eqb c' "/") || has_double_slash s'
      end
  end.

(** [db.collection('tasks').doc(documentPath)].  The argument is a path
    relative to the collection (the route hands over the decoded path
    parameter, which may hold slashes): an empty path and a doubled slash
    are refused, a leading and a trailing slash are dropped, and the
    segments must end on a document, so their number is odd.  The
    reference is the list of segments: one segment names a task, three or
    more a document of a subcollection. *)
Definition collection_doc (documentPath : string) : result (list string) :=
  let not_a_path :=
    "Value for argument " +:+ quoted "documentPath"
    +:+ " is not a valid resource path. " in
  if String.eqb documentPath EmptyString
  then Throw (not_a_path +:+ "Path must be a non-empty string.")
  else if has_double_slash documentPath
  then Throw (not_a_path +:+ "Paths must not contain //.")
  else
    let segments :=
      List.filter (fun seg => negb (String.eqb seg EmptyString))
                  (split_on "/" documentPath) in
    if Nat.odd (length segments) then Ok segments
    else Throw ("Value for argument " +:+ quoted "documentPath"
                +:+ " must point to a document, but was " +:+ quoted documentPath
                +:+ ". Your path does not contain an even number of components.").

(** [docRef.get()].  The server refuses a name with a segment that is no
    identifier.  The API writes to the collection only, so a document of
    a subcollection never exists. *)
Definition docRef_get (docRef : list string) (s : store) : result snapshot :=
  if forallb document_id docRef then
    Ok {| snap_id := List.last docRef EmptyString;
          snap_data := match docRef with [id] => s !! id | _ => None end |}
  else Throw "INVALID_ARGUMENT: invalid document name".

(** The snapshot of the document [add] has created under [id]. *)
Definition doc_get (id : string) (s : store) : snapshot :=
  {| snap_id := id; snap_data := s !! id |}.

(** [db.collection('tasks').add(data)].  The client draws the identifier
    [newId] at random and creates the document under it; creation fails
    when a document with that identifier exists. *)
Definition collection_add (newId : string) (data : object) (s : store)
  : result store :=
  stored ← encode_fields data;
  if storeAccepts env stored then
    match s !! newId with
    | Some _ => Throw "ALREADY_EXISTS: Document already exists"
    | None => Ok (<[newId := stored]> s)
    end
  else Throw "INVALID_ARGUMENT".

(** [docRef.delete()] *)
Definition doc_delete (docRef : list string) (s : store) : store :=
  match docRef with
  | [id] => delete id s
  | _ => s
  end.

(** Field paths of [update]: a key is split at its dots. *)
Definition reserved_char (c : ascii) : bool :=
  Ascii.eqb c "*" || Ascii.eqb c "~" || Ascii.eqb c "/"
  || Ascii.eqb c "[" || Ascii.eqb c "]".

(** [FieldPath.fromArgument(key)]: no empty segment (so no leading,
    trailing or doubled dot), none of the characters [*~/[]]. *)
Definition FieldPath_fromArgument (key : string) : result (list string) :=
  let segments := split_on "." key in
  if existsb (fun seg => String.eqb seg EmptyString) segments
     || string_exists reserved_char key
  then Throw "Paths can't be empty and must not contain '*~/[]'."
  else Ok segments.

Fixpoint prefix_of (p q : list string) : bool :=
  match p, q with
  | [], _ => true
  | a :: p', b :: q' => String.eqb a b && prefix_of p' q'
  | _ :: _, [] => false
  end.

(** No field path may be a prefix of another one. *)
Fixpoint no_conflicts (paths : list (list string)) : bool :=
  match paths with
  | [] => true
  | p :: rest =>
      forallb (fun q => negb (prefix_of p q) && negb (prefix_of q p)) rest
      && no_conflicts rest
  end.

(** Assign [v] at a field path, creating or replacing the maps on the
    way. *)
Fixpoint set_path (o : object) (path : list string) (v : value) : object :=
  match path with
  | [] => o
  | [k] => obj_set o k v
  | k :: path' =>
      let inner := match obj_get o k with
                   | Some (VObj fields) => fields
                   | _ => []
                   end in
      obj_set o k (VObj (set_path inner path' v))
  end.

(** The top-level field a key of [update] writes to. *)
Definition field_root (key : string) : string :=
  hd EmptyString (split_on "." key).

(** [docRef.update(data)].  An empty [data] is refused with a reminder of
    how [update] is called. *)
Definition update_usage : string :=
  "Update() requires either a single JavaScript object or an alternating list of field/value pairs that can be followed by an optional precondition.".

Definition doc_update (docRef : list string) (data : object) (s : store)
  : result store :=
  match data with
  | [] => Throw (update_usage +:+ " At least one field must be updated.")
  | _ :: _ =>
      writes ← mapR (fun kv => path ← FieldPath_fromArgument (fst kv);
                               v ← encode (snd kv);
                               Ok (path, v)) data;
      if no_conflicts (map fst writes) then
        match docRef with
        | [id] =>
            match s !! id with
            | None => Throw "NOT_FOUND: No document to update"
            | Some old =>
                let new :=
                  fold_left (fun o w => set_path o (fst w) (snd w)) writes old in
                if storeAccepts env new then Ok (<[id := new]> s)
                else Throw "INVALID_ARGUMENT"
            end
        | _ => Throw "NOT_FOUND: No document to update"
        end
      else Throw "Field was specified multiple times."
  end.

(** The order of Firestore on field values: by type first (null, boolean,
    number, timestamp, string, ..., array, map), then within the type:
    [false] before [true], numbers by value with [NaN] first, timestamps
    by instant, strings by their bytes, arrays element by element, maps
    field by field in the order of the keys.  A [Date] is never stored (it
    is written as a timestamp) and is ranked last. *)
Definition type_rank (v : value) : Z :=
  match v with
  | VNull => 0
  | VBool _ => 1
  | VNum _ => 2
  | VTimestamp _ _ => 3
  | VStr _ => 4
  | VArr _ => 9
  | VObj _ => 10
  | VDate _ => 11
  end.

Definition compare_number (x y : number) : comparison :=
  match x, y with
  | NaN, NaN => Eq
  | NaN, _ => Lt
  | _, NaN => Gt
  | Infinity a, Infinity b => Bool.compare b a
  | Infinity a, Finite _ _ => if a then Lt else Gt
  | Finite _ _, Infinity b => if b then Gt else Lt
  | Finite m1 e1, Finite m2 e2 =>
      m1 * 2 ^ (e1 - Z.min e1 e2) ?= m2 * 2 ^ (e2 - Z.min e1 e2)
  end.

(** Two sequences, element by element with [cmp]: the first difference
    decides; of two sequences that agree as far as the shorter one goes,
    the shorter one comes first. *)
Fixpoint compare_lists {A : Type} (cmp : A -> A -> comparison) (l r : list A)
  : comparison :=
  match l, r with
  | [], [] => Eq
  | [], _ :: _ => Lt
  | _ :: _, [] => Gt
  | x :: l', y :: r' =>
      match cmp x y with
      | Eq => compare_lists cmp l' r'
      | c => c
      end
  end.

(** Two fields of maps: the keys, then the values with [cmp]. *)
Definition compare_entry (cmp : value -> value -> comparison)
    (p q : string * value) : comparison :=
  match String.compare (fst p) (fst q) with
  | Eq => cmp (snd p) (snd q)
  | c => c
  end.

(** The fields of a map in ascending order of their keys.  Of two
    entries of the list with one key, the first is the field (it is the
    one [obj_get] reads). *)
Fixpoint insert_entry (kv : string * value) (sorted : object) : object :=
  match sorted with
  | [] => [kv]
  | kv' :: rest =>
      match String.compare (fst kv) (fst kv') with
      | Lt => kv :: sorted
      | Eq => kv :: rest
      | Gt => kv' :: insert_entry kv rest
      end
  end.

Definition sorted_entries (fields : object) : object :=
  fold_right insert_entry [] fields.

(** One level of the order, with [inner] for the elements of arrays and
    for the values of maps. *)
Definition compare_with (inner : value -> value -> comparison) (a b : value)
  : comparison :=
  match a, b with
  | VBool x, VBool y => Bool.compare x y
  | VNum x, VNum y => compare_number x y
  | VTimestamp s1 n1, VTimestamp s2 n2 =>
      match s1 ?= s2 with
      | Eq => n1 ?= n2
      | c => c
      end
  | VStr x, VStr y => String.compare x y
  | VArr l, VArr r => compare_lists inner l r
  | VObj l, VObj r =>
      compare_lists (compare_entry inner) (sorted_entries l) (sorted_entries r)
  | _, _ => type_rank a ?= type_rank b
  end.

(** How many levels of arrays and maps a value has. *)
Fixpoint nesting (v : value) : nat :=
  match v with
  | VArr items => S (fold_right Nat.max O (map nesting items))
  | VObj fields => S (fold_right Nat.max O (map (fun kv => nesting (snd kv)) fields))
  | _ => O
  end.

(** The order down to [depth] levels of arrays and maps. *)
Fixpoint compare_nested (depth : nat) : value -> value -> comparison :=
  match depth with
  | O => compare_with (fun _ _ => Eq)
  | S depth' => compare_with (compare_nested depth')
  end.

(** The order of the store.  The recursion follows the first value through
    all its levels, so that elements are compared by the order itself
    (lemma [compare_value_unfold]). *)
Definition compare_value (a b : value) : comparison :=
  compare_nested (nesting a) a b.

(** [d1] comes no later than [d2] in descending order of [field], ties
    broken by document identifier, descending too. *)
Definition before_desc (field : string) (d1 d2 : string * object) : bool :=
  match obj_get (snd d1) field, obj_get (snd d2) field with
  | Some a, Some b =>
      match compare_value a b with
      | Gt => true
      | Lt => false
      | Eq => match String.compare (fst d1) (fst d2) with Lt => false | _ => true end
      end
  | _, _ => true
  end.

Definition comes_before (field : string) : relation (string * object) :=
  fun d1 d2 => before_desc field d1 d2 = true.

#[global] Instance comes_before_dec field : RelDecision (comes_before field).
Proof. intros d1 d2. unfold comes_before. apply _. Defined.

Definition to_snapshot (d : string * object) : snapshot :=
  {| snap_id := fst d; snap_data := Some (snd d) |}.

(** [db.collection('tasks').orderBy(field, 'desc').get()]: the documents
    that have [field], in descending order of it. *)
Definition query_orderBy_desc (field : string) (s : store) : list snapshot :=
  map to_snapshot
    (merge_sort (comes_before field)
       (filter (fun d => obj_has (snd d) field = true) (map_to_list s))).

(** [db.collection('tasks').get()]: every document (the order of the
    result, by identifier in Firestore, plays no role in the handlers). *)
Definition collection_get (s : store) : list snapshot :=
  map to_snapshot (map_to_list s).

(** *** The server *)

(** [v && typeof v === 'object' && 'toDate' in v] *)
Definition has_toDate (v : value) : bool :=
  match v with
  | VTimestamp _ _ => true
  | VObj fields => obj_has fields "toDate"
  | _ => false
  end.

(** [v.toDate().toISOString()]; a map that merely has a key [toDate] has
    nothing callable under it. *)
Definition toDate_toISOString (v : value) : result value :=
  match v with
  | VTimestamp seconds nanos =>
      iso ← toISOString (Timestamp_toDate seconds nanos); Ok (VStr iso)
  | _ => Throw "data[key].toDate is not a function"
  end.

(** The body of [Object.keys(data).forEach(key => ...)], with the object
    [converted] threaded through. *)
Fixpoint convert_keys (data : object) (keys : list string) (converted : object)
  : result object :=
  match keys with
  | [] => Ok converted
  | key :: keys' =>
      match obj_get data key with
      | Some v =>
          if has_toDate v then
            iso ← toDate_toISOString v;
            convert_keys data keys' (obj_set converted key iso)
          else convert_keys data keys' (obj_set converted key v)
      | None => convert_keys data keys' converted
      end
  end.

Definition convertTimestamps (doc : snapshot) : result object :=
  match snap_data doc with
  | None => Throw "Cannot convert undefined or null to object"
  | Some data =>
      converted ← convert_keys data (obj_keys data) [];
      Ok (obj_spread [("id", VStr (snap_id doc))] converted)
  end.

Record response : Type := {
  status : Z;
  body : value
}.

Definition json (code : Z) (payload : value) : response :=
  {| status := code; body := payload |}.

Definition message_body (message : string) : value :=
  VObj [("message", VStr message)].

(** [GET /api/tasks] *)
Definition get_tasks (s : store) : response :=
  let snapshot := query_orderBy_desc "createdAt" s in
  match snapshot with
  | [] => json 200 (VArr [])
  | _ :: _ =>
      match mapR convertTimestamps snapshot with
      | Ok tasks => json 200 (VArr (map VObj tasks))
      | Throw m => json 500 (message_body m)
      end
  end.

(** The object literal of the create handler:
    [{...req.body, date: new Date(req.body.date), createdAt: new Date(),
      completed: req.body.completed || false}] *)
Definition taskData (now : Z) (req_body : object) : object :=
  let o := obj_spread [] req_body in
  let o := obj_set o "date" (VDate (new_Date (obj_get req_body "date"))) in
  let o := obj_set o "createdAt" (VDate (TimeClip now)) in
  obj_set o "completed" (js_or (obj_get req_body "completed") (VBool false)).

(** [POST /api/tasks]; [now] is the clock reading of [new Date()], [newId]
    the identifier drawn by [add]. *)
Definition post_tasks (now : Z) (newId : string) (req_body : object) (s : store)
  : response * store :=
  match collection_add newId (taskData now req_body) s with
  | Throw m => (json 400 (message_body m), s)
  | Ok s' =>
      match convertTimestamps (doc_get newId s') with
      | Ok task => (json 201 (VObj task), s')
      | Throw m => (json 400 (message_body m), s')
      end
  end.

(** [{ ...req.body }] followed by the coercion of a truthy [date] *)
Definition updateData (req_body : object) : object :=
  let o := obj_spread [] req_body in
  if truthy (obj_get o "date")
  then obj_set o "date" (VDate (new_Date (obj_get o "date")))
  else o.

(** [PUT /api/tasks/:id] *)
Definition put_task (taskId : string) (req_body : object) (s : store)
  : response * store :=
  match (taskRef ← collection_doc taskId;
         taskDoc ← docRef_get taskRef s;
         Ok (taskRef, taskDoc)) with
  | Throw m => (json 400 (message_body m), s)
  | Ok (taskRef, taskDoc) =>
      if negb (snap_exists taskDoc)
      then (json 404 (message_body "Task not found"), s)
      else
        match doc_update taskRef (updateData req_body) s with
        | Throw m => (json 400 (message_body m), s)
        | Ok s' =>
            match (updatedTask ← docRef_get taskRef s';
                   convertTimestamps updatedTask) with
            | Ok task => (json 200 (VObj task), s')
            | Throw m => (json 400 (message_body m), s')
            end
        end
  end.

(** [DELETE /api/tasks/:id] *)
Definition delete_task (taskId : string) (s : store) : response * store :=
  match (taskRef ← collection_doc taskId;
         taskDoc ← docRef_get taskRef s;
         Ok (taskRef, taskDoc)) with
  | Throw m => (json 500 (message_body m), s)
  | Ok (taskRef, taskDoc) =>
      if negb (snap_exists taskDoc)
      then (json 404 (message_body "Task not found"), s)
      else (json 200 (message_body "Task deleted successfully"),
            doc_delete taskRef s)
  end.

(** [today] and [tomorrow] of the statistics handler *)
Definition startOfToday (now : Z) : option Z :=
  setHours (TimeClip now) 0 0 0 0.

Definition startOfTomorrow (now : Z) : option Z :=
  let today := startOfToday now in
  setDate today ((fun d => d + 1) <$> getDate today).

Definition is_today (now : Z) (task : object) : bool :=
  let taskDate := new_Date (obj_get task "date") in
  date_ge taskDate (startOfToday now) && date_lt taskDate (startOfTomorrow now).

(** [totalTasks > 0 ? (completedTasks / totalTasks * 100).toFixed(1) : 0] *)
Definition completionRate (totalTasks completedTasks : nat) : value :=
  if (0 <? totalTasks)%nat then
    VStr (Double.toFixed (engineToString env) 1
            (Double.mul (Double.div (Double.of_nat completedTasks)
                                    (Double.of_nat totalTasks))
                        (Double.of_nat 100)))
  else VNum (Finite 0 0).

Definition num (n : nat) : value := VNum (Double.of_nat n).

(** [GET /api/stats] *)
Definition get_stats (now : Z) (s : store) : response :=
  match mapR convertTimestamps (collection_get s) with
  | Throw m => json 500 (message_body m)
  | Ok tasks =>
      let totalTasks := length tasks in
      let completedTasks :=
        length (filter (fun task => truthy (obj_get task "completed") = true) tasks) in
      let todayTasks := length (filter (fun task => is_today now task = true) tasks) in
      json 200 (VObj [("totalTasks", num totalTasks);
                      ("completedTasks", num completedTasks);
                      ("todayTasks", num todayTasks);
                      ("completionRate", completionRate totalTasks completedTasks)])
  end.

(** [GET /api/health] *)
Definition get_health : response :=
  json 200 (VObj [("status", VStr "OK"); ("message", VStr "Diary API is running")]).

(** Requests, and the effect of serving one on the collection. *)
Inductive request : Type :=
| GetTasks
| PostTasks (now : Z) (newId : string) (req_body : object)
| PutTask (taskId : string) (req_body : object)
| DeleteTask (taskId : string)
| GetStats (now : Z)
| GetHealth.

Definition serve (r : request) (s : store) : response * store :=
  match r with
  | GetTasks => (get_tasks s, s)
  | PostTasks now newId req_body => post_tasks now newId req_body s
  | PutTask taskId req_body => put_task taskId req_body s
  | DeleteTask taskId => delete_task taskId s
  | GetStats now => (get_stats now s, s)
  | GetHealth => (get_health, s)
  end.

(** The collections the API can produce from an empty one. *)
Inductive reachable : store -> Prop :=
| reachable_empty : reachable ∅
| reachable_serve r s : reachable s -> reachable (serve r s).2.

End Server.

(** ** Notions used in the statements *)

(** A value as [JSON.parse] delivers it: no [Date], no timestamp. *)
Fixpoint is_json (v : value) : bool :=
  match v with
  | VDate _ | VTimestamp _ _ => false
  | VArr items => forallb is_json items
  | VObj fields => forallb (fun kv => is_json (snd kv)) fields
  | _ => true
  end.

Definition json_object (o : object) : bool :=
  forallb (fun kv => is_json (snd kv)) o.

(** The time values a [Timestamp] can be made from. *)
Definition timestamp_range (t : Z) : Prop :=
  MIN_SECONDS * 1000 <= t < (MAX_SECONDS + 1) * 1000.

(** Every field can be encoded by the store client. *)
Definition encodable (o : object) : Prop :=
  Forall (fun kv => exists w, encode (snd kv) = Ok w) o.

(** What the loop body of [convertTimestamps] assigns for a field. *)
Definition shape_field (v : value) : result value :=
  if has_toDate v then toDate_toISOString v else Ok v.

(** A field that [convertTimestamps] can shape: not a map with a key
    [toDate], and a timestamp only within the range of [Date]. *)
Definition plain_field (v : value) : bool :=
  match v with
  | VObj fields => negb (obj_has fields "toDate")
  | VTimestamp seconds nanos =>
      match Timestamp_toDate seconds nanos with Some _ => true | None => false end
  | _ => true
  end.

Definition plain_document (data : object) : bool :=
  forallb (fun kv => plain_field (snd kv)) data.

Definition all_plain (s : store) : bool :=
  forallb (fun d => plain_document (snd d)) (map_to_list s).

(** Every document has a [createdAt] field (an invariant of the API, see
    [reachable_has_createdAt]). *)
Definition has_createdAt (s : store) : Prop :=
  forall id data, s !! id = Some data -> is_Some (obj_get data "createdAt").

(** The text of a number of tenths [n]: its integer part, a point, one
    digit. *)
Definition rate_text (n : Z) : string :=
  Double.decimal (n / 10) +:+ String "." (String (digit_char (n mod 10)) EmptyString).

(** The time values [toISOString] writes with a four-digit year and that
    a [Timestamp] can hold: years 1 to 9999. *)
Definition iso_range (t : Z) : Prop :=
  -62135596800000 <= t <= 253402300799999.

(** The instant a stored task is dated at: the date of its timestamp, or
    what [new Date] makes of any other value. *)
Definition stored_date (env : environment) (data : object) : option Z :=
  match obj_get data "date" with
  | Some (VTimestamp seconds nanos) => Timestamp_toDate seconds nanos
  | v => new_Date env v
  end.

(** The [date] of the document, when a timestamp, is within
    [iso_range]. *)
Definition date_in_range (data : object) : bool :=
  match obj_get data "date" with
  | Some (VTimestamp seconds nanos) =>
      let ms := seconds * 1000 + (nanos + 500000) / 1000000 in
      (-62135596800000 <=? ms) && (ms <=? 253402300799999)
  | _ => true
  end.

Definition all_dates_in_range (s : store) : bool :=
  forallb (fun d => date_in_range (snd d)) (map_to_list s).

(** Local midnight of the calendar day of [now], and the same local clock
    time one calendar day later, as UTC instants. *)
Definition local_day_start (env : environment) (now : Z) : option Z :=
  t ← JSDate.TimeClip now;
  JSDate.TimeClip (UTC env (Calendar.Day (LocalTime env t) * Calendar.msPerDay)).

Definition next_local_day_start (env : environment) (now : Z) : option Z :=
  t0 ← local_day_start env now;
  JSDate.TimeClip
    (UTC env ((Calendar.Day (LocalTime env t0) + 1) * Calendar.msPerDay
              + Calendar.TimeWithinDay (LocalTime env t0))).

Definition in_today (env : environment) (now : Z) (t : option Z) : bool :=
  date_ge t (local_day_start env now) && date_lt t (next_local_day_start env now).

(** ** Sample environments, requests and collections *)

(** A server whose clock runs on UTC, with an engine that accepts no date
    beyond the modelled ISO forms and a store without further checks. *)
Definition utc_env : environment :=
  {| engineDate := fun _ => None;
     engineToString := fun _ => "1e+21";
     LocalTZA := fun _ _ => 0;
     storeAccepts := fun _ => true |}.

Definition task_A : object := [("title", VStr "A"); ("date", VStr "2024-03-15")].
Definition task_B : object :=
  [("title", VStr "B"); ("date", VStr "2024-03-16T10:00:00.000Z")].

(** A created at clock reading 1700000000000, then B one millisecond
    later; then A marked completed. *)
Definition store_A : store := (post_tasks utc_env 1700000000000 "a1" task_A ∅).2.
Definition store_AB : store := (post_tasks utc_env 1700000000001 "b2" task_B store_A).2.
Definition store_AB_done : store :=
  (put_task utc_env "a1" [("completed", VBool true)] store_AB).2.

Definition stored_A : object :=
  [("title", VStr "A"); ("date", VTimestamp 1710460800 0);
   ("createdAt", VTimestamp 1700000000 0); ("completed", VBool false)].

(** The shaped tasks of [store_AB_done] and of [store_AB]. *)
Definition shaped_A (completed : bool) : object :=
  [("id", VStr "a1"); ("title", VStr "A");
   ("date", VStr "2024-03-15T00:00:00.000Z");
   ("createdAt", VStr "2023-11-14T22:13:20.000Z");
   ("completed", VBool completed)].

Definition shaped_B : object :=
  [("id", VStr "b2"); ("title", VStr "B");
   ("date", VStr "2024-03-16T10:00:00.000Z");
   ("createdAt", VStr "2023-11-14T22:13:20.001Z");
   ("completed", VBool false)].

(** A payload that tries to set [createdAt], and what the store holds
    for it when created at clock reading 1700000000001. *)
Definition task_B_backdated : object :=
  [("title", VStr "B"); ("createdAt", VStr "1999-01-01T00:00:00.000Z");
   ("date", VStr "2024-03-16T10:00:00.000Z")].

Definition stored_B : object :=
  [("title", VStr "B"); ("createdAt", VTimestamp 1700000000 1000000);
   ("date", VTimestamp 1710583200 0); ("completed", VBool false)].

Definition untitled_task : object := [("date", VStr "2024-03-15")].

(** A and then B created within the same millisecond. *)
Definition same_instant_A : response * store :=
  post_tasks utc_env 1700000000000 "b1" task_A ∅.
Definition same_instant_B : response * store :=
  post_tasks utc_env 1700000000000 "a2" task_B same_instant_A.2.

(** A document whose data has a field [id] of its own, and one with a map
    that has a key [toDate]; the create handler stores the first for the
    payload [{title: 'A', id: 'mine', date: '2024-03-15'}]. *)
Definition doc_own_id : snapshot :=
  {| snap_id := "a1";
     snap_data := Some [("title", VStr "A"); ("id", VStr "mine");
                        ("date", VTimestamp 1710460800 0);
                        ("createdAt", VTimestamp 1700000000 0);
                        ("completed", VBool false)] |}.

Definition doc_toDate_key : snapshot :=
  {| snap_id := "a2";
     snap_data := Some [("title", VStr "B");
                        ("notes", VObj [("toDate", VStr "tomorrow")])] |}.

(** A server on New York time around the end of daylight saving time in
    2024: the offset goes from -4 h to -5 h at 06:00 UTC on 3 November
    (02:00 local), so that day has 25 hours. *)
Definition ny_env : environment :=
  {| engineDate := fun _ => None;
     engineToString := fun _ => "1e+21";
     LocalTZA := fun t isUTC =>
       if isUTC then (if t <? 1730613600000 then -14400000 else -18000000)
       else (if t <? 1730613600000 - 14400000 then -14400000 else -18000000);
     storeAccepts := fun _ => true |}.

(** Noon UTC on 3 November 2024, a task dated 23:30 local time that day,
    and a task dated exactly 24 hours earlier (00:30 local time, the same
    day). *)
Definition ny_noon : Z := 1730635200000.
Definition task_late : object :=
  [("title", VStr "late"); ("date", VStr "2024-11-04T04:30:00.000Z")].
Definition task_early : object :=
  [("title", VStr "early"); ("date", VStr "2024-11-03T04:30:00.000Z")].
Definition store_dst : store :=
  (post_tasks ny_env 1730635100000 "e2" task_early
     (post_tasks ny_env 1730635000000 "l1" task_late ∅).2).2.

(** A collection of [total] tasks of which the first [completed] are
    completed. *)
Definition task_numbered (completed i : nat) : string * object :=
  ("t" +:+ Double.decimal (Z.of_nat i),
   [("title", VStr "task"); ("date", VTimestamp 1710460800 0);
    ("createdAt", VTimestamp 1700000000 0);
    ("completed", VBool (i <? completed)%nat)]).

Definition tasks_numbered (total completed : nat) : store :=
  list_to_map (map (task_numbered completed) (seq 0 total)).

(** The collection [store_A] with a second task, then [createdAt]
    overwritten by updates: [[2]] for the first task and [[1]] for the
    second. *)
Definition store_arrays : store :=
  (put_task utc_env "a1" [("createdAt", VArr [VNum (Finite 2 0)])]
     (put_task utc_env "z9" [("createdAt", VArr [VNum (Finite 1 0)])]
        (post_tasks utc_env 1700000000001 "z9" task_B store_A).2).2).2.

(** ** Start-up: the credentials of Firebase Admin

    [process.env], once [dotenv.config()] has run, is a finite map from
    names to texts.  [JSON.parse] belongs to the engine and is a
    parameter.  [initFirebaseAdmin] is given by the credential it hands to
    [admin.initializeApp], or by the error it throws. *)

Abbreviation process_env := (gmap string string).

(** [process.env.NAME] *)
Definition getenv (e : process_env) (name : string) : option value :=
  VStr <$> e !! name.

(** [admin.credential.applicationDefault()], or [admin.credential.cert(svc)]
    for a service account object, whose properties may hold [undefined]
    ([None]). *)
Inductive credential : Type :=
| applicationDefault
| cert (svc : list (string * option value)).

(** [key.replace(/\\n/g, '\n')]: scanning from the left, every backslash
    followed by the letter n becomes one line feed. *)
Fixpoint replace_escaped_newlines (s : string) : string :=
  match s with
  | EmptyString => s
  | String c1 s1 =>
      match s1 with
      | EmptyString => s
      | String c2 s2 =>
          if Ascii.eqb c1 "\" && Ascii.eqb c2 "n"
          then String "010" (replace_escaped_newlines s2)
          else String c1 (replace_escaped_newlines s1)
      end
  end.

Definition not_valid_JSON : string :=
  "FIREBASE_SERVICE_ACCOUNT env var is not valid JSON".

Definition no_project_id : string :=
  "Service account JSON (FIREBASE_SERVICE_ACCOUNT) must contain a string "
  +:+ String "034" ("project_id" +:+ String "034" " property").

Definition missing_credentials : string :=
  "Missing Firebase credentials. Set GOOGLE_APPLICATION_CREDENTIALS, or provide FIREBASE_SERVICE_ACCOUNT (JSON), or provide FIREBASE_PROJECT_ID, FIREBASE_CLIENT_EMAIL and FIREBASE_PRIVATE_KEY.".

Section Startup.

Variable JSON_parse : string -> result value.

Definition initFirebaseAdmin (e : process_env) : result credential :=
  if truthy (getenv e "GOOGLE_APPLICATION_CREDENTIALS") then
    Ok applicationDefault
  else if truthy (getenv e "FIREBASE_SERVICE_ACCOUNT") then
    match JSON_parse (default EmptyString (e !! "FIREBASE_SERVICE_ACCOUNT")) with
    | Throw _ => Throw not_valid_JSON
    | Ok VNull => Throw "Cannot read properties of null (reading 'project_id')"
    | Ok svc =>
        let fields := match svc with VObj fields => fields | _ => [] end in
        match obj_get fields "project_id" with
        | Some (VStr project) =>
            if String.eqb project EmptyString then Throw no_project_id
            else
              let fields :=
                match obj_get fields "private_key" with
                | Some (VStr key) =>
                    if String.eqb key EmptyString then fields
                    else obj_set fields "private_key"
                           (VStr (replace_escaped_newlines key))
                | _ => fields
                end in
              Ok (cert (map (fun kv => (fst kv, Some (snd kv))) fields))
        | _ => Throw no_project_id
        end
    end
  else if truthy (getenv e "FIREBASE_PROJECT_ID")
          && truthy (getenv e "FIREBASE_CLIENT_EMAIL")
          && truthy (getenv e "FIREBASE_PRIVATE_KEY") then
    Ok (cert
      [("type", Some (VStr "service_account"));
       ("project_id", getenv e "FIREBASE_PROJECT_ID");
       ("private_key_id", getenv e "FIREBASE_PRIVATE_KEY_ID");
       ("private_key",
        Some (VStr (replace_escaped_newlines
                      (default EmptyString (e !! "FIREBASE_PRIVATE_KEY")))));
       ("client_email", getenv e "FIREBASE_CLIENT_EMAIL");
       ("client_id", getenv e "FIREBASE_CLIENT_ID");
       ("auth_uri", Some (VStr "https://accounts.google.com/o/oauth2/auth"));
       ("token_uri", Some (VStr "https://oauth2.googleapis.com/token"));
       ("auth_provider_x509_cert_url",
        Some (VStr "https://www.googleapis.com/oauth2/v1/certs"));
       ("client_x509_cert_url", getenv e "FIREBASE_CLIENT_CERT_URL");
       ("universe_domain", Some (VStr "googleapis.com"))])
  else Throw missing_credentials.

End Startup.

(** ** The client (App.jsx)

    The state of the [App] component and its event handlers.  A request
    is kept as the call made ([axios.put] on
    [`${API_BASE}/tasks/${taskId}`] is [put_task_call taskId data]); what
    answers it is a parameter: [axios call server] resolves with
    [response.data] or rejects, and leaves the server in a new state.
    [today] stands for the text [format(new Date(), 'yyyy-MM-dd')] at the
    time of the call, [confirmed] for the answer to [window.confirm], and
    [format_parseISO date] for [format(parseISO(date), 'yyyy-MM-dd')] of
    the date library, which gives a text or throws.  The two reads that
    follow a write are served in the order they are issued. *)

Module Client.

Inductive api_call : Type :=
| get_tasks_call (params : object)
| get_stats_call
| post_task_call (data : object)
| put_task_call (taskId : value) (data : object)
| delete_task_call (taskId : value).

Record app : Type := {
  tasks : value;
  stats : value;
  loading : bool;
  selectedDate : string;
  formData : object;
  editingId : value
}.

Definition setTasks (v : value) (st : app) : app :=
  {| tasks := v; stats := stats st; loading := loading st;
     selectedDate := selectedDate st; formData := formData st;
     editingId := editingId st |}.

Definition setStats (v : value) (st : app) : app :=
  {| tasks := tasks st; stats := v; loading := loading st;
     selectedDate := selectedDate st; formData := formData st;
     editingId := editingId st |}.

Definition setLoading (b : bool) (st : app) : app :=
  {| tasks := tasks st; stats := stats st; loading := b;
     selectedDate := selectedDate st; formData := formData st;
     editingId := editingId st |}.

Definition setFormData (o : object) (st : app) : app :=
  {| tasks := tasks st; stats := stats st; loading := loading st;
     selectedDate := selectedDate st; formData := o;
     editingId := editingId st |}.

Definition setEditingId (v : value) (st : app) : app :=
  {| tasks := tasks st; stats := stats st; loading := loading st;
     selectedDate := selectedDate st; formData := formData st;
     editingId := v |}.

Definition setSelectedDate (d : string) (st : app) : app :=
  {| tasks := tasks st; stats := stats st; loading := loading st;
     selectedDate := d; formData := formData st;
     editingId := editingId st |}.

(** The form as it is reset: empty texts, today's date, priority
    [medium]. *)
Definition emptyForm (today : string) : object :=
  [("title", VStr EmptyString); ("description", VStr EmptyString);
   ("date", VStr today); ("priority", VStr "medium");
   ("category", VStr EmptyString)].

Definition initial (today : string) : app :=
  {| tasks := VArr []; stats := VObj []; loading := false;
     selectedDate := today; formData := emptyForm today;
     editingId := VNull |}.

Section Handlers.

Context (browser : environment) {server : Type}.
Context (axios : api_call -> server -> result value * server).
Context (format_parseISO : value -> result string).

(** The server, and the calls made so far. *)
Definition world : Type := server * list api_call.

Definition request (call : api_call) (w : world) : result value * world :=
  let '(answer, srv) := axios call (fst w) in
  (answer, (srv, snd w ++ [call])).

Definition fetchTasks (st : app) (w : world) : app * world :=
  let st := setLoading true st in
  let '(answer, w) := request (get_tasks_call [("date", VStr (selectedDate st))]) w in
  match answer with
  | Ok data => (setLoading false (setTasks data st), w)
  | Throw _ => (setLoading false st, w)
  end.

Definition fetchStats (st : app) (w : world) : app * world :=
  let '(answer, w) := request get_stats_call w in
  match answer with
  | Ok data => (setStats data st, w)
  | Throw _ => (st, w)
  end.

(** The effect run on mount and when [selectedDate] changes. *)
Definition useEffect (st : app) (w : world) : app * world :=
  let '(st, w) := fetchTasks st w in
  fetchStats st w.

(** [{...formData, date: new Date(formData.date).toISOString()}] *)
Definition submitted (formData : object) : result object :=
  iso ← JSDate.toISOString (new_Date browser (obj_get formData "date"));
  Ok (obj_set (obj_spread [] formData) "date" (VStr iso)).

Definition handleSubmit (today : string) (st : app) (w : world) : app * world :=
  match submitted (formData st) with
  | Throw _ => (st, w)
  | Ok data =>
      let call := if truthy (Some (editingId st))
                  then put_task_call (editingId st) data
                  else post_task_call data in
      let '(answer, w) := request call w in
      match answer with
      | Throw _ => (st, w)
      | Ok _ =>
          let st := setFormData (emptyForm today) st in
          let st := setEditingId VNull st in
          let '(st, w) := fetchTasks st w in
          fetchStats st w
      end
  end.

(** [task._id || task.id] *)
Definition task_id (task : object) : option value :=
  if truthy (obj_get task "_id") then obj_get task "_id" else obj_get task "id".

(** [editTask(task)].  [editingId] is only tested for truthiness, and
    used when truthy, so an identifier that is [undefined] is kept as
    [null].  When the date library throws, the identifier has been set and
    the form is left as it was. *)
Definition editTask (today : string) (task : object) (st : app) : app :=
  let st := setEditingId (default VNull (task_id task)) st in
  match (if truthy (obj_get task "date")
         then format_parseISO (default VNull (obj_get task "date"))
         else Ok today) with
  | Throw _ => st
  | Ok day =>
      setFormData
        [("title", js_or (obj_get task "title") (VStr EmptyString));
         ("description", js_or (obj_get task "description") (VStr EmptyString));
         ("date", VStr day);
         ("priority", js_or (obj_get task "priority") (VStr "medium"));
         ("category", js_or (obj_get task "category") (VStr EmptyString))]
        st
  end.

Definition cancelEdit (today : string) (st : app) : app :=
  setFormData (emptyForm today) (setEditingId VNull st).

(** [{...formData, [e.target.name]: e.target.value}] *)
Definition handleInputChange (name value : string) (st : app) : app :=
  setFormData (obj_set (obj_spread [] (formData st)) name (VStr value)) st.

Definition toggleTaskCompletion (taskId : value) (completed : option value)
    (st : app) (w : world) : app * world :=
  let '(answer, w) :=
    request (put_task_call taskId [("completed", VBool (negb (truthy completed)))]) w in
  match answer with
  | Throw _ => (st, w)
  | Ok _ =>
      let '(st, w) := fetchTasks st w in
      fetchStats st w
  end.

Definition deleteTask (confirmed : bool) (taskId : value) (st : app) (w : world)
  : app * world :=
  if confirmed then
    let '(answer, w) := request (delete_task_call taskId) w in
    match answer with
    | Throw _ => (st, w)
    | Ok _ =>
        let '(st, w) := fetchTasks st w in
        fetchStats st w
    end
  else (st, w).

(** The date input above the list: [setSelectedDate(e.target.value)],
    and the effect that depends on [selectedDate] when it has changed. *)
Definition selectDate (value : string) (st : app) (w : world) : app * world :=
  if String.eqb value (selectedDate st) then (st, w)
  else useEffect (setSelectedDate value st) w.

(** The events of the page: mounting, the date input of the list, the
    five inputs of the form, the form's submit and cancel buttons, and the
    three buttons of a task. *)
Inductive form_input : Type :=
| input_title | input_description | input_date | input_priority | input_category.

Definition input_name (i : form_input) : string :=
  match i with
  | input_title => "title"
  | input_description => "description"
  | input_date => "date"
  | input_priority => "priority"
  | input_category => "category"
  end.

Inductive event : Type :=
| Mount
| SelectDate (value : string)
| Input (name : form_input) (value : string)
| Submit (today : string)
| CancelEdit (today : string)
| Edit (today : string) (task : object)
| Toggle (taskId : value) (completed : option value)
| Delete (confirmed : bool) (taskId : value).

Definition handle (e : event) (c : app * world) : app * world :=
  let '(st, w) := c in
  match e with
  | Mount => useEffect st w
  | SelectDate value => selectDate value st w
  | Input name value => (handleInputChange (input_name name) value st, w)
  | Submit today => handleSubmit today st w
  | CancelEdit today => (cancelEdit today st, w)
  | Edit today task => (editTask today task st, w)
  | Toggle taskId completed => toggleTaskCompletion taskId completed st w
  | Delete confirmed taskId => deleteTask confirmed taskId st w
  end.

(** The states of the page: the initial one, and what an event makes of
    a state. *)
Inductive reachable : app * world -> Prop :=
| reachable_initial today srv : reachable (initial today, (srv, []))
| reachable_handle e c : reachable c -> reachable (handle e c).

End Handlers.

End Client.

(** ** Further notions used in the statements *)

(** The text holds a backslash followed by the letter n. *)
Fixpoint has_escaped_newline (s : string) : bool :=
  match s with
  | EmptyString => false
  | String c1 s1 =>
      match s1 with
      | EmptyString => false
      | String c2 _ =>
          (Ascii.eqb c1 "\" && Ascii.eqb c2 "n") || has_escaped_newline s1
      end
  end.

(** [svc[key]] for a service account object. *)
Fixpoint svc_get (svc : list (string * option value)) (key : string) : option value :=
  match svc with
  | [] => None
  | (k, v) :: svc' => if String.eqb key k then v else svc_get svc' key
  end.

(** What the store writes for the value can be shaped. *)
Definition writes_plain (v : value) : Prop :=
  forall v', encode v = Ok v' -> plain_field v' = true.

(** ** Further samples *)

(** An engine's [JSON.parse] on the three texts used below. *)
Definition sample_JSON_parse (text : string) : result value :=
  if String.eqb text "null" then Ok VNull
  else if String.eqb text "{}" then Ok (VObj [])
  else if String.eqb text "<account>" then
    Ok (VObj [("project_id", VStr "diary"); ("private_key", VStr "KEY\nEND")])
  else Throw "Unexpected token".

Definition env_individual : process_env :=
  {[ "FIREBASE_PROJECT_ID" := "diary";
     "FIREBASE_CLIENT_EMAIL" := "admin@diary.example";
     "FIREBASE_PRIVATE_KEY" := "KEY\nEND" ]}.

Definition env_account (text : string) : process_env :=
  <["FIREBASE_SERVICE_ACCOUNT" := text]> env_individual.

(** A payload with a map that has a key [toDate]. *)
Definition task_with_toDate : object :=
  [("title", VStr "C"); ("date", VStr "2024-03-17");
   ("notes", VObj [("toDate", VStr "tomorrow")])].

(** What the store holds for [task_with_toDate] created at clock reading
    1700000000002, and the collection [store_A] with it. *)
Definition stored_C : object :=
  [("title", VStr "C"); ("date", VTimestamp 1710633600 0);
   ("notes", VObj [("toDate", VStr "tomorrow")]);
   ("createdAt", VTimestamp 1700000000 2000000); ("completed", VBool false)].

Definition store_AC : store :=
  (post_tasks utc_env 1700000000002 "c3" task_with_toDate store_A).2.

(** The fields every task is created with. *)
Definition task_fields (data : object) : Prop :=
  is_Some (obj_get data "date") /\ is_Some (obj_get data "createdAt")
  /\ is_Some (obj_get data "completed").

(** A server five hours behind UTC the whole year. *)
Definition utc_minus_5 : environment :=
  {| engineDate := fun _ => None;
     engineToString := fun _ => "1e+21";
     LocalTZA := fun _ _ => -18000000;
     storeAccepts := fun _ => true |}.

(** Noon of 15 March 2024 on that server, and its collection with the
    task A dated 15 March and a task D dated 16 March. *)
Definition minus_5_noon : Z := 1710522000000.
Definition task_D : object := [("title", VStr "D"); ("date", VStr "2024-03-16")].
Definition store_AD : store :=
  (post_tasks utc_minus_5 1700000000001 "d2" task_D
     (post_tasks utc_minus_5 1700000000000 "a1" task_A ∅).2).2.

Definition shaped_D : object :=
  [("id", VStr "d2"); ("title", VStr "D");
   ("date", VStr "2024-03-16T00:00:00.000Z");
   ("createdAt", VStr "2023-11-14T22:13:20.001Z");
   ("completed", VBool false)].

(** The value of a date input: [yyyy-mm-dd]. *)
Definition date_text (y m d : Z) : string :=
  pad_digits 4 y (String "-" (pad_digits 2 m (String "-" (pad_digits 2 d EmptyString)))).

(** The calendar dates of the years 1 to 9999. *)
Definition legal_date (y m d : Z) : Prop :=
  1 <= y <= 9999 /\
  Calendar.civil_from_days (Calendar.days_from_civil y m d) = (y, m, d).

(** The form with its five fields. *)
Definition form (title description date priority category : string) : object :=
  [("title", VStr title); ("description", VStr description);
   ("date", VStr date); ("priority", VStr priority);
   ("category", VStr category)].

(** What the store holds for a task added through the form. *)
Definition stored_form (title description priority category : string)
    (y m d now : Z) : object :=
  [("title", VStr title); ("description", VStr description);
   ("date", VTimestamp (Calendar.days_from_civil y m d * 86400) 0);
   ("priority", VStr priority); ("category", VStr category);
   ("createdAt", VTimestamp (now / 1000) ((now - now / 1000 * 1000) * 1000000));
   ("completed", VBool false)].

(** A server that accepts every call, and one that refuses every call. *)
Definition axios_accepts (call : Client.api_call) (srv : unit)
  : result value * unit := (Ok VNull, srv).

Definition axios_refuses (call : Client.api_call) (srv : unit)
  : result value * unit := (Throw "Request failed with status code 500", srv).

(** The form after the title [A] has been typed, on 15 March 2024. *)
Definition app_typed : Client.app :=
  Client.handleInputChange "title" "A" (Client.initial "2024-03-15").

(** The date library in a browser on UTC, for the texts [toISOString]
    writes: the day is the first ten characters. *)
Definition format_parseISO_utc (date : value) : result string :=
  match date with
  | VStr iso =>
      match JSDate.parse_iso iso with
      | Some _ => Ok (substring 0 10 iso)
      | None => Throw "Invalid time value"
      end
  | _ => Throw "Invalid time value"
  end.

(** The page after mounting, pressing Edit on the task A and typing a
    new title. *)
Definition page_edited : Client.app * Client.world :=
  Client.handle utc_env axios_accepts format_parseISO_utc
    (Client.Input Client.input_title "A, again")
    (Client.handle utc_env axios_accepts format_parseISO_utc
       (Client.Edit "2024-03-16" (shaped_A false))
       (Client.handle utc_env axios_accepts format_parseISO_utc Client.Mount
          (Client.initial "2024-03-16", (tt, [])))).

(** The names of the form's inputs, and the state in which the form holds
    exactly these fields. *)
Definition form_keys : list string :=
  ["title"; "description"; "date"; "priority"; "category"].

Definition form_fields (st : Client.app) : Prop :=
  obj_keys (Client.formData st) = form_keys.

(** A comparison that orders its arguments in layers: equal arguments
    compare alike with every third one, and [Gt] composes. *)
Definition weak_order {A} (cmp : A -> A -> comparison) : Prop :=
  (forall x y, cmp y x = CompOpp (cmp x y)) /\
  (forall x y z, cmp x y = Eq -> cmp y z = cmp x z) /\
  (forall x y z, cmp x y = Gt -> cmp y z = Gt -> cmp x z = Gt).

(** The sort key of a document in the listing: its [createdAt] and its
    identifier; [key_before] is [before_desc] on keys. *)
Definition sort_key (d : string * object) : string * value :=
  (fst d, default VNull (obj_get (snd d) "createdAt")).

Definition key_before : relation (string * value) :=
  fun k1 k2 =>
    match compare_value (snd k1) (snd k2) with
    | Gt => True
    | Lt => False
    | Eq => String.compare (fst k1) (fst k2) <> Lt
    end.

(** The identifiers of the listing, in its order. *)
Definition listed_ids (s : store) : list string :=
  map snap_id (query_orderBy_desc "createdAt" s).

(** The documents of the listing, before they are ordered. *)
Definition listed (s : store) : list (string * object) :=
  filter (fun d => obj_has (snd d) "createdAt" = true) (map_to_list s).

(** What the listing reads of the document [id]: whether it exists, and
    its [createdAt]. *)
Definition key_view (s : store) (id : string) : option (option value) :=
  (fun data => obj_get data "createdAt") <$> s !! id.

(** * Properties *)

(** Goals about quotients and remainders by constants. *)
Ltac euclid := Z.to_euclidean_division_equations; lia.

(** ** Objects *)

Lemma obj_get_set_eq (o : object) k v : obj_get (obj_set o k v) k = Some v.
Proof.
  induction o as [|[k' w] o IH]; simpl.
  - by rewrite String.eqb_refl.
  - destruct (String.eqb k k') eqn:E; simpl.
    + by rewrite E.
    + by rewrite E, IH.
Qed.

Lemma obj_get_set_ne (o : object) k k' v :
  k ≠ k' → obj_get (obj_set o k v) k' = obj_get o k'.
Proof.
  intros Hne. induction o as [|[k0 w] o IH]; simpl.
  - destruct (String.eqb k' k) eqn:E; [|done].
    apply String.eqb_eq in E. congruence.
  - destruct (String.eqb k k0) eqn:E; simpl.
    + apply String.eqb_eq in E. subst k0.
      destruct (String.eqb k' k) eqn:E'; [|done].
      apply String.eqb_eq in E'. congruence.
    + by rewrite IH.
Qed.

Lemma obj_get_set (o : object) k k' v :
  obj_get (obj_set o k v) k' = if String.eqb k k' then Some v else obj_get o k'.
Proof.
  destruct (String.eqb k k') eqn:E.
  - apply String.eqb_eq in E. subst. apply obj_get_set_eq.
  - apply String.eqb_neq in E. by apply obj_get_set_ne.
Qed.

Lemma obj_spread_absent (src target : object) k :
  obj_get src k = None → obj_get (obj_spread target src) k = obj_get target k.
Proof.
  revert target. induction src as [|[k0 v0] src IH]; intros target H; [done|].
  simpl in H. destruct (String.eqb k k0) eqn:E; [done|].
  unfold obj_spread in *. simpl. rewrite IH by done.
  apply obj_get_set_ne. apply String.eqb_neq in E. congruence.
Qed.

Lemma obj_spread_present (src target : object) k :
  is_Some (obj_get (obj_spread target src) k) →
  is_Some (obj_get target k) ∨ is_Some (obj_get src k).
Proof.
  revert target. induction src as [|[k0 v0] src IH]; intros target H; [by left|].
  unfold obj_spread in *. simpl in *.
  destruct (String.eqb k k0) eqn:E; [by right|].
  destruct (IH _ H) as [Ht|Hs]; [|by right].
  left. rewrite obj_get_set_ne in Ht; [done|].
  apply String.eqb_neq in E. congruence.
Qed.

(** ** Document identifiers *)

Lemma split_on_absent sep (s : string) :
  string_exists (Ascii.eqb sep) s = false → split_on sep s = [s].
Proof.
  induction s as [|c s IH]; simpl; [done|].
  intros H. apply orb_false_iff in H as [Hc Hs].
  rewrite Ascii.eqb_sym, Hc. by rewrite IH.
Qed.

Lemma has_double_slash_absent (s : string) :
  string_exists (Ascii.eqb "/") s = false → has_double_slash s = false.
Proof.
  induction s as [|c s IH]; [done|].
  intros H. change (string_exists (Ascii.eqb "/") (String c s))
    with (Ascii.eqb "/" c || string_exists (Ascii.eqb "/") s) in H.
  apply orb_false_iff in H as [Hc Hs].
  change (has_double_slash (String c s))
    with (match s with
          | EmptyString => false
          | String c' _ => (Ascii.eqb c "/" && Ascii.eqb c' "/") || has_double_slash s
          end).
  destruct s as [|c' s']; [done|].
  rewrite (Ascii.eqb_sym c), Hc. simpl andb. simpl orb. by apply IH.
Qed.

(** An identifier makes a reference to the task of that name, and the
    server reads it. *)
Lemma collection_doc_id (id : string) :
  document_id id = true → collection_doc id = Ok [id].
Proof.
  unfold document_id, collection_doc. intros H.
  repeat (apply andb_true_iff in H as [H ?]).
  apply negb_true_iff in H. rewrite H.
  match goal with Hs : negb (string_exists _ _) = true |- _ =>
    apply negb_true_iff in Hs;
    rewrite (has_double_slash_absent _ Hs), (split_on_absent _ _ Hs) end.
  simpl. by rewrite H.
Qed.

Lemma docRef_get_id (id : string) (s : store) :
  document_id id = true →
  docRef_get [id] s = Ok {| snap_id := id; snap_data := s !! id |}.
Proof. intros H. unfold docRef_get. simpl. by rewrite H. Qed.

Lemma put_task_id env (taskId : string) (req_body : object) (s : store) :
  document_id taskId = true →
  put_task env taskId req_body s =
  let taskDoc := doc_get taskId s in
  if negb (snap_exists taskDoc) then (json 404 (message_body "Task not found"), s)
  else
    match doc_update env [taskId] (updateData env req_body) s with
    | Throw m => (json 400 (message_body m), s)
    | Ok s' =>
        match convertTimestamps (doc_get taskId s') with
        | Ok task => (json 200 (VObj task), s')
        | Throw m => (json 400 (message_body m), s')
        end
    end.
Proof.
  intros H. unfold put_task. rewrite (collection_doc_id _ H). simpl.
  rewrite (docRef_get_id _ s H). simpl. unfold doc_get.
  destruct (negb _); [done|].
  destruct (doc_update _ _ _ _) as [s'|]; [|done].
  by rewrite (docRef_get_id _ s' H).
Qed.

Lemma delete_task_id (taskId : string) (s : store) :
  document_id taskId = true →
  delete_task taskId s =
  if negb (snap_exists (doc_get taskId s))
  then (json 404 (message_body "Task not found"), s)
  else (json 200 (message_body "Task deleted successfully"), delete taskId s).
Proof.
  intros H. unfold delete_task. rewrite (collection_doc_id _ H). simpl.
  by rewrite (docRef_get_id _ s H).
Qed.

(** A path parameter that is no identifier: the reference cannot be made
    or the server refuses it, and the handlers answer with their error
    status. *)
Lemma put_task_slash :
  ∃ m, put_task utc_env "a/b" [("completed", VBool true)] store_A
       = (json 400 (message_body m), store_A).
Proof. eexists. vm_compute. reflexivity. Qed.

Lemma delete_task_slash :
  ∃ m, delete_task "a/b" store_A = (json 500 (message_body m), store_A).
Proof. eexists. vm_compute. reflexivity. Qed.

(** ** Deleting and updating what does not exist *)

(** C6.  Updating an identifier (a string that can name a document) with
    no task answers 404 "Task not found" and returns the collection
    untouched: the existence check comes first and no write is
    attempted. *)
Theorem put_task_not_found (env : environment) taskId req_body (s : store) :
  document_id taskId = true →
  s !! taskId = None →
  put_task env taskId req_body s = (json 404 (message_body "Task not found"), s).
Proof.
  intros Hid H. rewrite put_task_id by done.
  unfold snap_exists. simpl. by rewrite H.
Qed.

Lemma put_task_not_found_witness :
  document_id "zz" = true ∧
  store_A !! "zz" = None ∧
  put_task utc_env "zz" [("completed", VBool true)] store_A
  = (json 404 (message_body "Task not found"), store_A).
Proof.
  assert (Hid : document_id "zz" = true) by (vm_compute; reflexivity).
  assert (H : store_A !! "zz" = None) by (vm_compute; reflexivity).
  split; [exact Hid|]. split; [exact H|].
  exact (put_task_not_found utc_env "zz" _ store_A Hid H).
Defined.

(** C7.  For an identifier (a string that can name a document): deleting
    it when it has no task answers 404 "Task not found"; deleting an
    existing task answers 200 with a confirmation message, removes that
    document and no other, and a second delete of the same identifier
    answers 404. *)
Theorem delete_task_spec taskId (s : store) :
  document_id taskId = true →
  (s !! taskId = None →
   delete_task taskId s = (json 404 (message_body "Task not found"), s)) ∧
  (is_Some (s !! taskId) →
   let r := delete_task taskId s in
   r.1 = json 200 (message_body "Task deleted successfully") ∧
   r.2 !! taskId = None ∧
   (∀ j, j ≠ taskId → r.2 !! j = s !! j) ∧
   delete_task taskId r.2 = (json 404 (message_body "Task not found"), r.2)).
Proof.
  intros Hid. rewrite !delete_task_id by done.
  unfold snap_exists, doc_get. simpl. split.
  - intros H. by rewrite H.
  - intros [d H]. rewrite H. simpl. rewrite delete_task_id by done.
    unfold snap_exists, doc_get. simpl. rewrite lookup_delete_eq.
    repeat split; try done.
    intros j Hj. by rewrite lookup_delete_ne.
Qed.

Lemma delete_task_spec_witness :
  delete_task "zz" store_A = (json 404 (message_body "Task not found"), store_A) ∧
  (delete_task "a1" store_A).1 = json 200 (message_body "Task deleted successfully") ∧
  (delete_task "a1" (delete_task "a1" store_A).2).1
  = json 404 (message_body "Task not found").
Proof.
  assert (Izz : document_id "zz" = true) by (vm_compute; reflexivity).
  assert (Ia1 : document_id "a1" = true) by (vm_compute; reflexivity).
  assert (Hzz : store_A !! "zz" = None) by (vm_compute; reflexivity).
  assert (Ha1 : is_Some (store_A !! "a1")) by (vm_compute; eexists; reflexivity).
  split; [exact (proj1 (delete_task_spec "zz" store_A Izz) Hzz)|].
  destruct (proj2 (delete_task_spec "a1" store_A Ia1) Ha1) as (H1 & _ & _ & H4).
  split; [exact H1|]. by rewrite H4.
Defined.

(** ** What the store writes *)

Lemma mapR_Forall2 {A B} (f : A → result B) l l' :
  mapR f l = Ok l' → Forall2 (λ a b, f a = Ok b) l l'.
Proof.
  revert l'. induction l as [|a l IH]; intros l' H; simpl in H.
  - injection H as <-. constructor.
  - destruct (f a) as [b|] eqn:Ea; [|done]. simpl in H.
    destruct (mapR f l) as [bs|] eqn:El; [|done]. simpl in H.
    injection H as <-. constructor; [done|]. by apply IH.
Qed.

Lemma mapR_total {A B} (f : A → result B) l :
  Forall (λ a, ∃ b, f a = Ok b) l → ∃ l', mapR f l = Ok l'.
Proof.
  induction 1 as [|a l [b Hb] _ [l' Hl']]; simpl; [by eexists|].
  rewrite Hb. simpl. rewrite Hl'. by eexists.
Qed.

Lemma mapR_length {A B} (f : A → result B) l l' :
  mapR f l = Ok l' → length l' = length l.
Proof. intros H. apply mapR_Forall2 in H. symmetry. by eapply Forall2_length. Qed.

Lemma encode_fields_get (data stored : object) k :
  encode_fields data = Ok stored →
  match obj_get data k with
  | Some v => ∃ v', encode v = Ok v' ∧ obj_get stored k = Some v'
  | None => obj_get stored k = None
  end.
Proof.
  unfold encode_fields. intros H. apply mapR_Forall2 in H.
  induction H as [|[k0 v0] [k1 v1] data stored Hx _ IH]; [done|].
  simpl in Hx. destruct (encode v0) as [v0'|] eqn:E0; [|done].
  simpl in Hx. injection Hx as <- <-. simpl.
  destruct (String.eqb k k0); [|exact IH]. by exists v0'.
Qed.

Lemma encode_fields_throw (data : object) k v m :
  obj_get data k = Some v → encode v = Throw m →
  ∃ m', encode_fields data = Throw m'.
Proof.
  unfold encode_fields.
  induction data as [|[k0 v0] data IH]; [done|]. simpl. intros Hk Hv.
  destruct (String.eqb k k0).
  - injection Hk as ->. rewrite Hv. simpl. by eexists.
  - destruct (IH Hk Hv) as [m' Hm']. rewrite Hm'.
    destruct (encode v0); simpl; by eexists.
Qed.

Lemma TimeClip_Some t : Z.abs t <= JSDate.maxTime → JSDate.TimeClip t = Some t.
Proof.
  intros H. unfold JSDate.TimeClip. by destruct (Z.leb_spec (Z.abs t) JSDate.maxTime); [|lia].
Qed.

(** JSON values are stored as they are. *)
Lemma encode_json : ∀ v, is_json v = true → encode v = Ok v.
Proof.
  fix IH 1. intros [| | | | | |items|fields]; simpl; try done.
  - intros H.
    assert (Hgo : (fix go (l : list value) : result (list value) :=
                     match l with
                     | [] => Ok []
                     | x :: l' => x' ← encode x; r ← go l'; Ok (x' :: r)
                     end) items = Ok items).
    { induction items as [|x items IHitems]; [done|].
      simpl in H. apply andb_true_iff in H as [Hx Hitems].
      rewrite (IH x Hx). simpl. by rewrite (IHitems Hitems). }
    by rewrite Hgo.
  - intros H.
    assert (Hgo : (fix go (l : object) : result object :=
                     match l with
                     | [] => Ok []
                     | (k, x) :: l' => x' ← encode x; r ← go l'; Ok ((k, x') :: r)
                     end) fields = Ok fields).
    { induction fields as [|[k x] fields IHfields]; [done|].
      simpl in H. apply andb_true_iff in H as [Hx Hfields].
      rewrite (IH x Hx). simpl. by rewrite (IHfields Hfields). }
    by rewrite Hgo.
Qed.

Lemma Timestamp_fromDate_range t :
  timestamp_range t →
  Timestamp_fromDate (Some t)
  = Ok (VTimestamp (t / 1000) ((t - t / 1000 * 1000) * 1000000)).
Proof.
  unfold timestamp_range, MIN_SECONDS, MAX_SECONDS. intros Ht.
  unfold Timestamp_fromDate, Timestamp_new, MIN_SECONDS, MAX_SECONDS.
  destruct (Z.leb_spec (-62135596800) (t / 1000));
    [|euclid].
  destruct (Z.leb_spec (t / 1000) 253402300799);
    [|euclid].
  destruct (Z.leb_spec 0 ((t - t / 1000 * 1000) * 1000000));
    [|euclid].
  destruct (Z.leb_spec ((t - t / 1000 * 1000) * 1000000) 999999999);
    [|euclid].
  done.
Qed.

Lemma encodable_set (o : object) k v w :
  encodable o → encode v = Ok w → encodable (obj_set o k v).
Proof.
  unfold encodable. intros Ho Hv.
  induction o as [|[k0 v0] o IH]; simpl.
  - repeat constructor. by exists w.
  - apply Forall_cons in Ho as [H0 Ho].
    destruct (String.eqb k k0); constructor; auto. by exists w.
Qed.

Lemma encodable_spread (src target : object) :
  encodable target → encodable src → encodable (obj_spread target src).
Proof.
  intros Ht Hs. revert target Ht.
  induction Hs as [|[k v] src [w Hv] _ IH]; intros target Ht; [done|].
  apply IH. by eapply encodable_set.
Qed.

Lemma json_object_encodable (o : object) : json_object o = true → encodable o.
Proof.
  unfold json_object, encodable. rewrite forallb_forall, Forall_forall.
  intros H kv Hin%list_elem_of_In. exists kv.2. apply encode_json. by apply H.
Qed.

Lemma json_object_get (o : object) k v :
  json_object o = true → obj_get o k = Some v → is_json v = true.
Proof.
  unfold json_object. induction o as [|[k0 v0] o IH]; [done|]. simpl.
  intros [H0 H]%andb_true_iff. destruct (String.eqb k k0); [|by apply IH].
  by intros [= <-].
Qed.

(** Every JSON payload whose [date] makes a date a timestamp can hold is
    encoded by the store client, at any clock reading a timestamp can
    hold. *)
Lemma taskData_encodes env now (req_body : object) t :
  json_object req_body = true →
  new_Date env (obj_get req_body "date") = Some t →
  timestamp_range t → timestamp_range now →
  ∃ stored, encode_fields (taskData env now req_body) = Ok stored.
Proof.
  intros Hjson Hdate Ht Hnow. unfold encode_fields.
  apply mapR_total.
  assert (He : encodable (taskData env now req_body)).
  { unfold taskData. rewrite Hdate.
    assert (Hclip : JSDate.TimeClip now = Some now).
    { apply TimeClip_Some.
      unfold timestamp_range, MIN_SECONDS, MAX_SECONDS, JSDate.maxTime in *. lia. }
    rewrite Hclip.
    eapply encodable_set; [eapply encodable_set; [eapply encodable_set|]|].
    - apply encodable_spread; [constructor|]. by apply json_object_encodable.
    - by apply Timestamp_fromDate_range.
    - by apply Timestamp_fromDate_range.
    - apply encode_json. unfold js_or.
      destruct (obj_get req_body "completed") as [v|] eqn:Ev; [|done].
      destruct (truthy _); [|done]. by eapply json_object_get. }
  eapply Forall_impl; [exact He|]. intros [k v] [w Hv]. simpl in *.
  rewrite Hv. by eexists.
Qed.

(** ** Creating a task *)

Lemma taskData_date env now (req_body : object) :
  obj_get (taskData env now req_body) "date"
  = Some (VDate (new_Date env (obj_get req_body "date"))).
Proof.
  unfold taskData. rewrite !obj_get_set_ne by done. apply obj_get_set_eq.
Qed.

Lemma taskData_createdAt env now (req_body : object) :
  obj_get (taskData env now req_body) "createdAt"
  = Some (VDate (JSDate.TimeClip now)).
Proof.
  unfold taskData. rewrite obj_get_set_ne by done. apply obj_get_set_eq.
Qed.

Lemma taskData_completed env now (req_body : object) :
  obj_get (taskData env now req_body) "completed"
  = Some (js_or (obj_get req_body "completed") (VBool false)).
Proof. unfold taskData. apply obj_get_set_eq. Qed.

Lemma taskData_other env now (req_body : object) k :
  k ≠ "date" → k ≠ "createdAt" → k ≠ "completed" →
  obj_get req_body k = None → obj_get (taskData env now req_body) k = None.
Proof.
  intros H1 H2 H3 H. unfold taskData.
  rewrite !obj_get_set_ne by done. by rewrite obj_spread_absent.
Qed.

(** A date that [new Date] cannot make sense of is refused by the store,
    and the handler answers 400 without writing. *)
Lemma post_tasks_invalid_date env now newId (req_body : object) (s : store) :
  new_Date env (obj_get req_body "date") = None →
  ∃ m, post_tasks env now newId req_body s = (json 400 (message_body m), s).
Proof.
  intros H. unfold post_tasks, collection_add.
  destruct (encode_fields_throw (taskData env now req_body) "date"
              (VDate None) _ ltac:(by rewrite taskData_date, H) eq_refl)
    as [m Hm].
  rewrite Hm. simpl. by exists m.
Qed.

(** C1 (amended).  A create request whose payload has no [date] is
    answered 400 and nothing is persisted.  ([title] is not looked at by
    the server.) *)
Theorem post_tasks_without_date env now newId (req_body : object) (s : store) :
  obj_get req_body "date" = None →
  ∃ m, post_tasks env now newId req_body s = (json 400 (message_body m), s).
Proof.
  intros H. apply post_tasks_invalid_date. by rewrite H.
Qed.

Lemma post_tasks_without_date_witness :
  obj_get [("title", VStr "A")] "date" = None ∧
  ∃ m, post_tasks utc_env 1700000000000 "a1" [("title", VStr "A")] ∅
       = (json 400 (message_body m), ∅).
Proof.
  assert (H : obj_get [("title", VStr "A")] "date" = None) by reflexivity.
  split; [exact H|].
  exact (post_tasks_without_date utc_env 1700000000000 "a1" _ ∅ H).
Defined.

(** C1 as stated fails: a payload with a [date] and no [title] is
    accepted with 201 and persisted. *)
Lemma post_tasks_without_title_counterexample :
  ¬ (obj_get untitled_task "title" = None ∨ obj_get untitled_task "date" = None →
     status (post_tasks utc_env 1700000000000 "a1" untitled_task ∅).1 = 400 ∧
     (post_tasks utc_env 1700000000000 "a1" untitled_task ∅).2 = ∅).
Proof.
  intros H. destruct H as [H _]; [by left|].
  vm_compute in H. discriminate H.
Qed.

(** When the store takes the write, the handler has stored exactly the
    encoded task under the drawn identifier. *)
Lemma post_tasks_stored env now newId (req_body : object) (s : store) stored :
  encode_fields (taskData env now req_body) = Ok stored →
  storeAccepts env stored = true →
  s !! newId = None →
  (post_tasks env now newId req_body s).2 = <[newId := stored]> s.
Proof.
  intros He Ha Hn. unfold post_tasks, collection_add.
  rewrite He. simpl. rewrite Ha, Hn.
  by destruct (convertTimestamps _).
Qed.

Lemma taskData_stored_createdAt env now (req_body stored : object) :
  encode_fields (taskData env now req_body) = Ok stored →
  obj_get stored "createdAt"
  = Some (VTimestamp (now / 1000) ((now - now / 1000 * 1000) * 1000000)).
Proof.
  intros He. pose proof (encode_fields_get _ _ "createdAt" He) as H.
  rewrite taskData_createdAt in H. destruct H as (v' & Hv & ->).
  simpl in Hv. unfold Timestamp_fromDate, Timestamp_new in Hv.
  destruct (JSDate.TimeClip now) as [t|] eqn:Et; [|done].
  unfold JSDate.TimeClip in Et. destruct (_ <=? _) in Et; [|done].
  injection Et as <-.
  destruct (_ && _); [|done]. destruct (_ && _); [|done]. congruence.
Qed.

Lemma taskData_stored_now env now (req_body stored : object) :
  encode_fields (taskData env now req_body) = Ok stored →
  Timestamp_toDate (now / 1000) ((now - now / 1000 * 1000) * 1000000) = Some now.
Proof.
  intros He. pose proof (encode_fields_get _ _ "createdAt" He) as H.
  rewrite taskData_createdAt in H. destruct H as (w & Hw & _).
  simpl in Hw. unfold Timestamp_toDate.
  destruct (JSDate.TimeClip now) as [t|] eqn:Et; [|done].
  assert (t = now) as ->
    by (unfold JSDate.TimeClip in Et; by destruct (_ <=? _) in Et; [injection Et|]).
  rewrite <- Et. f_equal. euclid.
Qed.

(** C10.  When a create request is taken by the store, the task stored
    under the new identifier has as [createdAt] the timestamp of the
    clock reading [now] of the handler, whatever the payload says,
    [createdAt] included. *)
Theorem post_tasks_createdAt env now newId (req_body : object) (s : store) stored :
  encode_fields (taskData env now req_body) = Ok stored →
  storeAccepts env stored = true →
  s !! newId = None →
  (post_tasks env now newId req_body s).2 !! newId = Some stored ∧
  ∃ seconds nanos,
    obj_get stored "createdAt" = Some (VTimestamp seconds nanos) ∧
    Timestamp_toDate seconds nanos = Some now.
Proof.
  intros He Ha Hn. split.
  - rewrite (post_tasks_stored _ _ _ _ _ _ He Ha Hn). apply lookup_insert_eq.
  - eexists _, _. split; [by eapply taskData_stored_createdAt|].
    by eapply taskData_stored_now.
Qed.

Lemma post_tasks_createdAt_witness :
  (post_tasks utc_env 1700000000001 "b2" task_B_backdated store_A).2 !! "b2"
  = Some stored_B ∧
  ∃ seconds nanos,
    obj_get stored_B "createdAt" = Some (VTimestamp seconds nanos) ∧
    Timestamp_toDate seconds nanos = Some 1700000000001.
Proof.
  apply (post_tasks_createdAt utc_env 1700000000001 "b2" _ store_A stored_B);
    vm_compute; reflexivity.
Defined.

(** C9 (amended).  For a create request whose payload has no key besides
    [title] and [date], and whose write the store takes: the task is
    stored under the drawn identifier, which no existing task has, with
    [completed] equal to [false] and with no [priority] field at all (the
    server fills in no default; [medium] is what the client form
    sends). *)
Theorem post_tasks_title_date_only env now newId (req_body : object) (s : store) stored :
  (∀ k, is_Some (obj_get req_body k) → k = "title" ∨ k = "date") →
  encode_fields (taskData env now req_body) = Ok stored →
  storeAccepts env stored = true →
  s !! newId = None →
  (post_tasks env now newId req_body s).2 = <[newId := stored]> s ∧
  (∀ id, is_Some (s !! id) → id ≠ newId) ∧
  obj_get stored "completed" = Some (VBool false) ∧
  obj_get stored "priority" = None.
Proof.
  intros Hkeys He Ha Hn.
  assert (Habsent : ∀ k, k ≠ "title" → k ≠ "date" → obj_get req_body k = None).
  { intros k H1 H2. destruct (obj_get req_body k) eqn:E; [|done].
    destruct (Hkeys k) as [?|?]; [by eexists|done..]. }
  split; [by apply post_tasks_stored|]. split.
  { intros id [d Hd] ->. congruence. }
  split.
  - pose proof (encode_fields_get _ _ "completed" He) as H.
    rewrite taskData_completed, (Habsent "completed") in H by done.
    destruct H as (v' & Hv & ->). simpl in Hv. congruence.
  - pose proof (encode_fields_get _ _ "priority" He) as H.
    by rewrite taskData_other in H by (done || by apply Habsent).
Qed.

Lemma post_tasks_title_date_only_witness :
  (post_tasks utc_env 1700000000000 "a1" task_A ∅).2 = <["a1" := stored_A]> ∅ ∧
  (∀ id, is_Some ((∅ : store) !! id) → id ≠ "a1") ∧
  obj_get stored_A "completed" = Some (VBool false) ∧
  obj_get stored_A "priority" = None.
Proof.
  apply (post_tasks_title_date_only utc_env 1700000000000 "a1" task_A ∅ stored_A);
    [|vm_compute; reflexivity..].
  intros k. unfold task_A. simpl.
  destruct (String.eqb_spec k "title") as [->|_]; [by left|].
  destruct (String.eqb_spec k "date") as [->|_]; [by right|].
  by intros [? ?].
Defined.

(** C9 as stated fails: the task stored for a payload with only [title]
    and [date] has no [priority], so none equal to [medium]. *)
Lemma post_tasks_priority_counterexample :
  ¬ (∃ stored,
       (post_tasks utc_env 1700000000000 "a1" task_A ∅).2 !! "a1" = Some stored ∧
       obj_get stored "completed" = Some (VBool false) ∧
       obj_get stored "priority" = Some (VStr "medium")).
Proof.
  intros (stored & Hs & _ & Hp).
  vm_compute in Hs. injection Hs as <-. discriminate Hp.
Qed.

(** ** Updating a task *)

Lemma obj_get_In (o : object) k v : In (k, v) o → is_Some (obj_get o k).
Proof.
  induction o as [|[k0 v0] o IH]; [done|]. simpl. intros [H|H].
  - injection H as -> ->. rewrite String.eqb_refl. by eexists.
  - destruct (String.eqb k k0); [by eexists | by apply IH].
Qed.

Lemma updateData_keys env (req_body : object) k :
  is_Some (obj_get (updateData env req_body) k) → is_Some (obj_get req_body k).
Proof.
  unfold updateData.
  assert (Hs : ∀ k, is_Some (obj_get (obj_spread [] req_body) k) →
                    is_Some (obj_get req_body k)).
  { intros k0 H. destruct (obj_spread_present _ _ _ H) as [[? ?]|?]; done. }
  destruct (truthy _) eqn:Et; [|apply Hs].
  rewrite obj_get_set. destruct (String.eqb_spec "date" k) as [<-|_]; [|apply Hs].
  intros _. apply Hs.
  destruct (obj_get (obj_spread [] req_body) "date"); [by eexists | done].
Qed.

Lemma set_path_other (o : object) path v k :
  hd EmptyString path ≠ k → obj_get (set_path o path v) k = obj_get o k.
Proof.
  destruct path as [|k0 [|k1 path]]; simpl; intros H; [done|..];
    by apply obj_get_set_ne.
Qed.

(** What [update] does to the collection when it succeeds. *)
Lemma doc_update_Ok env docRef (data : object) (s s' : store) :
  doc_update env docRef data s = Ok s' →
  ∃ taskId old writes,
    docRef = [taskId] ∧
    s !! taskId = Some old ∧
    Forall2 (λ kv w, w.1 = split_on "." kv.1) data writes ∧
    s' = <[taskId := fold_left (λ o w, set_path o w.1 w.2) writes old]> s.
Proof.
  unfold doc_update. destruct data as [|kv0 data0] eqn:Ed; [done|].
  rewrite <- Ed. clear Ed kv0 data0.
  destruct (mapR _ data) as [writes|] eqn:Ew; [|done]. simpl.
  destruct (no_conflicts _); [|done].
  destruct docRef as [|taskId [|? ?]]; [done| |done].
  destruct (s !! taskId) as [old|] eqn:Hold; [|done].
  destruct (storeAccepts env _); [|done].
  intros H. injection H as <-. exists taskId, old, writes.
  split; [done|]. split; [done|]. split; [|done].
  apply mapR_Forall2 in Ew. eapply Forall2_impl; [exact Ew|].
  intros [k v] [p v'] H. simpl in *. unfold FieldPath_fromArgument in H.
  destruct (_ || _); [done|]. simpl in H.
  destruct (encode v); [|done]. simpl in H. by injection H as <- _.
Qed.

Lemma fold_set_path_other (data : object) (writes : list (list string * value))
    (old : object) k :
  Forall2 (λ kv w, w.1 = split_on "." kv.1) data writes →
  (∀ kv, In kv data → field_root kv.1 ≠ k) →
  obj_get (fold_left (λ o w, set_path o w.1 w.2) writes old) k = obj_get old k.
Proof.
  intros Hw. revert old.
  induction Hw as [|kv w data writes Hkw _ IH]; intros old Hin; [done|].
  simpl. rewrite IH by (intros kv' H'; apply Hin; by right).
  apply set_path_other. rewrite Hkw. apply (Hin kv). by left.
Qed.

(** C2 (amended).  An update of an existing task (a document stored
    under an identifier) whose payload names no
    field path rooted at [createdAt] (neither the key [createdAt] nor a
    key [createdAt.x]) leaves the stored [createdAt] as it was, whether
    the store takes the update or refuses it; the task stays under its
    identifier and no identifier appears or disappears. *)
Theorem put_task_keeps_createdAt env taskId (req_body : object) (s : store) old :
  document_id taskId = true →
  s !! taskId = Some old →
  (∀ k, is_Some (obj_get req_body k) → field_root k ≠ "createdAt") →
  dom (put_task env taskId req_body s).2 = dom s ∧
  ∃ new, (put_task env taskId req_body s).2 !! taskId = Some new ∧
         obj_get new "createdAt" = obj_get old "createdAt".
Proof.
  intros Hid Hold Hkeys. rewrite put_task_id by done.
  unfold snap_exists, doc_get. simpl. rewrite Hold. simpl.
  destruct (doc_update env [taskId] (updateData env req_body) s) as [s'|m] eqn:Eu.
  2: { simpl. split; [done|]. by exists old. }
  apply doc_update_Ok in Eu as (id & old' & writes & Hid' & Hold' & Hw & ->).
  injection Hid' as <-.
  assert (old' = old) as -> by congruence.
  set (new := fold_left _ writes old).
  assert (Hnew : obj_get new "createdAt" = obj_get old "createdAt").
  { apply (fold_set_path_other _ _ _ _ Hw). intros [k v] Hin.
    apply Hkeys, (updateData_keys env), (obj_get_In _ k v), Hin. }
  assert (Hdom : dom (<[taskId := new]> s) = dom s)
    by (apply dom_insert_lookup_L; by exists old).
  destruct (convertTimestamps _); simpl; (split; [exact Hdom|]);
    exists new; (split; [apply lookup_insert_eq | exact Hnew]).
Qed.

Lemma put_task_keeps_createdAt_witness :
  dom (put_task utc_env "a1" [("completed", VBool true)] store_A).2 = dom store_A ∧
  ∃ new, (put_task utc_env "a1" [("completed", VBool true)] store_A).2 !! "a1" = Some new ∧
         obj_get new "createdAt" = obj_get stored_A "createdAt".
Proof.
  apply (put_task_keeps_createdAt utc_env "a1" _ store_A stored_A).
  - vm_compute. reflexivity.
  - vm_compute. reflexivity.
  - intros k. simpl. destruct (String.eqb_spec k "completed") as [->|_].
    + intros _. vm_compute. discriminate.
    + by intros [? ?].
Defined.

(** C2 as stated fails: a payload with the key [createdAt] overwrites the
    stored creation time. *)
Lemma put_task_createdAt_counterexample :
  ¬ (∀ old new,
       store_A !! "a1" = Some old →
       (put_task utc_env "a1" [("createdAt", VStr "2030-01-01")] store_A).2 !! "a1"
       = Some new →
       obj_get new "createdAt" = obj_get old "createdAt").
Proof.
  intros H.
  assert (E1 : store_A !! "a1" = Some stored_A) by (vm_compute; reflexivity).
  assert (E2 : (put_task utc_env "a1" [("createdAt", VStr "2030-01-01")] store_A).2 !! "a1"
               = Some [("title", VStr "A"); ("date", VTimestamp 1710460800 0);
                       ("createdAt", VStr "2030-01-01"); ("completed", VBool false)])
    by (vm_compute; reflexivity).
  discriminate (H _ _ E1 E2).
Qed.

(** ** Shaping a document *)

Lemma obj_get_keys (o : object) k : In k (obj_keys o) ↔ is_Some (obj_get o k).
Proof.
  unfold obj_keys. induction o as [|[k0 v0] o IH]; simpl.
  - split; [done | by intros [? ?]].
  - destruct (String.eqb_spec k k0) as [->|Hne].
    + split; [by eexists | by left].
    + rewrite <- IH. split; [intros [?|?]; [congruence | done] | by right].
Qed.

Lemma obj_keys_set (o : object) k v :
  NoDup (obj_keys o) → NoDup (obj_keys (obj_set o k v)).
Proof.
  unfold obj_keys. induction o as [|[k0 v0] o IH]; simpl; intros Hnd.
  - repeat constructor. set_solver.
  - apply NoDup_cons in Hnd as [Hnotin Hnd].
    destruct (String.eqb_spec k k0) as [->|Hne]; simpl.
    + by apply NoDup_cons.
    + apply NoDup_cons. split; [|by apply IH].
      intros Hin. apply Hnotin.
      apply list_elem_of_In, (obj_get_keys o k0).
      apply list_elem_of_In, (obj_get_keys (obj_set o k v) k0) in Hin.
      by rewrite obj_get_set_ne in Hin.
Qed.

Lemma obj_spread_get (src target : object) k :
  NoDup (obj_keys src) →
  obj_get (obj_spread target src) k
  = match obj_get src k with Some v => Some v | None => obj_get target k end.
Proof.
  revert target. induction src as [|[k0 v0] src IH]; intros target Hnd; [done|].
  apply NoDup_cons in Hnd as [Hnotin Hnd]. simpl.
  change (obj_spread target ((k0, v0) :: src))
    with (obj_spread (obj_set target k0 v0) src).
  destruct (String.eqb_spec k k0) as [->|Hne].
  - rewrite obj_spread_absent; [apply obj_get_set_eq|].
    destruct (obj_get src k0) eqn:E; [|done].
    exfalso. apply Hnotin, list_elem_of_In, obj_get_keys. by eexists.
  - rewrite IH by done. destruct (obj_get src k); [done|].
    by apply obj_get_set_ne.
Qed.

Lemma convert_keys_NoDup (data : object) keys (acc out : object) :
  convert_keys data keys acc = Ok out →
  NoDup (obj_keys acc) → NoDup (obj_keys out).
Proof.
  revert acc. induction keys as [|key keys IH]; intros acc H Hnd; simpl in H.
  - by injection H as <-.
  - destruct (obj_get data key) as [v|]; [|by eapply IH].
    destruct (has_toDate v).
    + destruct (toDate_toISOString v) as [iso|]; [|done]. simpl in H.
      eapply IH; [exact H|]. by apply obj_keys_set.
    + eapply IH; [exact H|]. by apply obj_keys_set.
Qed.

(** Each key met by the loop ends up with its shaped value; the other
    properties of [converted] stay. *)
Lemma convert_keys_get (data : object) keys (acc out : object) k :
  convert_keys data keys acc = Ok out →
  match obj_get data k with
  | Some v => if decide (k ∈ keys)
              then ∃ v', shape_field v = Ok v' ∧ obj_get out k = Some v'
              else obj_get out k = obj_get acc k
  | None => obj_get out k = obj_get acc k
  end.
Proof.
  revert acc. induction keys as [|key keys IH]; intros acc H; simpl in H.
  - injection H as <-. destruct (obj_get data k); [|done].
    by rewrite decide_False by apply not_elem_of_nil.
  - assert (Hstep : ∀ acc', convert_keys data keys acc' = Ok out →
        (key = k → ∃ v v', obj_get data k = Some v ∧ shape_field v = Ok v'
                           ∧ obj_get acc' k = Some v') →
        (key ≠ k → obj_get acc' k = obj_get acc k) →
        match obj_get data k with
        | Some v => if decide (k ∈ key :: keys)
                    then ∃ v', shape_field v = Ok v' ∧ obj_get out k = Some v'
                    else obj_get out k = obj_get acc k
        | None => obj_get out k = obj_get acc k
        end).
    { intros acc' Hacc' Heq Hne. specialize (IH acc' Hacc').
      destruct (obj_get data k) as [v|] eqn:Ek.
      - destruct (decide (key = k)) as [->|Hk].
        + rewrite decide_True by (apply list_elem_of_here).
          destruct (Heq eq_refl) as (v0 & v' & Hv0 & Hshape & Hget).
          injection Hv0 as <-.
          case_decide; [done|]. exists v'. split; [done|]. by rewrite IH.
        + destruct (decide (k ∈ keys)) as [Hin|Hnin].
          * by rewrite decide_True by (by apply list_elem_of_further).
          * rewrite decide_False by (intros [?|?]%elem_of_cons; done).
            by rewrite IH, Hne.
      - destruct (decide (key = k)) as [->|Hk].
        + by destruct (Heq eq_refl) as (v0 & v' & Hv0 & _).
        + by rewrite IH, Hne. }
    destruct (obj_get data key) as [v|] eqn:Ekey.
    2: { specialize (IH acc H). destruct (decide (key = k)) as [->|Hk].
         - by rewrite Ekey in *.
         - destruct (obj_get data k); [|done].
           destruct (decide (k ∈ keys)).
           + by rewrite decide_True by (by apply list_elem_of_further).
           + by rewrite decide_False by (intros [?|?]%elem_of_cons; done). }
    unfold shape_field in *. destruct (has_toDate v) eqn:Etd.
    + destruct (toDate_toISOString v) as [iso|] eqn:Eiso; [|done]. simpl in H.
      apply (Hstep _ H).
      * intros <-. exists v, iso. rewrite Etd. by rewrite obj_get_set_eq.
      * intros Hne. by apply obj_get_set_ne.
    + apply (Hstep _ H).
      * intros <-. exists v, v. rewrite Etd. by rewrite obj_get_set_eq.
      * intros Hne. by apply obj_get_set_ne.
Qed.

Lemma shape_field_plain v : plain_field v = true → ∃ v', shape_field v = Ok v'.
Proof.
  unfold shape_field, plain_field.
  destruct v as [| | | | |sec nan| |fields]; simpl; try by eexists.
  - destruct (Timestamp_toDate sec nan); [|done]. by eexists.
  - intros H. apply negb_true_iff in H. rewrite H. by eexists.
Qed.

Lemma plain_document_get (data : object) k v :
  plain_document data = true → obj_get data k = Some v → plain_field v = true.
Proof.
  unfold plain_document. induction data as [|[k0 v0] data IH]; [done|].
  simpl. intros [H0 H]%andb_true_iff. destruct (String.eqb k k0); [|by apply IH].
  by intros [= <-].
Qed.

Lemma all_plain_lookup (s : store) id data :
  all_plain s = true → s !! id = Some data → plain_document data = true.
Proof.
  unfold all_plain. rewrite forallb_forall. intros H Hd.
  apply (H (id, data)), list_elem_of_In, elem_of_map_to_list, Hd.
Qed.

Lemma convert_keys_total (data : object) keys (acc : object) :
  plain_document data = true → ∃ out, convert_keys data keys acc = Ok out.
Proof.
  intros Hplain. revert acc.
  induction keys as [|key keys IH]; intros acc; simpl; [by eexists|].
  destruct (obj_get data key) as [v|] eqn:Ev; [|apply IH].
  destruct (shape_field_plain v (plain_document_get _ _ _ Hplain Ev)) as [v' Hv'].
  unfold shape_field in Hv'. destruct (has_toDate v); [|apply IH].
  rewrite Hv'. simpl. apply IH.
Qed.

Lemma convertTimestamps_total id (data : object) :
  plain_document data = true →
  ∃ shaped, convertTimestamps {| snap_id := id; snap_data := Some data |} = Ok shaped.
Proof.
  intros Hplain. unfold convertTimestamps. simpl.
  destruct (convert_keys_total data (obj_keys data) [] Hplain) as [out ->].
  by eexists.
Qed.

(** The shaped document, field by field: every field of the data under
    its own key with its shaped value, and [id] from the document
    identifier unless the data has an [id] of its own. *)
Lemma convertTimestamps_get id (data shaped : object) k :
  convertTimestamps {| snap_id := id; snap_data := Some data |} = Ok shaped →
  match obj_get data k with
  | Some v => ∃ v', shape_field v = Ok v' ∧ obj_get shaped k = Some v'
  | None => obj_get shaped k = if String.eqb k "id" then Some (VStr id) else None
  end.
Proof.
  unfold convertTimestamps. simpl.
  destruct (convert_keys data (obj_keys data) []) as [converted|] eqn:Ec; [|done].
  simpl. intros H. injection H as <-.
  rewrite obj_spread_get
    by (eapply convert_keys_NoDup; [exact Ec | constructor]).
  pose proof (convert_keys_get _ _ _ _ k Ec) as Hk.
  destruct (obj_get data k) as [v|] eqn:Ev.
  - rewrite decide_True in Hk
      by (apply list_elem_of_In, obj_get_keys; by eexists).
    destruct Hk as (v' & Hshape & ->). by exists v'.
  - by rewrite Hk.
Qed.

(** What holds of [convertTimestamps] on a plain document without a field
    [id] of its own: it returns; the result has [id] equal to the
    document identifier; a timestamp field is replaced by the ISO text of
    its date; every other field is passed through. *)
Lemma convertTimestamps_plain id (data : object) :
  plain_document data = true →
  obj_get data "id" = None →
  ∃ shaped,
    convertTimestamps {| snap_id := id; snap_data := Some data |} = Ok shaped ∧
    obj_get shaped "id" = Some (VStr id) ∧
    (∀ k seconds nanos,
       obj_get data k = Some (VTimestamp seconds nanos) →
       ∃ iso, JSDate.toISOString (Timestamp_toDate seconds nanos) = Ok iso ∧
              obj_get shaped k = Some (VStr iso)) ∧
    (∀ k v, obj_get data k = Some v →
            (∀ seconds nanos, v ≠ VTimestamp seconds nanos) →
            obj_get shaped k = Some v).
Proof.
  intros Hplain Hid.
  destruct (convertTimestamps_total id data Hplain) as [shaped Hs].
  exists shaped. split; [done|]. split; [|split].
  - pose proof (convertTimestamps_get _ _ _ "id" Hs) as H. by rewrite Hid in H.
  - intros k seconds nanos Hk.
    pose proof (convertTimestamps_get _ _ _ k Hs) as H. rewrite Hk in H.
    destruct H as (v' & Hshape & ->). unfold shape_field in Hshape. simpl in Hshape.
    destruct (JSDate.toISOString _) as [iso|]; [|done].
    simpl in Hshape. injection Hshape as <-. by exists iso.
  - intros k v Hk Hnt.
    pose proof (convertTimestamps_get _ _ _ k Hs) as H. rewrite Hk in H.
    destruct H as (v' & Hshape & ->). unfold shape_field in Hshape.
    pose proof (plain_document_get _ _ _ Hplain Hk) as Hp.
    destruct v as [| | | | |sec nan| |fields]; simpl in *; try congruence.
    apply negb_true_iff in Hp. rewrite Hp in Hshape. congruence.
Qed.

(** C3, on the two documents where the code departs from it.  For a
    document whose data has its own field [id], the shaped [id] is that
    field and not the document identifier; for a document with a map
    that has a key [toDate], shaping throws instead of passing the map
    through. *)
Theorem convertTimestamps_departures :
  (∃ shaped, convertTimestamps doc_own_id = Ok shaped ∧
             snap_id doc_own_id = "a1" ∧
             obj_get shaped "id" = Some (VStr "mine")) ∧
  convertTimestamps doc_toDate_key = Throw "data[key].toDate is not a function".
Proof.
  split; [|reflexivity].
  eexists. split; [vm_compute; reflexivity|]. split; reflexivity.
Qed.

(** ** The order of the store on values *)

Lemma compare_number_antisym x y :
  compare_number y x = CompOpp (compare_number x y).
Proof.
  destruct x as [|a|m1 e1], y as [|b|m2 e2]; simpl; try done.
  - by destruct a, b.
  - by destruct a.
  - by destruct b.
  - rewrite (Z.min_comm e2 e1). apply Z.compare_antisym.
Qed.

Lemma Z_mul_compare_r n m p : 0 < p → (n * p ?= m * p) = (n ?= m).
Proof.
  intros Hp. destruct (Z.compare_spec n m) as [->|H|H].
  - apply Z.compare_refl.
  - apply Z.compare_lt_iff. by apply Z.mul_lt_mono_pos_r.
  - apply Z.compare_gt_iff. by apply Z.mul_lt_mono_pos_r.
Qed.

Lemma finite_compare_scaled m1 e1 m2 e2 K :
  K <= e1 → K <= e2 →
  compare_number (Finite m1 e1) (Finite m2 e2)
  = (m1 * 2 ^ (e1 - K) ?= m2 * 2 ^ (e2 - K)).
Proof.
  intros H1 H2. cbn [compare_number].
  set (mn := Z.min e1 e2).
  assert (Hmn : K <= mn) by (unfold mn; lia).
  replace (e1 - K) with ((e1 - mn) + (mn - K)) by lia.
  replace (e2 - K) with ((e2 - mn) + (mn - K)) by lia.
  rewrite !Z.pow_add_r, !Z.mul_assoc by (unfold mn; lia).
  symmetry. apply Z_mul_compare_r. apply Z.pow_pos_nonneg; lia.
Qed.

Lemma compare_number_weak_order : weak_order compare_number.
Proof.
  split; [exact compare_number_antisym|]. split.
  - intros x y z.
    destruct x as [|a|m1 e1], y as [|b|m2 e2], z as [|c|m3 e3];
      repeat match goal with x : bool |- _ => destruct x end;
      try (cbn; done).
    set (K := Z.min e1 (Z.min e2 e3)).
    rewrite (finite_compare_scaled m1 e1 m2 e2 K), (finite_compare_scaled m2 e2 m3 e3 K),
      (finite_compare_scaled m1 e1 m3 e3 K) by (unfold K; lia).
    intros ->%Z.compare_eq. done.
  - intros x y z.
    destruct x as [|a|m1 e1], y as [|b|m2 e2], z as [|c|m3 e3];
      repeat match goal with x : bool |- _ => destruct x end;
      try (cbn; done).
    set (K := Z.min e1 (Z.min e2 e3)).
    rewrite (finite_compare_scaled m1 e1 m2 e2 K), (finite_compare_scaled m2 e2 m3 e3 K),
      (finite_compare_scaled m1 e1 m3 e3 K) by (unfold K; lia).
    rewrite !Z.compare_gt_iff. lia.
Qed.

Lemma string_compare_weak_order : weak_order String.compare.
Proof.
  split; [intros x y; apply String.compare_antisym|]. split.
  - intros x y z H. by apply String.compare_eq_iff in H as ->.
  - intros x y z Hxy Hyz.
    assert (Hzy : String.le z y)
      by (unfold String.le, String.leb; rewrite String.compare_antisym, Hyz; done).
    assert (Hyx : String.le y x)
      by (unfold String.le, String.leb; rewrite String.compare_antisym, Hxy; done).
    assert (Hzx : String.le z x) by (by etrans).
    unfold String.le, String.leb in Hzx. rewrite String.compare_antisym in Hzx.
    destruct (String.compare x z) eqn:E; [|done|done].
    apply String.compare_eq_iff in E as ->.
    rewrite String.compare_antisym, Hyz in Hxy. done.
Qed.

Lemma bool_compare_weak_order : weak_order Bool.compare.
Proof.
  split; [by intros [] []|]. split; intros [] [] []; cbn; done.
Qed.

Lemma timestamp_compare_weak_order :
  weak_order (λ a b : Z * Z,
                match a.1 ?= b.1 with Eq => a.2 ?= b.2 | c => c end).
Proof.
  split; [|split].
  - intros [s1 n1] [s2 n2]. cbn. rewrite (Z.compare_antisym s1 s2), (Z.compare_antisym n1 n2).
    by destruct (s1 ?= s2).
  - intros [s1 n1] [s2 n2] [s3 n3]. cbn.
    destruct (Z.compare_spec s1 s2); [|done|done]. subst.
    intros ->%Z.compare_eq. done.
  - intros [s1 n1] [s2 n2] [s3 n3]. cbn.
    destruct (Z.compare_spec s1 s2), (Z.compare_spec s2 s3), (Z.compare_spec s1 s3);
      try done; try lia; rewrite ?Z.compare_gt_iff; lia.
Qed.

Lemma compare_entry_weak_order (cmp : value → value → comparison) :
  weak_order cmp → weak_order (compare_entry cmp).
Proof.
  intros (W1 & W2 & W3). destruct string_compare_weak_order as (S1 & S2 & S3).
  unfold compare_entry. split; [|split].
  - intros [k1 v1] [k2 v2]. cbn [fst snd]. rewrite (S1 k1 k2), (W1 v1 v2).
    by destruct (String.compare k1 k2).
  - intros [k1 v1] [k2 v2] [k3 v3]. cbn [fst snd].
    destruct (String.compare k1 k2) eqn:E12; [|done|done]. intros Hv.
    rewrite (S2 k1 k2 k3 E12). destruct (String.compare k1 k3); [|done|done].
    by apply W2.
  - intros [k1 v1] [k2 v2] [k3 v3]. cbn [fst snd].
    destruct (String.compare k1 k2) eqn:E12; [|done|].
    + rewrite (S2 k1 k2 k3 E12). intros Hv.
      destruct (String.compare k1 k3); [|done|done]. by apply W3.
    + intros _. destruct (String.compare k2 k3) eqn:E23; [|done|].
      * apply String.compare_eq_iff in E23 as <-. by rewrite E12.
      * intros _. by rewrite (S3 k1 k2 k3 E12 E23).
Qed.

Lemma compare_lists_weak_order {A} (cmp : A → A → comparison) :
  weak_order cmp → weak_order (compare_lists cmp).
Proof.
  intros (W1 & W2 & W3). split; [|split].
  - intros l. induction l as [|x l IH]; intros [|y r]; cbn; try done.
    rewrite (W1 x y), (IH r). by destruct (cmp x y).
  - intros l. induction l as [|x l IH]; intros [|y r] [|z t]; cbn; try done.
    destruct (cmp x y) eqn:Exy; [|done|done]. intros Hl.
    rewrite (W2 x y z Exy). destruct (cmp x z); [|done|done]. by apply IH.
  - intros l. induction l as [|x l IH]; intros [|y r] [|z t]; cbn; try done.
    destruct (cmp x y) eqn:Exy; [|done|].
    + rewrite (W2 x y z Exy). intros Hl.
      destruct (cmp x z); [|done|done]. by apply IH.
    + intros _. destruct (cmp y z) eqn:Eyz; [|done|].
      * assert (Ezy : cmp z y = Eq) by (by rewrite W1, Eyz).
        pose proof (W2 z y x Ezy) as H. rewrite (W1 x y), Exy in H. cbn in H.
        rewrite (W1 x z) in H. by destruct (cmp x z).
      * intros _. by rewrite (W3 x y z Exy Eyz).
Qed.

Lemma compare_with_weak_order (inner : value → value → comparison) :
  weak_order inner → weak_order (compare_with inner).
Proof.
  intros W.
  destruct (compare_lists_weak_order inner W) as (L1 & L2 & L3).
  destruct (compare_lists_weak_order _ (compare_entry_weak_order inner W))
    as (M1 & M2 & M3).
  destruct compare_number_weak_order as (N1 & N2 & N3).
  destruct string_compare_weak_order as (S1 & S2 & S3).
  destruct bool_compare_weak_order as (B1 & B2 & B3).
  destruct timestamp_compare_weak_order as (T1 & T2 & T3).
  split; [|split].
  - intros x y.
    destruct x, y; try (cbn; done);
      first [ apply B1 | apply N1 | apply S1 | apply L1 | apply M1
            | apply (T1 (_, _) (_, _)) ].
  - intros x y z.
    destruct x, y, z; try (cbn; done);
      first [ apply B2 | apply N2 | apply S2 | apply L2 | apply M2
            | apply (T2 (_, _) (_, _) (_, _)) ].
  - intros x y z.
    destruct x, y, z; try (cbn; done);
      first [ apply B3 | apply N3 | apply S3 | apply L3 | apply M3
            | apply (T3 (_, _) (_, _) (_, _)) ].
Qed.

Lemma compare_nested_weak_order depth : weak_order (compare_nested depth).
Proof.
  induction depth as [|depth IH]; cbn [compare_nested];
    apply compare_with_weak_order; [|done].
  split; [done|]. split; done.
Qed.

Lemma compare_lists_ext {A} (f g : A → A → comparison) (l r : list A) :
  (∀ x y, In x l → f x y = g x y) →
  compare_lists f l r = compare_lists g l r.
Proof.
  revert r. induction l as [|x l IH]; intros [|y r] H; cbn; try done.
  rewrite (H x y) by (by left). destruct (g x y); try done.
  apply IH. intros x' y' Hx'. apply H. by right.
Qed.

Lemma nesting_item (items : list value) x :
  In x items → (nesting x ≤ fold_right Nat.max O (map nesting items))%nat.
Proof.
  induction items as [|x0 items IH]; [done|].
  intros [->|Hin]; cbn; [lia|]. specialize (IH Hin). lia.
Qed.

Lemma nesting_field (fields : object) kv :
  In kv fields →
  (nesting kv.2 ≤ fold_right Nat.max O (map (λ kv, nesting kv.2) fields))%nat.
Proof.
  induction fields as [|kv0 fields IH]; [done|].
  intros [->|Hin]; cbn; [lia|]. specialize (IH Hin). lia.
Qed.

Lemma insert_entry_In kv (sorted : object) kv' :
  In kv' (insert_entry kv sorted) → kv' = kv ∨ In kv' sorted.
Proof.
  induction sorted as [|kv0 sorted IH]; cbn.
  - intros [<-|[]]. by left.
  - destruct (String.compare kv.1 kv0.1); cbn.
    + intros [<-|H]; [by left | right; by right].
    + intros [<-|H]; [by left | by right].
    + intros [<-|H]; [right; by left|].
      destruct (IH H) as [->|H']; [by left | right; by right].
Qed.

Lemma sorted_entries_In (fields : object) kv :
  In kv (sorted_entries fields) → In kv fields.
Proof.
  induction fields as [|kv0 fields IH]; cbn; [done|].
  intros H. apply insert_entry_In in H as [->|H]; [by left | right; by apply IH].
Qed.

(** [compare_with] reads [inner] on the elements of its first argument
    only. *)
Lemma compare_with_ext (f g : value → value → comparison) a b :
  (∀ x y, (nesting x < nesting a)%nat → f x y = g x y) →
  compare_with f a b = compare_with g a b.
Proof.
  intros H. destruct a, b; try reflexivity; cbn [compare_with].
  - apply compare_lists_ext. intros x y Hx. apply H.
    apply nesting_item in Hx. cbn [nesting]. lia.
  - apply compare_lists_ext. intros p q Hp. unfold compare_entry.
    rewrite (H p.2 q.2); [done|].
    apply sorted_entries_In, nesting_field in Hp. cbn [nesting]. lia.
Qed.

Lemma compare_nested_enough n : ∀ m a b,
  (nesting a ≤ n)%nat → (nesting a ≤ m)%nat →
  compare_nested n a b = compare_nested m a b.
Proof.
  induction n as [|n IH]; intros [|m] a b Hn Hm; cbn [compare_nested];
    apply compare_with_ext; intros x y Hx; try lia.
  apply IH; lia.
Qed.

Lemma compare_value_nested depth a b :
  (nesting a ≤ depth)%nat → compare_value a b = compare_nested depth a b.
Proof. intros H. unfold compare_value. by apply compare_nested_enough. Qed.

(** The order of the store compares the elements of arrays and the values
    of maps by itself. *)
Lemma compare_value_unfold a b : compare_value a b = compare_with compare_value a b.
Proof.
  unfold compare_value at 1. destruct (nesting a) as [|n] eqn:E; cbn [compare_nested];
    apply compare_with_ext; intros x y Hx; [lia|].
  symmetry. apply compare_value_nested. lia.
Qed.

Lemma compare_value_weak_order : weak_order compare_value.
Proof.
  split; [|split].
  - intros x y. set (n := Nat.max (nesting x) (nesting y)).
    rewrite (compare_value_nested n y x), (compare_value_nested n x y) by lia.
    apply compare_nested_weak_order.
  - intros x y z. set (n := Nat.max (nesting x) (Nat.max (nesting y) (nesting z))).
    rewrite (compare_value_nested n x y), (compare_value_nested n y z),
      (compare_value_nested n x z) by lia.
    apply compare_nested_weak_order.
  - intros x y z. set (n := Nat.max (nesting x) (Nat.max (nesting y) (nesting z))).
    rewrite (compare_value_nested n x y), (compare_value_nested n y z),
      (compare_value_nested n x z) by lia.
    apply compare_nested_weak_order.
Qed.

Lemma compare_value_antisym a b :
  compare_value b a = CompOpp (compare_value a b).
Proof. apply compare_value_weak_order. Qed.

(** ** Listing *)

#[global] Instance comes_before_total field : Total (comes_before field).
Proof.
  intros [id1 d1] [id2 d2]. unfold comes_before, before_desc. simpl.
  destruct (obj_get d1 field) as [a|]; [|by left].
  destruct (obj_get d2 field) as [b|]; [|by left].
  rewrite (compare_value_antisym a b), (String.compare_antisym id1 id2).
  destruct (compare_value a b); simpl; auto;
    destruct (String.compare id2 id1); simpl; auto.
Qed.

Lemma set_path_is_Some (o : object) path v k :
  is_Some (obj_get o k) → is_Some (obj_get (set_path o path v) k).
Proof.
  destruct path as [|k0 [|k1 path]]; simpl; [done|..];
    rewrite obj_get_set; by destruct (String.eqb k0 k).
Qed.

Lemma post_tasks_cases env now newId (req_body : object) (s : store) :
  (post_tasks env now newId req_body s).2 = s ∨
  ∃ stored, encode_fields (taskData env now req_body) = Ok stored ∧
            (post_tasks env now newId req_body s).2 = <[newId := stored]> s.
Proof.
  unfold post_tasks, collection_add.
  destruct (encode_fields _) as [stored|]; simpl; [|by left].
  destruct (storeAccepts env stored); [|by left].
  destruct (s !! newId); [by left|].
  right. exists stored. split; [done|]. by destruct (convertTimestamps _).
Qed.

Lemma put_task_cases env taskId (req_body : object) (s : store) :
  (put_task env taskId req_body s).2 = s ∨
  ∃ id old writes, s !! id = Some old ∧
    (put_task env taskId req_body s).2
    = <[id := fold_left (λ o w, set_path o w.1 w.2) writes old]> s.
Proof.
  unfold put_task.
  destruct (collection_doc taskId) as [taskRef|]; simpl; [|by left].
  destruct (docRef_get taskRef s) as [taskDoc|]; simpl; [|by left].
  destruct (negb _); [by left|].
  destruct (doc_update env taskRef _ s) as [s'|] eqn:Eu; [|by left].
  apply doc_update_Ok in Eu as (id & old & writes & _ & Hold & _ & ->).
  right. exists id, old, writes. split; [done|].
  by destruct (_ ≫= _).
Qed.

Lemma delete_task_cases taskId (s : store) :
  (delete_task taskId s).2 = s ∨ ∃ id, (delete_task taskId s).2 = delete id s.
Proof.
  unfold delete_task.
  destruct (collection_doc taskId) as [taskRef|]; simpl; [|by left].
  destruct (docRef_get taskRef s) as [taskDoc|]; simpl; [|by left].
  destruct (negb _); [by left|]. simpl.
  destruct taskRef as [|id [|? ?]]; [by left| |by left]. right. by exists id.
Qed.

Lemma reachable_has_createdAt env (s : store) : reachable env s → has_createdAt s.
Proof.
  induction 1 as [|r s _ IH]; [by intros id data H|].
  intros id data. destruct r; simpl; try apply IH.
  - destruct (post_tasks_cases env now newId req_body s) as [->|(stored & He & ->)];
      [apply IH|].
    rewrite lookup_insert. case_decide; [|apply IH].
    intros Hd. injection Hd as <-.
    rewrite (taskData_stored_createdAt _ _ _ _ He). by eexists.
  - destruct (put_task_cases env taskId req_body s)
      as [->|(id' & old & writes & Hold & ->)]; [apply IH|].
    rewrite lookup_insert. case_decide; [|apply IH].
    intros Hd. injection Hd as <-. specialize (IH _ _ Hold).
    clear Hold. revert old IH.
    induction writes as [|w writes IHw]; intros old IH; [done|].
    simpl. apply IHw. by apply set_path_is_Some.
  - destruct (delete_task_cases taskId s) as [->|[id' ->]]; [apply IH|].
    rewrite lookup_delete. case_decide; [done|apply IH].
Qed.

Lemma filter_all {A} (P : A → Prop) `{∀ x, Decision (P x)} (l : list A) :
  Forall P l → filter P l = l.
Proof.
  induction 1 as [|x l Hx _ IH]; [done|].
  rewrite filter_cons_True by done. by rewrite IH.
Qed.

(** On timestamps made from clock readings, the order of the store is
    the order of the clock. *)
Lemma compare_createdAt_later nowA nowB :
  nowA < nowB →
  compare_value
    (VTimestamp (nowB / 1000) ((nowB - nowB / 1000 * 1000) * 1000000))
    (VTimestamp (nowA / 1000) ((nowA - nowA / 1000 * 1000) * 1000000)) = Gt.
Proof.
  intros Hlt. rewrite compare_value_unfold. cbn [compare_with].
  destruct (Z.compare_spec (nowB / 1000) (nowA / 1000)) as [Heq|Hl|Hg]; [| |done].
  - apply Z.compare_gt_iff. rewrite Heq. lia.
  - exfalso. assert (nowA / 1000 <= nowB / 1000) by (apply Z.div_le_mono; lia). lia.
Qed.

(** The listing of a collection in which every document has [createdAt]
    and can be shaped. *)
Lemma get_tasks_listing (s : store) :
  has_createdAt s → all_plain s = true →
  ∃ docs tasks,
    docs ≡ₚ map_to_list s ∧
    Sorted (comes_before "createdAt") docs ∧
    mapR convertTimestamps (map to_snapshot docs) = Ok tasks ∧
    get_tasks s = json 200 (VArr (map VObj tasks)).
Proof.
  intros Hc Hp. unfold get_tasks, query_orderBy_desc.
  rewrite (filter_all _ (map_to_list s)).
  2: { apply Forall_forall. intros [id data] Hin. simpl.
       apply elem_of_map_to_list in Hin. unfold obj_has.
       by destruct (Hc _ _ Hin) as [v ->]. }
  set (docs := merge_sort (comes_before "createdAt") (map_to_list s)).
  assert (Hperm : docs ≡ₚ map_to_list s) by apply merge_sort_Permutation.
  destruct (mapR_total convertTimestamps (map to_snapshot docs)) as [tasks Ht].
  { apply Forall_map, Forall_forall. intros [id data] Hin.
    rewrite Hperm in Hin. apply elem_of_map_to_list in Hin.
    apply convertTimestamps_total. by eapply all_plain_lookup. }
  exists docs, tasks. split; [done|]. split; [apply Sorted_merge_sort, _|].
  split; [done|]. rewrite Ht.
  destruct (map to_snapshot docs); [|done]. by injection Ht as <-.
Qed.

(** C5.  Listing an empty collection answers 200 with an empty array.
    In every collection the API can reach and whose documents can all be
    shaped, the listing answers 200 with the shaped form of every
    document, each exactly once, in descending order of [createdAt].
    Creating A and then, at a later clock reading, B in an empty
    collection makes the listing [B, A]. *)
Theorem get_tasks_spec env :
  get_tasks ∅ = json 200 (VArr []) ∧
  (∀ s : store, reachable env s → all_plain s = true →
     ∃ docs tasks,
       docs ≡ₚ map_to_list s ∧
       Sorted (comes_before "createdAt") docs ∧
       mapR convertTimestamps (map to_snapshot docs) = Ok tasks ∧
       get_tasks s = json 200 (VArr (map VObj tasks))) ∧
  (∀ nowA nowB idA idB (bodyA bodyB storedA storedB : object),
     encode_fields (taskData env nowA bodyA) = Ok storedA →
     storeAccepts env storedA = true →
     encode_fields (taskData env nowB bodyB) = Ok storedB →
     storeAccepts env storedB = true →
     plain_document storedA = true → plain_document storedB = true →
     idA ≠ idB → nowA < nowB →
     ∃ tA tB,
       convertTimestamps {| snap_id := idA; snap_data := Some storedA |} = Ok tA ∧
       convertTimestamps {| snap_id := idB; snap_data := Some storedB |} = Ok tB ∧
       get_tasks (post_tasks env nowB idB bodyB
                    (post_tasks env nowA idA bodyA ∅).2).2
       = json 200 (VArr [VObj tB; VObj tA])).
Proof.
  split; [reflexivity|]. split.
  { intros s Hr Hp. apply get_tasks_listing; [|done].
    by eapply reachable_has_createdAt. }
  intros nowA nowB idA idB bodyA bodyB storedA storedB HeA HaA HeB HaB HpA HpB Hid Hlt.
  rewrite (post_tasks_stored _ _ _ _ _ _ HeA HaA) by apply lookup_empty.
  rewrite (post_tasks_stored _ _ _ _ _ _ HeB HaB)
    by (rewrite lookup_insert_ne by done; apply lookup_empty).
  destruct (convertTimestamps_total idA storedA HpA) as [tA HtA].
  destruct (convertTimestamps_total idB storedB HpB) as [tB HtB].
  exists tA, tB. split; [done|]. split; [done|].
  pose proof (taskData_stored_createdAt _ _ _ _ HeA) as HcA.
  pose proof (taskData_stored_createdAt _ _ _ _ HeB) as HcB.
  set (s := <[idB := storedB]> (<[idA := storedA]> (∅ : store))).
  assert (Hlist : map_to_list s ≡ₚ [(idB, storedB); (idA, storedA)]).
  { unfold s. rewrite map_to_list_insert
      by (rewrite lookup_insert_ne by done; apply lookup_empty).
    rewrite insert_empty, map_to_list_singleton. done. }
  unfold get_tasks, query_orderBy_desc.
  rewrite (filter_all _ (map_to_list s)).
  2: { apply Forall_forall. intros d Hin. rewrite Hlist in Hin.
       unfold obj_has.
       apply elem_of_cons in Hin as [->|Hin]; simpl; [by rewrite HcB|].
       apply list_elem_of_singleton in Hin as ->. simpl. by rewrite HcA. }
  assert (Hsorted := Sorted_merge_sort (comes_before "createdAt") (map_to_list s)).
  assert (Hperm : [(idB, storedB); (idA, storedA)]
                  ≡ₚ merge_sort (comes_before "createdAt") (map_to_list s))
    by (symmetry; etrans; [apply merge_sort_Permutation | exact Hlist]).
  apply Permutation_length_2_inv in Hperm as [Heq|Heq]; rewrite Heq in *.
  - unfold to_snapshot. cbn [map mapR fst snd]. by rewrite HtB, HtA.
  - exfalso. apply Sorted_inv in Hsorted as [_ Hhd].
    apply HdRel_inv in Hhd. unfold comes_before, before_desc in Hhd. simpl in Hhd.
    rewrite HcA, HcB, compare_value_antisym, compare_createdAt_later in Hhd by done.
    done.
Qed.

Lemma reachable_post_tasks env now newId (req_body : object) (s : store) :
  reachable env s → reachable env (post_tasks env now newId req_body s).2.
Proof. intros H. exact (reachable_serve env (PostTasks now newId req_body) s H). Qed.

Lemma reachable_store_AB : reachable utc_env store_AB.
Proof.
  unfold store_AB, store_A. do 2 apply reachable_post_tasks. apply reachable_empty.
Qed.

Lemma get_tasks_spec_witness :
  (∃ docs tasks,
     docs ≡ₚ map_to_list store_AB ∧
     Sorted (comes_before "createdAt") docs ∧
     mapR convertTimestamps (map to_snapshot docs) = Ok tasks ∧
     get_tasks store_AB = json 200 (VArr (map VObj tasks))) ∧
  (∃ tA tB,
     convertTimestamps {| snap_id := "a1"; snap_data := Some stored_A |} = Ok tA ∧
     convertTimestamps {| snap_id := "b2"; snap_data := Some stored_B |} = Ok tB ∧
     get_tasks (post_tasks utc_env 1700000000001 "b2" task_B_backdated
                  (post_tasks utc_env 1700000000000 "a1" task_A ∅).2).2
     = json 200 (VArr [VObj tB; VObj tA])).
Proof.
  destruct (get_tasks_spec utc_env) as (_ & Hall & Htwo). split.
  - apply Hall; [exact reachable_store_AB | vm_compute; reflexivity].
  - apply (Htwo 1700000000000 1700000000001 "a1" "b2" task_A task_B_backdated
             stored_A stored_B); try (vm_compute; reflexivity); done.
Defined.

(** C5 as stated fails when A and B are created within the same
    millisecond: [createdAt] is the only sort key, the two timestamps are
    equal, and the listing falls back on the identifiers, here A first. *)
Lemma get_tasks_same_instant_counterexample :
  ¬ (get_tasks same_instant_B.2
     = json 200 (VArr [body same_instant_B.1; body same_instant_A.1])).
Proof. vm_compute. intros H. discriminate H. Qed.

(** Arrays under [createdAt] are listed by their elements: [[2]] before
    [[1]], whatever the identifiers. *)
Lemma get_tasks_createdAt_arrays :
  reachable utc_env store_arrays ∧
  all_plain store_arrays = true ∧
  map snap_id (query_orderBy_desc "createdAt" store_arrays) = ["a1"; "z9"].
Proof.
  split; [|split; vm_compute; reflexivity].
  unfold store_arrays, store_A.
  apply (reachable_serve utc_env (PutTask "a1" _)),
    (reachable_serve utc_env (PutTask "z9" _)).
  do 2 apply reachable_post_tasks. apply reachable_empty.
Qed.

(** ** Double arithmetic and the completion rate *)

Lemma round_half_even_near a b :
  0 < b → 2 * Z.abs (Double.round_half_even a b * b - a) <= b.
Proof.
  intros Hb. unfold Double.round_half_even.
  pose proof (Z.div_mod a b ltac:(lia)) as Hdm.
  pose proof (Z.mod_pos_bound a b Hb) as Hr.
  destruct (Z.ltb_spec (2 * (a mod b)) b); [lia|].
  destruct (Z.ltb_spec b (2 * (a mod b))); [lia|].
  destruct (Z.even (a / b)); lia.
Qed.

Lemma round_half_even_nonneg a b :
  0 <= a → 0 < b → 0 <= Double.round_half_even a b.
Proof.
  intros Ha Hb. unfold Double.round_half_even.
  assert (0 <= a / b) by (apply Z.div_pos; lia).
  repeat destruct (_ <? _); [lia..|]. destruct (Z.even _); lia.
Qed.

Lemma binade_le num den K :
  0 < num → 0 < den → 0 <= K → num <= den * 2 ^ K → Double.binade num den <= K.
Proof.
  intros Hn Hd HK Hle. unfold Double.binade.
  assert (Z.log2 num <= Z.log2 den + K).
  { etrans; [apply Z.log2_le_mono, Hle|].
    rewrite Z.log2_mul_pow2 by lia. lia. }
  destruct (_ <=? _); lia.
Qed.

(** Rounding a positive rational below [2^K]: the result is [m * 2^(-E)]
    with at least [52 - K] fractional bits, within half a unit of the
    last place. *)
Lemma round_double_bounded num den K :
  0 < num → 0 < den → 0 <= K <= 51 → num <= den * 2 ^ K →
  ∃ m E, Double.round_double num den = Finite m (- E) ∧
         52 - K <= E ∧ 0 <= m ∧
         2 * Z.abs (m * den - num * 2 ^ E) <= den.
Proof.
  intros Hn Hd HK Hle. unfold Double.round_double.
  destruct (Z.eqb_spec num 0) as [?|_]; [lia|].
  pose proof (binade_le num den K Hn Hd ltac:(lia) Hle) as Hb.
  set (e := Z.max (Double.binade num den) (-1022) - 52).
  assert (He : e <= K - 52) by lia.
  rewrite (Z.max_l 0 e), (Z.max_r 0 (- e)) by lia.
  destruct (Z.leb_spec 0 e) as [?|_]; [lia|]. simpl andb. cbv iota.
  rewrite Z.pow_0_r, Z.mul_1_r.
  exists (Double.round_half_even (num * 2 ^ (- e)) den), (- e).
  rewrite Z.opp_involutive. split; [done|]. split; [lia|]. split.
  - apply round_half_even_nonneg; [|done].
    apply Z.mul_nonneg_nonneg; [lia|]. apply Z.pow_nonneg. lia.
  - by apply round_half_even_near.
Qed.

(** The double [mp / B] computed for [c / t * 100] (quotient [mq / A]
    rounded, then the product rounded) is so close to the exact value
    that the nearest number of tenths [n] of the double is a nearest
    number of tenths of the exact value. *)
Lemma rate_arith c t mq A mp B n :
  0 <= c <= t → 0 < t < 2 ^ 32 → 2 ^ 52 <= A → 2 ^ 45 <= B →
  2 * Z.abs (mq * t - c * A) <= t →
  2 * Z.abs (mp * A - mq * 100 * B) <= A →
  n = (2 * mp * 10 + B) / (2 * B) →
  2 * Z.abs (n * t - 1000 * c) <= t.
Proof.
  intros Hc Ht HA HB H1 H2 ->.
  change (2^32) with 4294967296 in *. change (2^52) with 4503599627370496 in *.
  change (2^45) with 35184372088832 in *.
  set (n := (2 * mp * 10 + B) / (2 * B)).
  assert (Hn : 2 * B * n <= 2 * mp * 10 + B < 2 * B * (n + 1)).
  { unfold n. pose proof (Z.div_mod (2 * mp * 10 + B) (2 * B) ltac:(lia)).
    pose proof (Z.mod_pos_bound (2 * mp * 10 + B) (2 * B) ltac:(lia)). lia. }
  clearbody n.
  assert (HAt : 0 < A * t) by (apply Z.mul_pos_pos; lia).
  assert (HAB : 0 < A * B) by (apply Z.mul_pos_pos; lia).
  assert (S4 : (2000 * t) * B <= A * B) by (apply Z.mul_le_mono_nonneg_r; lia).
  assert (S5 : (20 * t) * A < B * A) by (apply Z.mul_lt_mono_pos_r; lia).
  assert (U : A * B * ((2 * n - 1) * t - 2000 * c) < A * B * 1).
  { assert (S1 : ((2 * n - 1) * B) * (A * t) <= (20 * mp) * (A * t))
      by (apply Z.mul_le_mono_nonneg_r; lia).
    assert (S2 : (2 * (mp * A)) * (10 * t) <= (200 * (mq * B) + A) * (10 * t))
      by (apply Z.mul_le_mono_nonneg_r; lia).
    assert (S3 : (2 * (mq * t)) * (1000 * B) <= (2 * (c * A) + t) * (1000 * B))
      by (apply Z.mul_le_mono_nonneg_r; lia).
    lia. }
  assert (L : A * B * (2000 * c - (2 * n + 1) * t) < A * B * 1).
  { assert (S1 : (20 * mp) * (A * t) < ((2 * n + 1) * B) * (A * t))
      by (apply Z.mul_lt_mono_pos_r; lia).
    assert (S2 : (200 * (mq * B) - A) * (10 * t) <= (2 * (mp * A)) * (10 * t))
      by (apply Z.mul_le_mono_nonneg_r; lia).
    assert (S3 : (2 * (c * A) - t) * (1000 * B) <= (2 * (mq * t)) * (1000 * B))
      by (apply Z.mul_le_mono_nonneg_r; lia).
    lia. }
  apply Z.mul_lt_mono_pos_l in U; [|done].
  apply Z.mul_lt_mono_pos_l in L; [|done].
  lia.
Qed.

Lemma completionRate_nearest env (total completed : nat) :
  (0 < total)%nat → (completed <= total)%nat → Z.of_nat total < 2 ^ 32 →
  ∃ n, completionRate env total completed = VStr (rate_text n) ∧ 0 <= n ∧
       2 * Z.abs (n * Z.of_nat total - 1000 * Z.of_nat completed) <= Z.of_nat total.
Proof.
  intros Ht Hc Hbound. unfold completionRate.
  rewrite (proj2 (Nat.ltb_lt 0 total)) by done.
  unfold Double.of_nat.
  set (t := Z.of_nat total) in *. set (c := Z.of_nat completed) in *.
  assert (Ht' : 0 < t) by lia. assert (Hc' : 0 <= c <= t) by lia.
  clearbody t c. clear Ht Hc.
  unfold Double.div.
  destruct (Z.eqb_spec t 0) as [?|_]; [lia|].
  rewrite (proj2 (Z.ltb_ge c 0)), (proj2 (Z.ltb_ge t 0)) by lia.
  rewrite Z.sub_diag, Z.max_id, Z.pow_0_r, !Z.mul_1_r, !Z.abs_eq by lia.
  cbn [xorb Double.signed].
  change (Z.of_nat 100) with 100.
  destruct (Z.eq_dec c 0) as [->|Hc0].
  { exists 0. split; [|lia]. reflexivity. }
  destruct (round_double_bounded c t 0) as (mq & E & -> & HE & Hmq & Hq); try lia.
  unfold Double.mul.
  rewrite (proj2 (Z.ltb_ge mq 0)) by lia. change (100 <? 0) with false.
  cbn [xorb Double.signed]. rewrite Z.add_0_r, Z.opp_involutive.
  rewrite (Z.max_l 0 (- E)), (Z.max_r 0 E), Z.pow_0_r, Z.mul_1_r by lia.
  rewrite (Z.abs_eq mq) by lia. change (Z.abs 100) with 100.
  assert (HA : 2 ^ 52 <= 2 ^ E) by (apply Z.pow_le_mono_r; lia).
  set (A := 2 ^ E) in *. clearbody A.
  assert (HcA : c * A <= t * A) by (apply Z.mul_le_mono_nonneg_r; lia).
  assert (HcA' : 1 * A <= c * A) by (apply Z.mul_le_mono_nonneg_r; lia).
  change (2 ^ 32) with 4294967296 in *. change (2 ^ 52) with 4503599627370496 in *.
  assert (Hmq0 : 0 < mq).
  { destruct (Z.eq_dec mq 0) as [->|?]; lia. }
  assert (HmqA : mq <= A).
  { apply Z.nlt_ge. intros Hgt.
    assert ((A + 1) * t <= mq * t) by (apply Z.mul_le_mono_nonneg_r; lia). lia. }
  destruct (round_double_bounded (mq * 100) A 7) as (mp & Ep & -> & HEp & Hmp & Hp);
    try lia.
  assert (HB : 2 ^ 45 <= 2 ^ Ep) by (apply Z.pow_le_mono_r; lia).
  unfold Double.toFixed, Double.nearest_scaled.
  rewrite (Z.max_l 0 (- Ep)), Z.opp_involutive, (Z.max_r 0 Ep), Z.pow_0_r, Z.mul_1_r by lia.
  rewrite (proj2 (Z.ltb_ge mp 0)), (Z.abs_eq mp) by lia.
  destruct (Z.leb_spec 0 (- Ep)) as [?|_]; [lia|].
  replace (Ep + 1) with (Z.succ Ep) by lia. rewrite Z.pow_succ_r by lia.
  change (10 ^ Z.of_nat 1) with 10.
  set (B := 2 ^ Ep) in *. clearbody B.
  change (2 ^ 45) with 35184372088832 in *.
  assert (HmpB : mp <= 100 * B).
  { apply Z.nlt_ge. intros Hgt.
    assert ((100 * B + 1) * A <= mp * A) by (apply Z.mul_le_mono_nonneg_r; lia).
    assert (mq * 100 * B <= A * 100 * B).
    { apply Z.mul_le_mono_nonneg_r; [lia|]. apply Z.mul_le_mono_nonneg_r; lia. }
    lia. }
  destruct (Z.ltb_spec mp (10 ^ 21 * B)) as [_|Hbig].
  2: { change (10 ^ 21) with 1000000000000000000000 in Hbig. lia. }
  set (n := (2 * mp * 10 + B) / (2 * B)).
  exists n. split; [|split].
  - unfold rate_text. cbn [pad_digits]. by rewrite Z.mod_mod by lia.
  - apply Z.div_pos; lia.
  - apply (rate_arith c t mq A mp B n); try done; lia.
Qed.

(** C4 (amended).  When the statistics handler answers (every document
    shaped), it answers 200 with [totalTasks] the number of documents and
    [completedTasks] the number of those whose [completed] is truthy, and
    [completionRate] is the number [0] when there is no task, and
    otherwise the text, with one decimal, of a number of tenths nearest
    to [completedTasks / totalTasks * 100] (at most one twentieth away):
    the double arithmetic of the handler changes nothing to that.  Where
    the percentage lies halfway between two such numbers the statement
    allows both.  1 of 1 gives "100.0", 1 of 4 gives "25.0". *)
Theorem get_stats_completionRate env now (s : store) tasks :
  mapR convertTimestamps (collection_get s) = Ok tasks →
  Z.of_nat (size s) < 2 ^ 32 →
  ∃ total completed today rate,
    get_stats env now s
    = json 200 (VObj [("totalTasks", num total); ("completedTasks", num completed);
                      ("todayTasks", num today); ("completionRate", rate)]) ∧
    total = size s ∧
    completed = length (filter (λ task, truthy (obj_get task "completed") = true) tasks) ∧
    (total = 0%nat → rate = VNum (Finite 0 0)) ∧
    ((0 < total)%nat →
       ∃ n, rate = VStr (rate_text n) ∧ 0 <= n ∧
            2 * Z.abs (n * Z.of_nat total - 1000 * Z.of_nat completed)
            <= Z.of_nat total) ∧
    completionRate env 1 1 = VStr "100.0" ∧
    completionRate env 4 1 = VStr "25.0".
Proof.
  intros Ht Hsize. unfold get_stats. rewrite Ht.
  assert (Hlen : length tasks = size s).
  { rewrite (mapR_length _ _ _ Ht). unfold collection_get.
    by rewrite length_map, length_map_to_list. }
  set (completed := length (filter _ tasks)).
  assert (Hcompleted : (completed <= length tasks)%nat) by apply length_filter.
  eexists (length tasks), completed, _, _. split; [reflexivity|].
  split; [done|]. split; [done|]. split; [|split; [|split; reflexivity]].
  - intros H0. unfold completionRate. by rewrite H0.
  - intros Hpos. apply completionRate_nearest; [done..|]. by rewrite Hlen.
Qed.

Lemma get_stats_completionRate_witness :
  ∃ total completed today rate,
    get_stats utc_env 1710500000000 store_AB_done
    = json 200 (VObj [("totalTasks", num total); ("completedTasks", num completed);
                      ("todayTasks", num today); ("completionRate", rate)]) ∧
    total = 2%nat ∧ completed = 1%nat ∧ rate = VStr "50.0".
Proof.
  destruct (get_stats_completionRate utc_env 1710500000000 store_AB_done
              [shaped_A true; shaped_B])
    as (total & completed & today & rate & Hr & Htotal & Hcompleted & _);
    [vm_compute; reflexivity | vm_compute; reflexivity |].
  exists total, completed, today, rate. split; [exact Hr|].
  assert (Ht2 : total = 2%nat) by (rewrite Htotal; vm_compute; reflexivity).
  assert (Hc1 : completed = 1%nat) by (rewrite Hcompleted; vm_compute; reflexivity).
  split; [exact Ht2|]. split; [exact Hc1|].
  subst total completed. vm_compute in Hr. by injection Hr as _ <-.
Defined.

(** C4 as stated fails where the percentage lies halfway between two
    numbers with one decimal: the handler rounds the double it has
    computed, not the percentage, and no rule of rounding gives both
    what it prints for 23 of 80 (28.75 printed as 28.7, the lower
    neighbour) and for 1 of 16 (6.25 printed as 6.3, the upper one). *)
Lemma completionRate_tie_counterexample :
  get_stats utc_env 1710500000000 (tasks_numbered 80 23)
  = json 200 (VObj [("totalTasks", num 80); ("completedTasks", num 23);
                    ("todayTasks", num 80); ("completionRate", VStr "28.7")]) ∧
  2 * (1000 * 23) = (287 + 288) * 80 ∧
  get_stats utc_env 1710500000000 (tasks_numbered 16 1)
  = json 200 (VObj [("totalTasks", num 16); ("completedTasks", num 1);
                    ("todayTasks", num 16); ("completionRate", VStr "6.3")]) ∧
  2 * (1000 * 1) = (62 + 63) * 16.
Proof. repeat split; vm_compute; reflexivity. Qed.

(** ** Calendar and ISO text *)



(** [Calendar.civil_from_days] yields a month and a day of the month, is inverted
    by [Calendar.days_from_civil], and stays within the years 1 to 9999 on the
    days a timestamp can hold. *)
Lemma civil_from_days_fields z :
  ∃ y m d, Calendar.civil_from_days z = (y, m, d) ∧ 1 <= m <= 12 ∧ 1 <= d <= 31 ∧
           Calendar.days_from_civil y m d = z ∧
           (-719162 <= z <= 2932896 → 1 <= y <= 9999).
Proof.
  unfold Calendar.civil_from_days, Calendar.days_from_civil.
  set (z' := z + 719468).
  set (era := z' / 146097).
  set (doe := z' - era * 146097).
  set (yoe := (doe - doe / 1460 + doe / 36524 - doe / 146096) / 365).
  set (doy := doe - (365 * yoe + yoe / 4 - yoe / 100)).
  set (mp := (5 * doy + 2) / 153).
  set (d := doy - (153 * mp + 2) / 5 + 1).
  assert (Hdoe : 0 <= doe <= 146096).
  { unfold doe, era. euclid. }
  assert (Hyoe : 0 <= yoe <= 399 ∧ 0 <= doy <= 365).
  { unfold doy, yoe. euclid. }
  assert (Hmp : 0 <= mp <= 11) by (unfold mp; euclid).
  assert (Hd : 1 <= d <= 31) by (unfold d, mp; euclid).
  eexists _, _, d. split; [reflexivity|].
  split; [destruct (Z.ltb_spec mp 10); lia|]. split; [done|]. split.
  - set (m := if mp <? 10 then mp + 3 else mp - 9).
    assert (Hy : (if m <=? 2 then (if m <=? 2 then yoe + era * 400 + 1 else yoe + era * 400) - 1
                  else (if m <=? 2 then yoe + era * 400 + 1 else yoe + era * 400))
                 = yoe + era * 400) by (destruct (m <=? 2); lia).
    rewrite Hy.
    assert (Hm : (if 2 <? m then m - 3 else m + 9) = mp).
    { unfold m. destruct (Z.ltb_spec mp 10);
        [destruct (Z.ltb_spec 2 (mp + 3)) | destruct (Z.ltb_spec 2 (mp - 9))]; lia. }
    rewrite Hm.
    assert (He : (yoe + era * 400) / 400 = era).
    { symmetry. apply (Z.div_unique _ 400 era yoe); lia. }
    rewrite He. replace (yoe + era * 400 - era * 400) with yoe by lia. unfold d, doy, doe, z'. lia.
  - intros Hz.
    assert (0 <= era <= 24) by (unfold era, z'; euclid).
    destruct (Z.ltb_spec mp 10).
    + destruct (Z.leb_spec (mp + 3) 2); [lia|]. 
      assert (era = 0 → 1 <= yoe).
      { intros He. unfold mp, doy, yoe, doe, z' in *. euclid. }
      lia.
    + destruct (Z.leb_spec (mp - 9) 2); [|lia].
      assert (era = 24 → yoe <= 398).
      { intros He. unfold mp, doy, yoe, doe, z' in *. euclid. }
      lia.
Qed.

Lemma char_digit_digit_char n : 0 <= n <= 9 → char_digit (digit_char n) = Some n.
Proof.
  intros H.
  assert (Hn : n = 0 ∨ n = 1 ∨ n = 2 ∨ n = 3 ∨ n = 4 ∨ n = 5 ∨ n = 6 ∨ n = 7
               ∨ n = 8 ∨ n = 9) by lia.
  repeat destruct Hn as [->|Hn]; try reflexivity. by subst.
Qed.

Lemma read_digits_pad_more w k acc n rest :
  0 <= n < 10 ^ Z.of_nat w →
  read_digits (w + k) acc (pad_digits w n rest)
  = read_digits k (acc * 10 ^ Z.of_nat w + n) rest.
Proof.
  revert k n rest. induction w as [|w IH]; intros k n rest Hn.
  - simpl in *. f_equal. lia.
  - rewrite Nat2Z.inj_succ, Z.pow_succ_r in Hn by lia.
    cbn [pad_digits]. rewrite Nat.add_succ_comm.
    rewrite IH by euclid.
    cbn [read_digits]. rewrite char_digit_digit_char
      by euclid.
    f_equal. rewrite Nat2Z.inj_succ, Z.pow_succ_r by lia.
    euclid.
Qed.

Lemma read_digits_pad w n rest :
  0 <= n < 10 ^ Z.of_nat w →
  read_digits w 0 (pad_digits w n rest) = Some (n, rest).
Proof.
  intros Hn. rewrite <- (Nat.add_0_r w) at 1.
  rewrite read_digits_pad_more by done. cbn [read_digits].
  by rewrite Z.mul_0_l, Z.add_0_l.
Qed.

(** One field of the date-time format read back: the digits written by
    [pad_digits], then the separator. *)
Ltac read_field bound :=
  rewrite read_digits_pad by (change (10 ^ Z.of_nat _) with bound; euclid);
  cbn [mbind option_bind expect]; rewrite ?Ascii.eqb_refl;
  cbn [mbind option_bind].

Lemma time_fields w :
  0 <= w < 86400000 →
  w / 3600000 * 3600000 + (w / 60000) mod 60 * 60000 + (w / 1000) mod 60 * 1000
  + w mod 1000 = w.
Proof. intros H. euclid. Qed.

Lemma parse_iso_toISOString t :
  iso_range t →
  ∃ iso, JSDate.toISOString (Some t) = Ok iso ∧ JSDate.parse_iso iso = Some t.
Proof.
  unfold iso_range. intros Ht. unfold JSDate.toISOString.
  destruct (civil_from_days_fields (Calendar.Day t))
    as (y & m & d & Hc & Hm & Hd & Hround & Hy).
  rewrite Hc.
  assert (Hy' : 1 <= y <= 9999)
    by (apply Hy; unfold Calendar.Day, Calendar.msPerDay; euclid).
  eexists. split; [reflexivity|].
  unfold JSDate.year_field.
  destruct (Z.leb_spec 0 y); [|lia]. destruct (Z.leb_spec y 9999); [|lia].
  cbn [andb]. unfold JSDate.parse_iso.
  assert (Hw : 0 <= Calendar.TimeWithinDay t < 86400000)
    by (unfold Calendar.TimeWithinDay, Calendar.msPerDay; apply Z.mod_pos_bound; lia).
  set (w := Calendar.TimeWithinDay t) in *.
  assert (Hfields : t = Calendar.Day t * Calendar.msPerDay + w)
    by (unfold w, Calendar.Day, Calendar.TimeWithinDay, Calendar.msPerDay; euclid).
  clearbody w.
  read_field 10000. read_field 100. read_field 100.
  rewrite Hround, Hc, !Z.eqb_refl. cbn [andb String.eqb].
  unfold JSDate.parse_time_of_day.
  cbn [mbind option_bind expect]. rewrite Ascii.eqb_refl. cbn [mbind option_bind].
  read_field 100. read_field 100. read_field 100. read_field 1000.
  cbn [String.eqb].
  destruct (Z.leb_spec (w / 3600000) 23); [|euclid].
  destruct (Z.leb_spec ((w / 60000) mod 60) 59); [|euclid].
  destruct (Z.leb_spec ((w / 1000) mod 60) 59); [|euclid].
  cbn [andb mbind option_bind]. f_equal. pose proof (time_fields w Hw). lia.
Qed.

(** ** Today *)

(** One calendar day after the local date is the next day number. *)
Lemma MakeDay_next t :
  Calendar.MakeDay (Calendar.YearFromTime t) (Calendar.MonthFromTime t)
    (Calendar.DateFromTime t + 1) = Calendar.Day t + 1.
Proof.
  unfold Calendar.MakeDay, Calendar.YearFromTime, Calendar.MonthFromTime,
    Calendar.DateFromTime.
  destruct (civil_from_days_fields (Calendar.Day t))
    as (y & m & d & -> & Hm & Hd & Hround & _).
  cbn [fst snd].
  replace ((m - 1) / 12) with 0 by euclid.
  replace ((m - 1) mod 12 + 1) with m by euclid.
  rewrite Z.add_0_r, <- Hround. unfold Calendar.days_from_civil. lia.
Qed.

Lemma startOfToday_eq env now : startOfToday env now = local_day_start env now.
Proof.
  unfold startOfToday, local_day_start, setHours, MakeDate, MakeTime.
  destruct (JSDate.TimeClip now) as [t|]; [|done]. cbn [mbind option_bind].
  by rewrite !Z.mul_0_l, !Z.add_0_r.
Qed.

Lemma startOfTomorrow_eq env now :
  startOfTomorrow env now = next_local_day_start env now.
Proof.
  unfold startOfTomorrow, next_local_day_start. rewrite startOfToday_eq.
  destruct (local_day_start env now) as [t0|]; [|done].
  unfold setDate, getDate, MakeDate. cbn [mbind option_bind fmap option_fmap option_map].
  by rewrite MakeDay_next.
Qed.

Lemma is_today_eq env now (task : object) :
  is_today env now task = in_today env now (new_Date env (obj_get task "date")).
Proof. unfold is_today, in_today. by rewrite startOfToday_eq, startOfTomorrow_eq. Qed.

(** Reading back the date of a shaped task gives the instant the stored
    task is dated at. *)
Lemma shaped_date env id (data shaped : object) :
  convertTimestamps {| snap_id := id; snap_data := Some data |} = Ok shaped →
  date_in_range data = true →
  new_Date env (obj_get shaped "date") = stored_date env data.
Proof.
  intros Hs Hr. pose proof (convertTimestamps_get _ _ _ "date" Hs) as H.
  unfold stored_date. destruct (obj_get data "date") as [v|] eqn:Ev.
  2: { cbn [String.eqb Ascii.eqb Bool.eqb] in H. by rewrite H. }
  destruct H as (v' & Hshape & ->). unfold shape_field in Hshape.
  destruct v as [| | | | |sec nan| |fields]; cbn in Hshape; try by injection Hshape as <-.
  - unfold date_in_range in Hr. rewrite Ev in Hr. cbv zeta in Hr.
    unfold Timestamp_toDate in *.
    set (ms := sec * 1000 + (nan + 500000) / 1000000) in *.
    assert (Hms : iso_range ms) by (unfold iso_range; lia).
    clear Hr. rename Hms into Hr.
    destruct (parse_iso_toISOString ms Hr) as (iso & Hiso & Hparse).
    rewrite TimeClip_Some in * by (unfold iso_range, JSDate.maxTime in *; lia).
    rewrite Hiso in Hshape. cbn in Hshape. injection Hshape as <-.
    cbn [new_Date]. rewrite Hparse.
    apply TimeClip_Some. unfold iso_range, JSDate.maxTime in *; lia.
  - destruct (obj_has fields "toDate"); [done|]. by injection Hshape as <-.
Qed.

Lemma today_counts env now (docs : list (string * object)) tasks :
  Forall (λ d, date_in_range d.2 = true) docs →
  mapR convertTimestamps (map to_snapshot docs) = Ok tasks →
  length (filter (λ task, is_today env now task = true) tasks)
  = length (filter (λ d, in_today env now (stored_date env d.2) = true) docs).
Proof.
  intros Hr. revert tasks. induction Hr as [|[id data] docs Hd _ IH]; intros tasks Ht.
  - by injection Ht as <-.
  - cbn [map mapR] in Ht. unfold to_snapshot at 1 in Ht. cbn [fst snd] in Ht.
    destruct (convertTimestamps _) as [task|] eqn:Etask; [|done].
    cbn [mbind result_bind] in Ht.
    destruct (mapR _ _) as [rest|]; [|done]. cbn in Ht. injection Ht as <-.
    rewrite !filter_cons, is_today_eq, (shaped_date _ _ _ _ Etask Hd). cbn [snd].
    specialize (IH rest eq_refl).
    destruct (decide _); cbn [length]; by rewrite IH.
Qed.

Lemma in_today_bounds env now today tomorrow d :
  local_day_start env now = Some today →
  next_local_day_start env now = Some tomorrow →
  in_today env now (Some d) = (today <=? d) && (d <? tomorrow).
Proof. intros H1 H2. unfold in_today. by rewrite H1, H2. Qed.

(** In a zone with a fixed offset from UTC a calendar day has 24 hours. *)
Lemma fixed_offset_day env now offset today :
  (∀ t isUTC, LocalTZA env t isUTC = offset) →
  local_day_start env now = Some today →
  next_local_day_start env now = JSDate.TimeClip (today + Calendar.msPerDay).
Proof.
  intros Hoff H. unfold next_local_day_start. rewrite H. cbn [mbind option_bind].
  unfold local_day_start in H. destruct (JSDate.TimeClip now) as [t|]; [|done].
  cbn [mbind option_bind] in H. unfold JSDate.TimeClip in H.
  destruct (_ <=? _) in H; [|done]. injection H as <-.
  unfold UTC, LocalTime. rewrite !Hoff. f_equal.
  unfold Calendar.Day, Calendar.TimeWithinDay, Calendar.msPerDay.
  euclid.
Qed.

(** The calendar day on which a date at midnight UTC is counted, in a
    zone with a fixed offset from UTC. *)
Lemma in_today_utc_midnight env now offset day :
  (∀ t isUTC, LocalTZA env t isUTC = offset) →
  - Calendar.msPerDay < offset < Calendar.msPerDay →
  iso_range now →
  in_today env now (Some (day * Calendar.msPerDay))
  = (Calendar.Day (now + offset) =? (if offset <? 0 then day - 1 else day)).
Proof.
  intros Hoff Hrange Hnow.
  assert (Hclip : JSDate.TimeClip now = Some now)
    by (apply TimeClip_Some; unfold iso_range, JSDate.maxTime in *; lia).
  assert (Htoday : local_day_start env now
                   = Some (Calendar.Day (now + offset) * Calendar.msPerDay - offset)).
  { unfold local_day_start. rewrite Hclip. cbn [mbind option_bind].
    unfold UTC, LocalTime. rewrite !Hoff. apply TimeClip_Some.
    unfold iso_range, JSDate.maxTime, Calendar.Day, Calendar.msPerDay in *. euclid. }
  pose proof (fixed_offset_day env now offset _ Hoff Htoday) as Htomorrow.
  rewrite TimeClip_Some in Htomorrow
    by (unfold iso_range, JSDate.maxTime, Calendar.Day, Calendar.msPerDay in *; euclid).
  rewrite (in_today_bounds _ _ _ _ _ Htoday Htomorrow).
  unfold Calendar.Day, Calendar.msPerDay in *.
  destruct (Z.ltb_spec offset 0);
    destruct (Z.eqb_spec ((now + offset) / 86400000) (day - 1));
    destruct (Z.eqb_spec ((now + offset) / 86400000) day);
    destruct (Z.leb_spec ((now + offset) / 86400000 * 86400000 - offset) (day * 86400000));
    destruct (Z.ltb_spec (day * 86400000)
                ((now + offset) / 86400000 * 86400000 - offset + 86400000));
    cbn [andb]; try reflexivity; exfalso; lia.
Qed.

(** C8 (amended).  When the statistics handler answers (every document
    shaped, every stored [date] timestamp within the years 1 to 9999),
    [todayTasks] is the number of documents dated within
    [[startOfToday, startOfTomorrow)], from local midnight of the current
    calendar day to the same local clock time one calendar day later, so
    that a document dated within that interval is included.  If the
    interval is at most 24 hours long, a date inside it is counted and
    the date exactly 24 hours earlier is not.  A task dated to a calendar
    day as a date without a time is dated midnight UTC of that day: on a
    server with a fixed offset from UTC it is counted while the server's
    local day is that day when the offset is zero or positive, and while
    it is the day before when the offset is negative. *)
Theorem get_stats_todayTasks env now (s : store) tasks :
  mapR convertTimestamps (collection_get s) = Ok tasks →
  all_dates_in_range s = true →
  (∃ total completed rate,
     get_stats env now s
     = json 200 (VObj
         [("totalTasks", total); ("completedTasks", completed);
          ("todayTasks",
           num (length (filter (λ d, in_today env now (stored_date env d.2) = true)
                          (map_to_list s))));
          ("completionRate", rate)])) ∧
  (∀ id data,
     s !! id = Some data →
     in_today env now (stored_date env data) = true →
     (0 < length (filter (λ d, in_today env now (stored_date env d.2) = true)
                    (map_to_list s)))%nat) ∧
  (∀ today tomorrow d,
     local_day_start env now = Some today →
     next_local_day_start env now = Some tomorrow →
     tomorrow <= today + Calendar.msPerDay →
     in_today env now (Some d) = true →
     in_today env now (Some (d - Calendar.msPerDay)) = false) ∧
  (∀ offset day,
     (∀ t isUTC, LocalTZA env t isUTC = offset) →
     - Calendar.msPerDay < offset < Calendar.msPerDay →
     iso_range now →
     in_today env now (Some (day * Calendar.msPerDay))
     = (Calendar.Day (LocalTime env now) =? (if offset <? 0 then day - 1 else day))).
Proof.
  intros Ht Hr. split; [|split; [|split]].
  - assert (HF : Forall (λ d : string * object, date_in_range d.2 = true)
                    (map_to_list s))
      by (apply Forall_forall; intros d Hin%list_elem_of_In; revert d Hin;
          by apply forallb_forall).
    unfold get_stats. rewrite Ht.
    rewrite (today_counts env now (map_to_list s) tasks HF Ht).
    by eexists _, _, _.
  - intros id data Hs Hin.
    assert (Hd : (id, data) ∈ filter
                   (λ d : string * object,
                      in_today env now (stored_date env d.2) = true)
                   (map_to_list s))
      by (apply list_elem_of_filter; split; [done | by apply elem_of_map_to_list]).
    destruct (filter _ _); [by apply elem_of_nil in Hd | cbn; lia].
  - intros today tomorrow d H1 H2 Hlen.
    rewrite !(in_today_bounds _ _ _ _ _ H1 H2).
    intros [Hge Hlt]%andb_true_iff. apply Z.leb_le in Hge. apply Z.ltb_lt in Hlt.
    apply andb_false_iff. left. apply Z.leb_gt. lia.
  - intros offset day Hoff Hrange Hnow. unfold LocalTime. rewrite Hoff.
    by apply in_today_utc_midnight.
Qed.

Lemma get_stats_todayTasks_witness :
  (∃ total completed rate,
     get_stats utc_env 1710500000000 store_AB
     = json 200 (VObj
         [("totalTasks", total); ("completedTasks", completed);
          ("todayTasks",
           num (length (filter (λ d, in_today utc_env 1710500000000
                                       (stored_date utc_env d.2) = true)
                          (map_to_list store_AB))));
          ("completionRate", rate)])) ∧
  (0 < length (filter (λ d, in_today utc_env 1710500000000
                              (stored_date utc_env d.2) = true)
                 (map_to_list store_AB)))%nat ∧
  in_today utc_env 1710500000000 (Some (1710460800000 - Calendar.msPerDay)) = false ∧
  in_today utc_env 1710500000000 (Some (19797 * Calendar.msPerDay)) = true.
Proof.
  destruct (get_stats_todayTasks utc_env 1710500000000 store_AB
              [shaped_A false; shaped_B])
    as (Hcount & Hin & Hday & Hmidnight);
    [vm_compute; reflexivity | vm_compute; reflexivity |].
  split; [exact Hcount|]. split; [|split].
  - apply (Hin "a1" stored_A); vm_compute; reflexivity.
  - apply (Hday 1710460800000 1710547200000 1710460800000);
      try (vm_compute; reflexivity).
    vm_compute. discriminate.
  - rewrite (Hmidnight 0 19797);
      [vm_compute; reflexivity | reflexivity | unfold Calendar.msPerDay; lia
      | unfold iso_range; lia].
Defined.

(** C8 as stated fails in two ways.  On a day of 25 hours, 3 November
    2024 in New York, the task dated 23:30 local time is counted, and so
    is the task dated exactly 24 hours earlier, at 00:30 the same calendar
    day.  On a server five hours behind UTC, at noon of 15 March 2024, the
    task created with the date 2024-03-15 is not counted and the task
    created with the date 2024-03-16 is: each is dated midnight UTC, which
    is 19:00 of the day before on that server. *)
Lemma todayTasks_counterexample :
  (new_Date ny_env (obj_get task_early "date")
   = (λ d, d - Calendar.msPerDay) <$> new_Date ny_env (obj_get task_late "date") ∧
   get_stats ny_env ny_noon store_dst
   = json 200 (VObj [("totalTasks", num 2); ("completedTasks", num 0);
                     ("todayTasks", num 2); ("completionRate", VStr "0.0")]) ∧
   ¬ (is_today ny_env ny_noon task_late = true →
      is_today ny_env ny_noon task_early = false)) ∧
  (Calendar.civil_from_days (Calendar.Day (LocalTime utc_minus_5 minus_5_noon))
   = (2024, 3, 15) ∧
   get_stats utc_minus_5 minus_5_noon store_AD
   = json 200 (VObj [("totalTasks", num 2); ("completedTasks", num 0);
                     ("todayTasks", num 1); ("completionRate", VStr "0.0")]) ∧
   (post_tasks utc_minus_5 1700000000000 "a1" task_A ∅).1
   = json 201 (VObj (shaped_A false)) ∧
   (post_tasks utc_minus_5 1700000000001 "d2" task_D
      (post_tasks utc_minus_5 1700000000000 "a1" task_A ∅).2).1
   = json 201 (VObj shaped_D) ∧
   is_today utc_minus_5 minus_5_noon (shaped_A false) = false ∧
   is_today utc_minus_5 minus_5_noon shaped_D = true).
Proof.
  split.
  - split; [vm_compute; reflexivity|]. split; [vm_compute; reflexivity|].
    intros H. assert (Hlate : is_today ny_env ny_noon task_late = true)
      by (vm_compute; reflexivity).
    specialize (H Hlate). vm_compute in H. discriminate H.
  - repeat split; vm_compute; reflexivity.
Qed.

(** * Further properties *)

(** ** Start-up *)

Lemma replace_escaped_newlines_step c1 c2 (s2 : string) :
  replace_escaped_newlines (String c1 (String c2 s2))
  = if Ascii.eqb c1 "\" && Ascii.eqb c2 "n"
    then String "010" (replace_escaped_newlines s2)
    else String c1 (replace_escaped_newlines (String c2 s2)).
Proof. reflexivity. Qed.

Lemma has_escaped_newline_step c1 c2 (s2 : string) :
  has_escaped_newline (String c1 (String c2 s2))
  = (Ascii.eqb c1 "\" && Ascii.eqb c2 "n") || has_escaped_newline (String c2 s2).
Proof. reflexivity. Qed.

Lemma replace_escaped_newlines_head c (s : string) :
  ∃ c' r, replace_escaped_newlines (String c s) = String c' r ∧
          (c' = c ∨ c' = "010"%char).
Proof.
  destruct s as [|c2 s2]; [by exists c, EmptyString; split; [|left]|].
  rewrite replace_escaped_newlines_step.
  destruct (Ascii.eqb c "\" && Ascii.eqb c2 "n"); eexists _, _; split; eauto.
Qed.

Lemma replace_escaped_newlines_none (n : nat) : ∀ s : string,
  (String.length s <= n)%nat →
  has_escaped_newline (replace_escaped_newlines s) = false ∧
  (String.length (replace_escaped_newlines s) <= String.length s)%nat.
Proof.
  induction n as [|n IH]; intros s Hn.
  - destruct s; [done | simpl in Hn; lia].
  - destruct s as [|c1 [|c2 s2]]; [done|done|].
    rewrite replace_escaped_newlines_step.
    destruct (Ascii.eqb c1 "\" && Ascii.eqb c2 "n") eqn:E.
    + destruct (IH s2) as [H1 H2]; [cbn [String.length] in Hn; lia|].
      split; [|cbn [String.length] in *; lia].
      destruct (replace_escaped_newlines s2) as [|c r] eqn:Er; [done|].
      by rewrite has_escaped_newline_step, H1.
    + destruct (IH (String c2 s2)) as [H1 H2]; [cbn [String.length] in *; lia|].
      destruct (replace_escaped_newlines_head c2 s2) as (c' & r & Er & Hc').
      rewrite Er in *.
      split; [|cbn [String.length] in *; lia].
      rewrite has_escaped_newline_step, H1, orb_false_r.
      destruct Hc' as [->| ->]; [exact E|].
      by rewrite andb_false_r.
Qed.

Lemma replace_escaped_newlines_clean (s : string) :
  has_escaped_newline (replace_escaped_newlines s) = false.
Proof. by apply (replace_escaped_newlines_none (String.length s)). Qed.

Lemma replace_escaped_newlines_fixed (s : string) :
  has_escaped_newline s = false → replace_escaped_newlines s = s.
Proof.
  induction s as [|c1 s1 IH]; [done|].
  destruct s1 as [|c2 s2]; [done|].
  rewrite has_escaped_newline_step, replace_escaped_newlines_step.
  intros [E H]%orb_false_iff. rewrite E. by rewrite (IH H).
Qed.

(** X1.  The normalisation of a private key,
    [key.replace(/\\n/g, '\n')]: the result holds no backslash followed by
    the letter n; a key that holds none comes back as it is, so that
    normalising twice is normalising once; the result is never longer
    than the key. *)
Theorem replace_escaped_newlines_spec (s : string) :
  has_escaped_newline (replace_escaped_newlines s) = false ∧
  (has_escaped_newline s = false → replace_escaped_newlines s = s) ∧
  replace_escaped_newlines (replace_escaped_newlines s) = replace_escaped_newlines s ∧
  (String.length (replace_escaped_newlines s) <= String.length s)%nat.
Proof.
  destruct (replace_escaped_newlines_none (String.length s) s) as [H1 H2]; [lia|].
  split; [exact H1|]. split; [apply replace_escaped_newlines_fixed|].
  split; [by apply replace_escaped_newlines_fixed | exact H2].
Qed.

Lemma svc_get_map (fields : object) k :
  svc_get (map (λ kv, (kv.1, Some kv.2)) fields) k = obj_get fields k.
Proof.
  induction fields as [|[k0 v0] fields IH]; [done|].
  simpl. by destruct (String.eqb k k0).
Qed.

Lemma replace_escaped_newlines_spec_witness :
  has_escaped_newline (replace_escaped_newlines "KEY\nEND") = false ∧
  replace_escaped_newlines "KEY" = "KEY" ∧
  (String.length (replace_escaped_newlines "KEY\nEND") <= String.length "KEY\nEND")%nat.
Proof.
  destruct (replace_escaped_newlines_spec "KEY\nEND") as (H1 & _ & _ & H4).
  destruct (replace_escaped_newlines_spec "KEY") as (_ & H2 & _).
  split; [exact H1|]. split; [apply H2; vm_compute; reflexivity | exact H4].
Defined.

(** X2.  Whenever [initFirebaseAdmin] initialises the app with a service
    account ([cert(svc)]), the variable GOOGLE_APPLICATION_CREDENTIALS is
    unset or empty, [svc.project_id] is a non-empty string, and
    [svc.private_key], when a string, holds no escaped newline. *)
Theorem initFirebaseAdmin_cert JSON_parse (e : process_env) svc :
  initFirebaseAdmin JSON_parse e = Ok (cert svc) →
  truthy (getenv e "GOOGLE_APPLICATION_CREDENTIALS") = false ∧
  (∃ project, svc_get svc "project_id" = Some (VStr project) ∧
              project ≠ EmptyString) ∧
  (∀ key, svc_get svc "private_key" = Some (VStr key) →
          has_escaped_newline key = false).
Proof.
  unfold initFirebaseAdmin.
  destruct (truthy (getenv e "GOOGLE_APPLICATION_CREDENTIALS")); [done|].
  intros H. split; [done|].
  destruct (truthy (getenv e "FIREBASE_SERVICE_ACCOUNT")).
  - destruct (JSON_parse _) as [svc0|]; [|done].
    set (fields := match svc0 with VObj fields => fields | _ => [] end) in H.
    assert (H' :
      match obj_get fields "project_id" with
      | Some (VStr project) =>
          if String.eqb project EmptyString then Throw no_project_id
          else
            let fields :=
              match obj_get fields "private_key" with
              | Some (VStr key) =>
                  if String.eqb key EmptyString then fields
                  else obj_set fields "private_key"
                         (VStr (replace_escaped_newlines key))
              | _ => fields
              end in
            Ok (cert (map (fun kv => (fst kv, Some (snd kv))) fields))
      | _ => Throw no_project_id
      end = Ok (cert svc)) by (destruct svc0; done).
    clear H. destruct (obj_get fields "project_id") as [[| | |project| | | |]|] eqn:Ep;
      try done.
    destruct (String.eqb_spec project EmptyString) as [|Hne]; [done|].
    cbv zeta in H'. injection H' as <-. rewrite !svc_get_map. split.
    + exists project. split; [|done].
      destruct (obj_get fields "private_key") as [[| | |key| | | |]|]; try done.
      destruct (String.eqb key EmptyString); [done|].
      by rewrite obj_get_set_ne.
    + intros key.
      destruct (obj_get fields "private_key") as [[| | |key0| | | |]|] eqn:Ek;
        rewrite ?Ek; try done.
      destruct (String.eqb_spec key0 EmptyString) as [->|_].
      * rewrite Ek. by intros [= <-].
      * rewrite obj_get_set_eq. intros [= <-].
        apply replace_escaped_newlines_clean.
  - destruct (truthy (getenv e "FIREBASE_PROJECT_ID")) eqn:Ep; [|done].
    destruct (_ && _); [|done]. injection H as <-. split.
    + unfold getenv in *. cbn. destruct (e !! "FIREBASE_PROJECT_ID") as [p|]; [|done].
      exists p. split; [done|]. cbn in Ep. intros ->. done.
    + cbn. intros key [= <-].
      apply replace_escaped_newlines_clean.
Qed.

Lemma initFirebaseAdmin_cert_witness :
  ∃ svc,
    initFirebaseAdmin sample_JSON_parse (env_account "<account>") = Ok (cert svc) ∧
    truthy (getenv (env_account "<account>") "GOOGLE_APPLICATION_CREDENTIALS") = false ∧
    (∃ project, svc_get svc "project_id" = Some (VStr project) ∧
                project ≠ EmptyString) ∧
    (∀ key, svc_get svc "private_key" = Some (VStr key) →
            has_escaped_newline key = false).
Proof.
  eexists. split; [vm_compute; reflexivity|].
  apply (initFirebaseAdmin_cert sample_JSON_parse (env_account "<account>")).
  vm_compute. reflexivity.
Defined.

(** X3.  The errors of [initFirebaseAdmin] when
    GOOGLE_APPLICATION_CREDENTIALS is unset or empty.  With
    FIREBASE_SERVICE_ACCOUNT set: a text that does not parse throws the
    'not valid JSON' error, the JSON [null] throws the engine's TypeError
    (the test of [project_id] reads a property of null), any other value
    without a non-empty string [project_id] throws the [project_id]
    error; the individual FIREBASE_* variables are not consulted, even
    when complete.  With FIREBASE_SERVICE_ACCOUNT unset or empty and one
    of FIREBASE_PROJECT_ID, FIREBASE_CLIENT_EMAIL, FIREBASE_PRIVATE_KEY
    unset or empty: the 'Missing Firebase credentials' error. *)
Theorem initFirebaseAdmin_errors JSON_parse (e : process_env) :
  truthy (getenv e "GOOGLE_APPLICATION_CREDENTIALS") = false →
  (truthy (getenv e "FIREBASE_SERVICE_ACCOUNT") = true →
   match JSON_parse (default EmptyString (e !! "FIREBASE_SERVICE_ACCOUNT")) with
   | Throw _ => initFirebaseAdmin JSON_parse e = Throw not_valid_JSON
   | Ok VNull =>
       initFirebaseAdmin JSON_parse e
       = Throw "Cannot read properties of null (reading 'project_id')"
   | Ok (VObj fields) =>
       (∀ project, obj_get fields "project_id" = Some (VStr project) →
                   project = EmptyString) →
       initFirebaseAdmin JSON_parse e = Throw no_project_id
   | Ok _ => initFirebaseAdmin JSON_parse e = Throw no_project_id
   end) ∧
  (truthy (getenv e "FIREBASE_SERVICE_ACCOUNT") = false →
   truthy (getenv e "FIREBASE_PROJECT_ID")
   && truthy (getenv e "FIREBASE_CLIENT_EMAIL")
   && truthy (getenv e "FIREBASE_PRIVATE_KEY") = false →
   initFirebaseAdmin JSON_parse e = Throw missing_credentials).
Proof.
  intros Hgac. unfold initFirebaseAdmin. rewrite Hgac. split.
  - intros ->. destruct (JSON_parse _) as [[| | | | | | |fields]|]; try done.
    intros Hp. cbv zeta.
    destruct (obj_get fields "project_id") as [[| | |project| | | |]|] eqn:Ep; try done.
    by rewrite (Hp project eq_refl).
  - by intros -> ->.
Qed.

Lemma initFirebaseAdmin_errors_witness :
  initFirebaseAdmin sample_JSON_parse (env_account "{broken") = Throw not_valid_JSON ∧
  initFirebaseAdmin sample_JSON_parse (env_account "null")
  = Throw "Cannot read properties of null (reading 'project_id')" ∧
  initFirebaseAdmin sample_JSON_parse (env_account "{}") = Throw no_project_id ∧
  initFirebaseAdmin sample_JSON_parse (delete "FIREBASE_PRIVATE_KEY" env_individual)
  = Throw missing_credentials.
Proof.
  assert (G : ∀ text, truthy (getenv (env_account text)
                                "GOOGLE_APPLICATION_CREDENTIALS") = false)
    by (intros text; vm_compute; reflexivity).
  split; [|split; [|split]].
  - apply (proj1 (initFirebaseAdmin_errors sample_JSON_parse _ (G "{broken"))).
    vm_compute. reflexivity.
  - apply (proj1 (initFirebaseAdmin_errors sample_JSON_parse _ (G "null"))).
    vm_compute. reflexivity.
  - refine (proj1 (initFirebaseAdmin_errors sample_JSON_parse _ (G "{}")) eq_refl _).
    by intros project [=].
  - assert (G' : truthy (getenv (delete "FIREBASE_PRIVATE_KEY" env_individual)
                             "GOOGLE_APPLICATION_CREDENTIALS") = false)
      by (vm_compute; reflexivity).
    apply (proj2 (initFirebaseAdmin_errors sample_JSON_parse _ G'));
      vm_compute; reflexivity.
Defined.

(** ** Creating *)

Lemma post_tasks_outcomes env now newId (req_body : object) (s : store) :
  (post_tasks env now newId req_body s).2 = s ∨
  ∃ stored, s !! newId = None ∧
            encode_fields (taskData env now req_body) = Ok stored ∧
            storeAccepts env stored = true ∧
            (post_tasks env now newId req_body s).2 = <[newId := stored]> s.
Proof.
  unfold post_tasks, collection_add.
  destruct (encode_fields _) as [stored|]; simpl; [|by left].
  destruct (storeAccepts env stored) eqn:Ea; [|by left].
  destruct (s !! newId) eqn:El; [by left|].
  right. exists stored. repeat split; try done. by destruct (convertTimestamps _).
Qed.

(** X4.  A create request never changes or removes an existing
    document, whatever the payload and the identifier drawn: every
    document is still there with the same data, and the only identifier
    that can appear is the new one. *)
Theorem post_tasks_frame env now newId (req_body : object) (s : store) :
  (∀ id data, s !! id = Some data →
              (post_tasks env now newId req_body s).2 !! id = Some data) ∧
  (∀ id, is_Some ((post_tasks env now newId req_body s).2 !! id) →
         is_Some (s !! id) ∨ id = newId).
Proof.
  destruct (post_tasks_outcomes env now newId req_body s)
    as [->|(stored & Hfresh & _ & _ & ->)]; [by split; [|left]|].
  split.
  - intros id data H. rewrite lookup_insert_ne; [done|]. intros <-. congruence.
  - intros id. destruct (decide (newId = id)) as [->|Hne]; [by right|].
    rewrite lookup_insert_ne by done. by left.
Qed.

Lemma post_tasks_frame_witness :
  (post_tasks utc_env 1700000000001 "a1" task_B store_A).2 !! "a1" = Some stored_A ∧
  (is_Some (store_AB !! "b2") → is_Some (store_A !! "b2") ∨ "b2" = "b2").
Proof.
  split.
  - apply (proj1 (post_tasks_frame utc_env 1700000000001 "a1" task_B store_A)).
    vm_compute. reflexivity.
  - apply (proj2 (post_tasks_frame utc_env 1700000000001 "b2" task_B store_A)).
Defined.

(** X5.  Creating a task under a fresh identifier and then deleting that
    identifier gives back the collection as it was, whether the create
    request was taken or refused. *)
Theorem post_tasks_then_delete env now newId (req_body : object) (s : store) :
  document_id newId = true →
  s !! newId = None →
  (delete_task newId (post_tasks env now newId req_body s).2).2 = s.
Proof.
  intros Hid Hfresh. rewrite delete_task_id by done. unfold snap_exists, doc_get.
  destruct (post_tasks_outcomes env now newId req_body s)
    as [->|(stored & _ & _ & _ & ->)]; simpl.
  - by rewrite Hfresh.
  - rewrite lookup_insert_eq. simpl. by apply delete_insert_id.
Qed.

Lemma post_tasks_then_delete_witness :
  (delete_task "b2" (post_tasks utc_env 1700000000001 "b2" task_B store_A).2).2
  = store_A.
Proof.
  apply post_tasks_then_delete; vm_compute; reflexivity.
Defined.

(** ** Updating *)

Lemma put_task_outcomes env taskId (req_body : object) (s : store) :
  document_id taskId = true →
  (put_task env taskId req_body s).2 = s ∨
  ∃ old writes,
    s !! taskId = Some old ∧
    Forall2 (λ kv w, w.1 = split_on "." kv.1) (updateData env req_body) writes ∧
    (put_task env taskId req_body s).2
    = <[taskId := fold_left (λ o w, set_path o w.1 w.2) writes old]> s.
Proof.
  intros Hid. rewrite put_task_id by done. cbv zeta.
  destruct (negb _); [by left|].
  destruct (doc_update env [taskId] _ s) as [s'|] eqn:Eu; [|by left].
  apply doc_update_Ok in Eu as (id & old & writes & [= <-] & Hold & Hw & ->).
  right. exists old, writes. repeat split; try done.
  by destruct (convertTimestamps _).
Qed.

Lemma put_task_field_kept env taskId (req_body : object) (s : store) old k :
  document_id taskId = true →
  s !! taskId = Some old →
  (∀ key, is_Some (obj_get req_body key) → field_root key ≠ k) →
  ∃ new, (put_task env taskId req_body s).2 !! taskId = Some new ∧
         obj_get new k = obj_get old k.
Proof.
  intros Hid Hold Hkeys.
  destruct (put_task_outcomes env taskId req_body s Hid)
    as [->|(old' & writes & Hold' & Hw & ->)]; [by exists old|].
  assert (old' = old) as -> by congruence.
  eexists. split; [apply lookup_insert_eq|].
  apply (fold_set_path_other _ _ _ _ Hw). intros [key v] Hin.
  apply Hkeys, (updateData_keys env), (obj_get_In _ key v), Hin.
Qed.

(** X6.  An update request never adds or removes a document (it is no
    upsert), for any path parameter and any payload.  For an identifier,
    it changes no other document, and in the addressed document it leaves
    every field that is not the root of a key of the payload as it
    was. *)
Theorem put_task_frame env taskId (req_body : object) (s : store) :
  dom (put_task env taskId req_body s).2 = dom s ∧
  (document_id taskId = true →
   (∀ id, id ≠ taskId → (put_task env taskId req_body s).2 !! id = s !! id) ∧
   (∀ old k,
      s !! taskId = Some old →
      (∀ key, is_Some (obj_get req_body key) → field_root key ≠ k) →
      ∃ new, (put_task env taskId req_body s).2 !! taskId = Some new ∧
             obj_get new k = obj_get old k)).
Proof.
  split.
  - destruct (put_task_cases env taskId req_body s)
      as [->|(id & old & writes & Hold & ->)]; [done|].
    apply dom_insert_lookup_L. by exists old.
  - intros Hid. split.
    + destruct (put_task_outcomes env taskId req_body s Hid)
        as [->|(old & writes & Hold & Hw & ->)]; [done|].
      intros id Hne. by rewrite lookup_insert_ne.
    + intros old k Hold Hkeys. by apply put_task_field_kept.
Qed.

Lemma put_task_frame_witness :
  dom store_AB_done = dom store_AB ∧
  store_AB_done !! "b2" = store_AB !! "b2" ∧
  ∃ new, store_AB_done !! "a1" = Some new ∧
         obj_get new "title" = obj_get stored_A "title".
Proof.
  destruct (put_task_frame utc_env "a1" [("completed", VBool true)] store_AB)
    as [Hdom Hrest].
  split; [exact Hdom|].
  destruct Hrest as [Hother Hfield]; [vm_compute; reflexivity|].
  split; [by apply Hother|].
  apply Hfield; [vm_compute; reflexivity|].
  intros key. simpl. destruct (String.eqb_spec key "completed") as [->|_].
  - intros _. vm_compute. discriminate.
  - by intros [? ?].
Defined.

Lemma obj_set_set (o : object) k v w : obj_set (obj_set o k v) k w = obj_set o k w.
Proof.
  induction o as [|[k0 v0] o IH]; simpl.
  - by rewrite String.eqb_refl.
  - destruct (String.eqb k k0) eqn:E; simpl; rewrite E; [done|]. by rewrite IH.
Qed.

Lemma obj_set_same (o : object) k v : obj_get o k = Some v → obj_set o k v = o.
Proof.
  induction o as [|[k0 v0] o IH]; simpl; [done|].
  destruct (String.eqb_spec k k0) as [->|_].
  - by intros [= ->].
  - intros H. by rewrite IH.
Qed.

Lemma plain_document_set (o : object) k v :
  plain_document o = true → plain_field v = true →
  plain_document (obj_set o k v) = true.
Proof.
  unfold plain_document. intros Ho Hv.
  induction o as [|[k0 v0] o IH]; simpl in *; [by rewrite Hv|].
  apply andb_true_iff in Ho as [H0 Ho].
  destruct (String.eqb k k0); simpl; [by rewrite Hv | by rewrite H0, IH].
Qed.

Lemma put_task_completed_store env taskId (b : bool) (s : store) (old : object) :
  document_id taskId = true →
  s !! taskId = Some old →
  storeAccepts env (obj_set old "completed" (VBool b)) = true →
  put_task env taskId [("completed", VBool b)] s
  = match convertTimestamps
            {| snap_id := taskId;
               snap_data := Some (obj_set old "completed" (VBool b)) |} with
    | Ok task => (json 200 (VObj task),
                  <[taskId := obj_set old "completed" (VBool b)]> s)
    | Throw m => (json 400 (message_body m),
                  <[taskId := obj_set old "completed" (VBool b)]> s)
    end.
Proof.
  intros Hid Hold Hacc. rewrite put_task_id by done.
  unfold snap_exists, doc_get. cbn [snap_data]. rewrite Hold. cbn [negb].
  change (updateData env [("completed", VBool b)]) with [("completed", VBool b)].
  unfold doc_update.
  change (mapR _ [("completed", VBool b)])
    with (Ok [(["completed"], VBool b)] : result (list (list string * value))).
  cbn [mbind result_bind map fst no_conflicts forallb andb fold_left snd set_path].
  rewrite Hold, Hacc. by rewrite lookup_insert_eq.
Qed.

(** X7.  Updating an existing task with [{completed: b}] (the request of
    the Complete/Undo button), when the store accepts the write: the task
    is stored with [completed] set to the boolean [b] and nothing else
    changed; the answer is 200 with [completed] equal to [b] when the task
    can be shaped; and if the task had [completed] equal to the opposite
    boolean, the opposite request gives back the collection as it was. *)
Theorem put_task_completed env taskId (b : bool) (s : store) (old : object) :
  document_id taskId = true →
  s !! taskId = Some old →
  storeAccepts env (obj_set old "completed" (VBool b)) = true →
  (put_task env taskId [("completed", VBool b)] s).2
  = <[taskId := obj_set old "completed" (VBool b)]> s ∧
  (plain_document old = true →
   ∃ task, (put_task env taskId [("completed", VBool b)] s).1
           = json 200 (VObj task) ∧
           obj_get task "completed" = Some (VBool b)) ∧
  (obj_get old "completed" = Some (VBool (negb b)) →
   storeAccepts env old = true →
   (put_task env taskId [("completed", VBool (negb b))]
      (put_task env taskId [("completed", VBool b)] s).2).2 = s).
Proof.
  intros Hid Hold Hacc.
  rewrite (put_task_completed_store env taskId b s old Hid Hold Hacc).
  split; [by destruct (convertTimestamps _)|]. split.
  - intros Hplain.
    destruct (convertTimestamps_total taskId (obj_set old "completed" (VBool b)))
      as [task Htask]; [by apply plain_document_set|].
    rewrite Htask. exists task. split; [done|].
    pose proof (convertTimestamps_get _ _ _ "completed" Htask) as H.
    rewrite obj_get_set_eq in H. destruct H as (v' & Hv & ->).
    by injection Hv as <-.
  - intros Hc Hacc'.
    set (s1 := <[taskId := obj_set old "completed" (VBool b)]> s).
    assert (Es : (match convertTimestamps
                          {| snap_id := taskId;
                             snap_data := Some (obj_set old "completed" (VBool b)) |}
                  with
                  | Ok task => (json 200 (VObj task), s1)
                  | Throw m => (json 400 (message_body m), s1)
                  end).2 = s1) by (by destruct (convertTimestamps _)).
    rewrite Es.
    assert (Hback : obj_set (obj_set old "completed" (VBool b)) "completed"
                      (VBool (negb b)) = old)
      by (rewrite obj_set_set; by apply obj_set_same).
    rewrite (put_task_completed_store env taskId (negb b) s1
               (obj_set old "completed" (VBool b)) Hid);
      [|apply lookup_insert_eq | by rewrite Hback].
    rewrite Hback. unfold s1.
    assert (E : <[taskId := old]> (<[taskId := obj_set old "completed" (VBool b)]> s) = s)
      by (rewrite insert_insert_eq; by apply insert_id).
    rewrite E. clear Es. by destruct (convertTimestamps _).
Qed.

Lemma put_task_completed_witness :
  (put_task utc_env "a1" [("completed", VBool true)] store_AB).2
  = <["a1" := obj_set stored_A "completed" (VBool true)]> store_AB ∧
  (∃ task, (put_task utc_env "a1" [("completed", VBool true)] store_AB).1
           = json 200 (VObj task) ∧
           obj_get task "completed" = Some (VBool true)) ∧
  (put_task utc_env "a1" [("completed", VBool false)]
     (put_task utc_env "a1" [("completed", VBool true)] store_AB).2).2 = store_AB.
Proof.
  destruct (put_task_completed utc_env "a1" true store_AB stored_A)
    as (H1 & H2 & H3); try (vm_compute; reflexivity).
  split; [exact H1|]. split; [apply H2; vm_compute; reflexivity|].
  apply H3; vm_compute; reflexivity.
Defined.

Lemma mapR_throw {A B} (f : A → result B) (l : list A) a m :
  In a l → f a = Throw m → ∃ m', mapR f l = Throw m'.
Proof.
  intros Hin Hf. induction l as [|x l IH]; [done|].
  simpl. destruct (f x) as [b|mx] eqn:Ex; [|by eexists].
  destruct Hin as [->|Hin]; [congruence|].
  destruct (IH Hin) as [m' ->]. by eexists.
Qed.

Lemma obj_get_elem (o : object) k v : obj_get o k = Some v → In (k, v) o.
Proof.
  induction o as [|[k0 v0] o IH]; simpl; [done|].
  destruct (String.eqb_spec k k0) as [->|_]; [intros [= ->]; by left|].
  intros H. right. by apply IH.
Qed.

(** The copy [{...req.body}] of an object with distinct keys reads like
    the object. *)
Lemma obj_spread_copy (o : object) k :
  NoDup (obj_keys o) → obj_get (obj_spread [] o) k = obj_get o k.
Proof. intros H. rewrite obj_spread_get by done. by destruct (obj_get o k). Qed.

Lemma updateData_date env (req_body : object) :
  NoDup (obj_keys req_body) →
  obj_get (updateData env req_body) "date"
  = if truthy (obj_get req_body "date")
    then Some (VDate (new_Date env (obj_get req_body "date")))
    else obj_get req_body "date".
Proof.
  intros Hnd. unfold updateData. cbv zeta. rewrite !obj_spread_copy by done.
  destruct (truthy _); [apply obj_get_set_eq | by apply obj_spread_copy].
Qed.

Lemma doc_update_throws env docRef (data : object) (s : store) k v m :
  In (k, v) data → encode v = Throw m →
  ∃ m', doc_update env docRef data s = Throw m'.
Proof.
  intros Hin He. unfold doc_update. destruct data as [|kv0 data0] eqn:Ed; [done|].
  rewrite <- Ed in *. clear Ed kv0 data0.
  destruct (FieldPath_fromArgument k) as [path|mp] eqn:Ep.
  - destruct (mapR_throw
                (λ kv, path ← FieldPath_fromArgument kv.1; v ← encode kv.2; Ok (path, v))
                data (k, v) m Hin) as [m' ->]; [|by eexists].
    cbn [fst snd]. rewrite Ep. cbn. by rewrite He.
  - destruct (mapR_throw
                (λ kv, path ← FieldPath_fromArgument kv.1; v ← encode kv.2; Ok (path, v))
                data (k, v) mp Hin) as [m' ->]; [|by eexists].
    cbn [fst snd]. by rewrite Ep.
Qed.

(** X8.  For an existing task, an update with the empty payload [{}] is
    answered 400 with the error message of the store client, and so is an
    update whose [date] is truthy but nothing [new Date] can read; in
    both cases the collection is unchanged. *)
Theorem put_task_rejected env taskId (s : store) :
  document_id taskId = true →
  is_Some (s !! taskId) →
  (∃ m, put_task env taskId [] s = (json 400 (message_body m), s)) ∧
  (∀ (req_body : object) v,
     NoDup (obj_keys req_body) →
     obj_get req_body "date" = Some v →
     truthy (Some v) = true →
     new_Date env (Some v) = None →
     ∃ m, put_task env taskId req_body s = (json 400 (message_body m), s)).
Proof.
  intros Hid [old Hold]. split.
  - rewrite put_task_id by done. unfold snap_exists, doc_get. cbn [snap_data].
    rewrite Hold. by eexists.
  - intros req_body v Hnd Hv Ht Hd. rewrite put_task_id by done.
    unfold snap_exists, doc_get. cbn [snap_data]. rewrite Hold. cbn [negb].
    pose proof (updateData_date env req_body Hnd) as Hdate.
    rewrite Hv, Ht, Hd in Hdate.
    destruct (doc_update_throws env [taskId] _ s _ _ _
                (obj_get_elem _ _ _ Hdate) eq_refl) as [m ->].
    by exists m.
Qed.

Lemma put_task_rejected_witness :
  (∃ m, put_task utc_env "a1" [] store_A = (json 400 (message_body m), store_A)) ∧
  ∃ m, put_task utc_env "a1" [("date", VStr "tomorrow")] store_A
       = (json 400 (message_body m), store_A).
Proof.
  destruct (put_task_rejected utc_env "a1" store_A) as [H1 H2];
    [vm_compute; reflexivity | vm_compute; by eexists |].
  split; [exact H1|].
  apply (H2 [("date", VStr "tomorrow")] (VStr "tomorrow"));
    try (vm_compute; reflexivity).
  apply (bool_decide_unpack _). vm_compute. exact I.
Defined.

(** What [update] writes when it succeeds: one path and one encoded value
    for each key, no path a prefix of another one. *)
Lemma doc_update_writes env taskId (data : object) (s s' : store) :
  doc_update env [taskId] data s = Ok s' →
  ∃ old writes,
    s !! taskId = Some old ∧
    Forall2 (λ kv w, w.1 = split_on "." kv.1 ∧ encode kv.2 = Ok w.2) data writes ∧
    no_conflicts (map fst writes) = true ∧
    s' = <[taskId := fold_left (λ o w, set_path o w.1 w.2) writes old]> s.
Proof.
  unfold doc_update. destruct data as [|kv0 data0] eqn:Ed; [done|].
  rewrite <- Ed. clear Ed kv0 data0.
  destruct (mapR _ data) as [writes|] eqn:Ew; [|done]. simpl.
  destruct (no_conflicts _) eqn:Ec; [|done].
  destruct (s !! taskId) as [old|] eqn:Hold; [|done].
  destruct (storeAccepts env _); [|done].
  intros H. injection H as <-. exists old, writes. repeat split; try done.
  apply mapR_Forall2 in Ew. eapply Forall2_impl; [exact Ew|].
  intros [k v] [p v'] H. simpl in *. unfold FieldPath_fromArgument in H.
  destruct (_ || _); [done|]. simpl in H.
  destruct (encode v); [|done]. simpl in H. by injection H as <- <-.
Qed.

Lemma split_on_cons sep (s : string) : ∃ seg segs, split_on sep s = seg :: segs.
Proof.
  induction s as [|c s (seg & segs & IH)]; simpl; [by eexists _, _|].
  destruct (Ascii.eqb c sep); [by eexists _, _|]. rewrite IH. by eexists _, _.
Qed.

Lemma no_conflict_roots (data : object) (writes : list (list string * value)) k :
  Forall2 (λ kv w, w.1 = split_on "." kv.1 ∧ encode kv.2 = Ok w.2) data writes →
  forallb (λ q, negb (prefix_of [k] q) && negb (prefix_of q [k])) (map fst writes)
  = true →
  ∀ kv, In kv data → field_root kv.1 ≠ k.
Proof.
  induction 1 as [|kv0 w0 data writes [Hp _] _ IH]; [done|].
  cbn [map forallb]. intros [Hhead Hrest]%andb_true_iff kv [->|Hin]; [|by apply IH].
  apply andb_true_iff in Hhead as [Hhead _]. apply negb_true_iff in Hhead.
  unfold field_root. rewrite <- Hp.
  destruct (split_on_cons "." kv.1) as (seg & segs & Hs). rewrite <- Hp in Hs.
  rewrite Hs in *. cbn in *. rewrite andb_true_r in Hhead.
  apply String.eqb_neq in Hhead. congruence.
Qed.

Lemma fold_set_path_write (data : object) (writes : list (list string * value))
    (old : object) k v v' :
  Forall2 (λ kv w, w.1 = split_on "." kv.1 ∧ encode kv.2 = Ok w.2) data writes →
  no_conflicts (map fst writes) = true →
  In (k, v) data → split_on "." k = [k] → encode v = Ok v' →
  obj_get (fold_left (λ o w, set_path o w.1 w.2) writes old) k = Some v'.
Proof.
  intros Hw. revert old.
  induction Hw as [|kv w data writes [Hp He] Hrest IH]; intros old Hc Hin Hk Hv;
    [done|].
  cbn [map no_conflicts] in Hc. apply andb_true_iff in Hc as [Hhead Hc].
  cbn [fold_left]. destruct Hin as [->|Hin]; [|by apply IH].
  cbn [fst snd] in *. rewrite Hk in Hp. rewrite Hv in He. injection He as <-.
  rewrite Hp in *. cbn [set_path].
  rewrite (fold_set_path_other data writes _ k).
  - apply obj_get_set_eq.
  - eapply Forall2_impl; [exact Hrest|]. by intros ? ? [? _].
  - by apply (no_conflict_roots data writes).
Qed.

Lemma Timestamp_fromDate_toDate t w :
  Timestamp_fromDate (Some t) = Ok w →
  ∃ seconds nanos, w = VTimestamp seconds nanos ∧
                   Timestamp_toDate seconds nanos = Some t.
Proof.
  unfold Timestamp_fromDate, Timestamp_new, MIN_SECONDS, MAX_SECONDS.
  cbv zeta.
  destruct (_ && _) eqn:E1; [|done].
  match goal with |- context [if ?c then _ else _] => destruct c eqn:E2 end; [|done].
  intros H. injection H as <-. eexists _, _. split; [done|].
  apply andb_true_iff in E1 as [H1 H2]. apply Z.leb_le in H1, H2.
  unfold Timestamp_toDate.
  replace (t / 1000 * 1000 + ((t - t / 1000 * 1000) * 1000000 + 500000) / 1000000)
    with t by euclid.
  apply TimeClip_Some. unfold JSDate.maxTime. euclid.
Qed.

Lemma writes_encoded (data : object) (writes : list (list string * value)) k v :
  Forall2 (λ kv w, w.1 = split_on "." kv.1 ∧ encode kv.2 = Ok w.2) data writes →
  In (k, v) data → ∃ v', encode v = Ok v'.
Proof.
  induction 1 as [|kv w data writes [_ He] _ IH]; [done|].
  intros [->|Hin]; [by eexists | by apply IH].
Qed.

(** X9.  When an update that carries a [date] is answered 200, the
    stored [date] is, for a truthy value, the timestamp of the instant
    [new Date] reads from it, and for a falsy value (the empty string, 0,
    null, false) that value itself: a falsy [date] is not coerced. *)
Theorem put_task_date env taskId (req_body : object) (s : store) v :
  document_id taskId = true →
  NoDup (obj_keys req_body) →
  obj_get req_body "date" = Some v →
  status (put_task env taskId req_body s).1 = 200 →
  ∃ new, (put_task env taskId req_body s).2 !! taskId = Some new ∧
    if truthy (Some v)
    then ∃ t seconds nanos,
           new_Date env (Some v) = Some t ∧
           obj_get new "date" = Some (VTimestamp seconds nanos) ∧
           Timestamp_toDate seconds nanos = Some t
    else obj_get new "date" = Some v.
Proof.
  intros Hid Hnd Hv. rewrite put_task_id by done. cbv zeta.
  destruct (negb _); [done|].
  destruct (doc_update env [taskId] _ s) as [s'|] eqn:Eu; [|done].
  apply doc_update_writes in Eu as (old & writes & Hold & Hw & Hc & ->).
  intros _. exists (fold_left (λ o w, set_path o w.1 w.2) writes old).
  split; [destruct (convertTimestamps _); apply lookup_insert_eq|].
  pose proof (updateData_date env req_body Hnd) as Hdate. rewrite Hv in Hdate.
  destruct (truthy (Some v)) eqn:Et; apply obj_get_elem in Hdate;
    destruct (writes_encoded _ _ _ _ Hw Hdate) as [v' Hv'].
  - destruct (new_Date env (Some v)) as [t|]; [|done].
    cbn [encode] in Hv'.
    destruct (Timestamp_fromDate_toDate t v' Hv') as (seconds & nanos & -> & Hback).
    exists t, seconds, nanos. split; [done|]. split; [|done].
    by apply (fold_set_path_write _ _ _ _ _ _ Hw Hc Hdate).
  - assert (v' = v) as ->
      by (destruct v as [| |[]| | | | |]; cbn in Et, Hv'; congruence).
    by apply (fold_set_path_write _ _ _ _ _ _ Hw Hc Hdate).
Qed.

Lemma put_task_date_witness :
  ∃ new, (put_task utc_env "a1" [("date", VStr "2024-03-16T10:00:00.000Z")]
            store_A).2 !! "a1" = Some new ∧
    ∃ t seconds nanos,
      new_Date utc_env (Some (VStr "2024-03-16T10:00:00.000Z")) = Some t ∧
      obj_get new "date" = Some (VTimestamp seconds nanos) ∧
      Timestamp_toDate seconds nanos = Some t.
Proof.
  apply (put_task_date utc_env "a1" [("date", VStr "2024-03-16T10:00:00.000Z")]
           store_A (VStr "2024-03-16T10:00:00.000Z"));
    try (vm_compute; reflexivity).
  apply (bool_decide_unpack _). vm_compute. exact I.
Defined.

(** ** The answer to a create request *)

Lemma Forall_obj_set (P : value → Prop) (o : object) k v :
  Forall (λ kv, P kv.2) o → P v → Forall (λ kv, P kv.2) (obj_set o k v).
Proof.
  intros Ho Hv. induction Ho as [|[k0 v0] o H0 Ho IH]; simpl.
  - by repeat constructor.
  - destruct (String.eqb k k0); constructor; done.
Qed.

Lemma Forall_obj_spread (P : value → Prop) (src target : object) :
  Forall (λ kv, P kv.2) target → Forall (λ kv, P kv.2) src →
  Forall (λ kv, P kv.2) (obj_spread target src).
Proof.
  intros Ht Hs. revert target Ht.
  induction Hs as [|[k v] src Hv _ IH]; intros target Ht; [done|].
  unfold obj_spread in *. simpl. apply IH. by apply Forall_obj_set.
Qed.

Lemma writes_plain_json v : is_json v = true → plain_field v = true → writes_plain v.
Proof. intros Hj Hp v'. rewrite (encode_json v Hj). by intros [= <-]. Qed.

Lemma writes_plain_date d : writes_plain (VDate d).
Proof.
  intros v'. destruct d as [t|]; [|done]. cbn [encode].
  intros (seconds & nanos & -> & H)%Timestamp_fromDate_toDate.
  cbn. by rewrite H.
Qed.

Lemma taskData_writes_plain env now (req_body stored : object) :
  json_object req_body = true →
  plain_document req_body = true →
  encode_fields (taskData env now req_body) = Ok stored →
  plain_document stored = true.
Proof.
  intros Hj Hp He.
  assert (Hbody : Forall (λ kv : string * value, writes_plain kv.2) req_body).
  { apply List.Forall_forall. intros [k v] Hin. apply writes_plain_json.
    - unfold json_object in Hj. rewrite forallb_forall in Hj. apply (Hj (k, v)), Hin.
    - unfold plain_document in Hp. rewrite forallb_forall in Hp. apply (Hp (k, v)), Hin. }
  assert (Hdata : Forall (λ kv : string * value, writes_plain kv.2)
                    (taskData env now req_body)).
  { unfold taskData. cbv zeta.
    repeat apply Forall_obj_set; try apply writes_plain_date.
    - apply Forall_obj_spread; [constructor | exact Hbody].
    - unfold js_or. destruct (obj_get req_body "completed") as [v|] eqn:Ev;
        [|by apply writes_plain_json].
      destruct (truthy _); [|by apply writes_plain_json].
      apply obj_get_elem in Ev. rewrite List.Forall_forall in Hbody.
      by apply (Hbody ("completed", v)). }
  unfold encode_fields in He. apply mapR_Forall2 in He.
  unfold plain_document. apply forallb_forall. intros [k v'] Hin.
  revert Hin. induction He as [|[k0 v0] [k1 v1] data stored' H0 _ IH];
    [done|].
  apply Forall_cons in Hdata as [Hv0 Hdata]. intros [Heq|Hin]; [|by apply IH].
  injection Heq as -> ->. cbn in *. apply Hv0.
  destruct (encode v0); [|done]. cbn in H0. by injection H0 as _ ->.
Qed.

Lemma shape_field_json v :
  is_json v = true → plain_field v = true → shape_field v = Ok v.
Proof.
  unfold shape_field. destruct v; try done. cbn.
  intros _ H. apply negb_true_iff in H. by rewrite H.
Qed.

Lemma taskData_field env now (req_body : object) k :
  NoDup (obj_keys req_body) →
  k ≠ "date" → k ≠ "createdAt" → k ≠ "completed" →
  obj_get (taskData env now req_body) k = obj_get req_body k.
Proof.
  intros Hnd H1 H2 H3. unfold taskData. cbv zeta.
  rewrite !obj_get_set_ne by done. by apply obj_spread_copy.
Qed.

(** X10.  The answer to a create request whose [date] is an ISO string
    as [toISOString] writes it (years 1 to 9999), for a JSON payload
    without an [id] of its own and without a map holding a key [toDate],
    when the store accepts the write: 201 with the task, whose [id] is the
    identifier drawn, [date] the string that was sent, [createdAt] the ISO
    string of the clock reading, [completed] the payload's value when
    truthy and [false] otherwise, and every other field as sent. *)
Theorem post_tasks_response env now newId (req_body : object) (s : store) t iso :
  NoDup (obj_keys req_body) →
  json_object req_body = true →
  plain_document req_body = true →
  obj_get req_body "id" = None →
  obj_get req_body "date" = Some (VStr iso) →
  JSDate.toISOString (Some t) = Ok iso →
  iso_range t → iso_range now →
  (∀ stored, encode_fields (taskData env now req_body) = Ok stored →
             storeAccepts env stored = true) →
  s !! newId = None →
  ∃ task created,
    (post_tasks env now newId req_body s).1 = json 201 (VObj task) ∧
    obj_get task "id" = Some (VStr newId) ∧
    obj_get task "date" = Some (VStr iso) ∧
    JSDate.toISOString (Some now) = Ok created ∧
    obj_get task "createdAt" = Some (VStr created) ∧
    obj_get task "completed"
    = Some (js_or (obj_get req_body "completed") (VBool false)) ∧
    (∀ k, k ≠ "id" → k ≠ "date" → k ≠ "createdAt" → k ≠ "completed" →
          obj_get task k = obj_get req_body k).
Proof.
  intros Hnd Hj Hp Hid Hdate Hiso Ht Hnow Hacc Hfresh.
  destruct (parse_iso_toISOString t Ht) as (iso' & Hiso' & Hparse).
  assert (iso' = iso) as -> by congruence. clear Hiso'.
  destruct (parse_iso_toISOString now Hnow) as (created & Hcreated & _).
  assert (Hclip : ∀ x, iso_range x → JSDate.TimeClip x = Some x)
    by (intros x Hx; apply TimeClip_Some; unfold iso_range, JSDate.maxTime in *; lia).
  assert (Hrange : ∀ x, iso_range x → timestamp_range x)
    by (unfold iso_range, timestamp_range, MIN_SECONDS, MAX_SECONDS; lia).
  assert (Hnew : new_Date env (obj_get req_body "date") = Some t)
    by (rewrite Hdate; cbn [new_Date]; rewrite Hparse; by apply Hclip).
  destruct (taskData_encodes env now req_body t Hj Hnew (Hrange _ Ht) (Hrange _ Hnow))
    as [stored Hstored].
  pose proof (taskData_writes_plain env now req_body stored Hj Hp Hstored) as Hplain.
  destruct (convertTimestamps_total newId stored Hplain) as [task Htask].
  exists task, created.
  assert (Hget : ∀ k, match obj_get (taskData env now req_body) k with
                      | Some v => ∃ v' v'', encode v = Ok v' ∧ shape_field v' = Ok v'' ∧
                                            obj_get task k = Some v''
                      | None => obj_get task k
                                = if String.eqb k "id" then Some (VStr newId) else None
                      end).
  { intros k. pose proof (encode_fields_get _ _ k Hstored) as H1.
    pose proof (convertTimestamps_get _ _ _ k Htask) as H2.
    destruct (obj_get (taskData env now req_body) k) as [v|].
    - destruct H1 as (v' & Hv' & Hs). rewrite Hs in H2.
      destruct H2 as (v'' & Hv'' & H2). by exists v', v''.
    - by rewrite H1 in H2. }
  assert (Hstamp : ∀ x v' v'', iso_range x → encode (VDate (Some x)) = Ok v' →
                               shape_field v' = Ok v'' →
                               ∀ text, JSDate.toISOString (Some x) = Ok text →
                                       v'' = VStr text).
  { intros x v' v'' Hx He Hs text Htext. cbn [encode] in He.
    apply Timestamp_fromDate_toDate in He as (seconds & nanos & -> & Hback).
    cbn in Hs. rewrite Hback, Htext in Hs. cbn in Hs. by injection Hs as <-. }
  repeat split.
  - unfold post_tasks, collection_add. rewrite Hstored. cbn [mbind result_bind].
    rewrite (Hacc stored Hstored), Hfresh. unfold doc_get.
    rewrite lookup_insert_eq. by rewrite Htask.
  - pose proof (Hget "id") as H.
    rewrite (taskData_other env now req_body "id") in H by done. exact H.
  - pose proof (Hget "date") as H. rewrite taskData_date, Hnew in H.
    destruct H as (v' & v'' & He & Hs & ->).
    by rewrite (Hstamp t v' v'' Ht He Hs iso Hiso).
  - exact Hcreated.
  - pose proof (Hget "createdAt") as H. rewrite taskData_createdAt, (Hclip now Hnow) in H.
    destruct H as (v' & v'' & He & Hs & ->).
    by rewrite (Hstamp now v' v'' Hnow He Hs created Hcreated).
  - pose proof (Hget "completed") as H. rewrite taskData_completed in H.
    destruct H as (v' & v'' & He & Hs & ->).
    assert (Hc : is_json (js_or (obj_get req_body "completed") (VBool false)) = true
                 ∧ plain_field (js_or (obj_get req_body "completed") (VBool false)) = true).
    { unfold js_or. destruct (obj_get req_body "completed") as [v|] eqn:Ev; [|done].
      destruct (truthy _); [|done].
      split; [apply (json_object_get _ _ _ Hj Ev) | apply (plain_document_get _ _ _ Hp Ev)]. }
    destruct Hc as [Hc1 Hc2]. rewrite (encode_json _ Hc1) in He. injection He as <-.
    rewrite (shape_field_json _ Hc1 Hc2) in Hs. by injection Hs as <-.
  - intros k K1 K2 K3 K4. pose proof (Hget k) as H.
    rewrite (taskData_field env now req_body k Hnd K2 K3 K4) in H.
    destruct (obj_get req_body k) as [v|] eqn:Ev.
    + destruct H as (v' & v'' & He & Hs & ->).
      rewrite (encode_json v (json_object_get _ _ _ Hj Ev)) in He. injection He as <-.
      rewrite (shape_field_json v (json_object_get _ _ _ Hj Ev)
                 (plain_document_get _ _ _ Hp Ev)) in Hs.
      by injection Hs as <-.
    + rewrite H. by apply String.eqb_neq in K1 as ->.
Qed.

Lemma post_tasks_response_witness :
  ∃ task created,
    (post_tasks utc_env 1700000000001 "b2" task_B store_A).1 = json 201 (VObj task) ∧
    obj_get task "id" = Some (VStr "b2") ∧
    obj_get task "date" = Some (VStr "2024-03-16T10:00:00.000Z") ∧
    JSDate.toISOString (Some 1700000000001) = Ok created ∧
    obj_get task "createdAt" = Some (VStr created) ∧
    obj_get task "completed" = Some (js_or (obj_get task_B "completed") (VBool false)) ∧
    (∀ k, k ≠ "id" → k ≠ "date" → k ≠ "createdAt" → k ≠ "completed" →
          obj_get task k = obj_get task_B k).
Proof.
  apply (post_tasks_response utc_env 1700000000001 "b2" task_B store_A
           1710583200000 "2024-03-16T10:00:00.000Z");
    lazymatch goal with
    | |- NoDup _ => apply (bool_decide_unpack _); vm_compute; exact I
    | |- iso_range _ => unfold iso_range; lia
    | |- ∀ _, _ => intros stored _; reflexivity
    | |- _ => vm_compute; reflexivity
    end.
Defined.

(** ** Statistics *)

(** X12.  When the statistics handler answers (fewer than 2^32 tasks),
    [completedTasks] and [todayTasks] are at most [totalTasks], and with
    at least one task [completionRate] is the text of a number of tenths
    from 0.0 to 100.0, which is 100.0 when every task is completed and 0.0
    when none is. *)
Theorem get_stats_bounds env now (s : store) tasks :
  mapR convertTimestamps (collection_get s) = Ok tasks →
  Z.of_nat (size s) < 2 ^ 32 →
  ∃ completed today rate,
    get_stats env now s
    = json 200 (VObj [("totalTasks", num (size s));
                      ("completedTasks", num completed);
                      ("todayTasks", num today); ("completionRate", rate)]) ∧
    (completed <= size s)%nat ∧ (today <= size s)%nat ∧
    ((0 < size s)%nat →
     (∃ n, rate = VStr (rate_text n) ∧ 0 <= n <= 1000) ∧
     (completed = size s → rate = VStr "100.0") ∧
     (completed = 0%nat → rate = VStr "0.0")).
Proof.
  intros Ht Hsize. unfold get_stats. rewrite Ht.
  assert (Hlen : length tasks = size s).
  { rewrite (mapR_length _ _ _ Ht). unfold collection_get.
    by rewrite length_map, length_map_to_list. }
  rewrite Hlen.
  set (completed := length (filter _ tasks)).
  set (today := length (filter _ tasks)).
  assert (Hcompleted : (completed <= size s)%nat)
    by (rewrite <- Hlen; apply length_filter).
  assert (Htoday : (today <= size s)%nat) by (rewrite <- Hlen; apply length_filter).
  exists completed, today, (completionRate env (size s) completed).
  split; [reflexivity|]. split; [exact Hcompleted|]. split; [exact Htoday|]. intros Hpos.
  destruct (completionRate_nearest env (size s) completed Hpos Hcompleted Hsize)
    as (n & Hrate & Hn & Hnear).
  rewrite Hrate.
  assert (Hbounds : n <= 1000 ∧ (completed = size s → n = 1000)
                    ∧ (completed = 0%nat → n = 0)).
  { clear Hrate. revert Hnear Hn Hpos Hcompleted.
    generalize (size s) completed. clear. intros total finished Hnear Hn Hpos Hle.
    assert (Hup : ∀ k, k <= n → k * Z.of_nat total <= n * Z.of_nat total)
      by (intros k Hk; apply Z.mul_le_mono_nonneg_r; lia).
    assert (Hdown : ∀ k, n <= k → n * Z.of_nat total <= k * Z.of_nat total)
      by (intros k Hk; apply Z.mul_le_mono_nonneg_r; lia).
    split; [|split].
    - destruct (Z_le_gt_dec n 1000) as [|Hgt]; [assumption|].
      assert (H0 : 1001 <= n) by lia.
      pose proof (Hup 1001 H0) as H. clear Hup Hdown. lia.
    - intros ->. destruct (Z_le_gt_dec n 999) as [Hlow|].
      + pose proof (Hdown 999 Hlow) as H. clear Hup Hdown. lia.
      + destruct (Z_le_gt_dec n 1000) as [|Hgt]; [lia|].
        assert (H0 : 1001 <= n) by lia.
      pose proof (Hup 1001 H0) as H. clear Hup Hdown. lia.
    - intros ->. destruct (Z_le_gt_dec n 0) as [|Hgt]; [lia|].
      assert (H0 : 1 <= n) by lia.
      pose proof (Hup 1 H0) as H. clear Hup Hdown. lia. }
  destruct Hbounds as (Hn' & Hall & Hnone).
  split; [by exists n|]. split.
  - intros H. rewrite (Hall H). vm_compute. reflexivity.
  - intros H. rewrite (Hnone H). vm_compute. reflexivity.
Qed.

Lemma get_stats_bounds_witness :
  ∃ completed today rate,
    get_stats utc_env 1710500000000 store_AB_done
    = json 200 (VObj [("totalTasks", num (size store_AB_done));
                      ("completedTasks", num completed);
                      ("todayTasks", num today); ("completionRate", rate)]) ∧
    (completed <= size store_AB_done)%nat ∧ (today <= size store_AB_done)%nat ∧
    ∃ n, rate = VStr (rate_text n) ∧ 0 <= n <= 1000.
Proof.
  assert (Hshaped : mapR convertTimestamps (collection_get store_AB_done)
                    = Ok [shaped_A true; shaped_B]) by (vm_compute; reflexivity).
  assert (Hsize : Z.of_nat (size store_AB_done) < 2 ^ 32) by (vm_compute; reflexivity).
  assert (Hpos : (0 < size store_AB_done)%nat) by (vm_compute; lia).
  destruct (get_stats_bounds utc_env 1710500000000 store_AB_done
              [shaped_A true; shaped_B] Hshaped Hsize)
    as (completed & today & rate & H1 & H2 & H3 & H4).
  exists completed, today, rate.
  split; [exact H1|]. split; [exact H2|]. split; [exact H3|].
  exact (proj1 (H4 Hpos)).
Defined.

(** One document that cannot be shaped is enough. *)
Lemma convert_keys_throws (data : object) keys (converted : object) k v m :
  obj_get data k = Some v → has_toDate v = true → toDate_toISOString v = Throw m →
  In k keys → ∃ m', convert_keys data keys converted = Throw m'.
Proof.
  intros Hk Hd Hm. revert converted.
  induction keys as [|key keys IH]; intros converted Hin; [done|].
  cbn [convert_keys].
  destruct (String.eqb_spec key k) as [->|Hne].
  - rewrite Hk, Hd, Hm. by eexists.
  - destruct Hin as [|Hin]; [done|].
    destruct (obj_get data key) as [w|]; [|by apply IH].
    destruct (has_toDate w); [|by apply IH].
    destruct (toDate_toISOString w) as [iso|m0]; [by apply IH | by eexists].
Qed.

Lemma convertTimestamps_throws id (data : object) k fields :
  obj_get data k = Some (VObj fields) → obj_has fields "toDate" = true →
  ∃ m, convertTimestamps {| snap_id := id; snap_data := Some data |} = Throw m.
Proof.
  intros Hk Hf. unfold convertTimestamps. cbn [snap_data].
  destruct (convert_keys_throws data (obj_keys data) [] k (VObj fields)
              "data[key].toDate is not a function" Hk Hf eq_refl) as [m ->].
  - apply obj_get_keys. by rewrite Hk.
  - by exists m.
Qed.

Lemma get_stats_unshapeable env now (s : store) id (data : object) m :
  s !! id = Some data →
  convertTimestamps {| snap_id := id; snap_data := Some data |} = Throw m →
  status (get_stats env now s) = 500.
Proof.
  intros Hs Hm. unfold get_stats, collection_get.
  destruct (mapR_throw convertTimestamps (map to_snapshot (map_to_list s))
              (to_snapshot (id, data)) m) as [m' ->]; [|done|done].
  apply in_map, list_elem_of_In, elem_of_map_to_list, Hs.
Qed.

Lemma get_tasks_unshapeable (s : store) id (data : object) m :
  s !! id = Some data →
  convertTimestamps {| snap_id := id; snap_data := Some data |} = Throw m →
  obj_has data "createdAt" = true →
  status (get_tasks s) = 500.
Proof.
  intros Hs Hm Hc. unfold get_tasks, query_orderBy_desc.
  set (docs := merge_sort _ _).
  assert (Hin : (id, data) ∈ docs).
  { unfold docs. rewrite merge_sort_Permutation.
    apply list_elem_of_filter. split; [done|]. by apply elem_of_map_to_list. }
  destruct (mapR_throw convertTimestamps (map to_snapshot docs)
              (to_snapshot (id, data)) m) as [m' Hm']; [|done|].
  { apply in_map, list_elem_of_In, Hin. }
  rewrite Hm'. destruct (map to_snapshot docs); [done|done].
Qed.

(** X13.  One document that [convertTimestamps] cannot shape makes the
    statistics answer 500 and, if it has a [createdAt], makes the listing
    answer 500: neither handler answers with the other documents. *)
Theorem unshapeable_document env now (s : store) id (data : object) m :
  s !! id = Some data →
  convertTimestamps {| snap_id := id; snap_data := Some data |} = Throw m →
  status (get_stats env now s) = 500 ∧
  (obj_has data "createdAt" = true → status (get_tasks s) = 500).
Proof.
  intros Hs Hm. split; [by eapply get_stats_unshapeable|].
  by eapply get_tasks_unshapeable.
Qed.

(** X14.  A create request whose JSON payload has a field, other than
    [date], [createdAt] and [completed], holding a map with a key
    [toDate], is answered 400 although the task has been stored (the
    write succeeds, shaping the stored task for the answer throws); from
    then on the listing and the statistics answer 500. *)
Theorem post_tasks_stored_but_refused env now newId (req_body : object) (s : store)
    k fields stored :
  NoDup (obj_keys req_body) →
  json_object req_body = true →
  obj_get req_body k = Some (VObj fields) →
  obj_has fields "toDate" = true →
  k ≠ "date" → k ≠ "createdAt" → k ≠ "completed" →
  encode_fields (taskData env now req_body) = Ok stored →
  storeAccepts env stored = true →
  s !! newId = None →
  (∃ m, post_tasks env now newId req_body s
        = (json 400 (message_body m), <[newId := stored]> s)) ∧
  status (get_tasks (post_tasks env now newId req_body s).2) = 500 ∧
  (∀ later, status (get_stats env later (post_tasks env now newId req_body s).2) = 500).
Proof.
  intros Hnd Hj Hk Hf K1 K2 K3 Hstored Hacc Hfresh.
  assert (Hsk : obj_get stored k = Some (VObj fields)).
  { pose proof (encode_fields_get _ _ k Hstored) as H.
    rewrite (taskData_field env now req_body k Hnd K1 K2 K3), Hk in H.
    destruct H as (v' & He & ->).
    rewrite (encode_json _ (json_object_get _ _ _ Hj Hk)) in He. by injection He as <-. }
  destruct (convertTimestamps_throws newId stored k fields Hsk Hf) as [m Hm].
  assert (Hpost : post_tasks env now newId req_body s
                  = (json 400 (message_body m), <[newId := stored]> s)).
  { unfold post_tasks, collection_add. rewrite Hstored. cbn [mbind result_bind].
    rewrite Hacc, Hfresh. unfold doc_get. rewrite lookup_insert_eq. by rewrite Hm. }
  rewrite Hpost. cbn [snd]. split; [by exists m|]. split.
  - apply (get_tasks_unshapeable _ newId stored m); [apply lookup_insert_eq | done|].
    unfold obj_has. by rewrite (taskData_stored_createdAt _ _ _ _ Hstored).
  - intros later.
    apply (get_stats_unshapeable _ _ _ newId stored m); [apply lookup_insert_eq | done].
Qed.

Lemma unshapeable_document_witness :
  status (get_stats utc_env 1710500000000 store_AC) = 500 ∧
  status (get_tasks store_AC) = 500.
Proof.
  destruct (unshapeable_document utc_env 1710500000000 store_AC "c3" stored_C
              "data[key].toDate is not a function") as [H1 H2];
    [vm_compute; reflexivity | vm_compute; reflexivity |].
  split; [exact H1|]. apply H2. vm_compute. reflexivity.
Defined.

Lemma post_tasks_stored_but_refused_witness :
  (∃ m, post_tasks utc_env 1700000000002 "c3" task_with_toDate store_A
        = (json 400 (message_body m), <["c3" := stored_C]> store_A)) ∧
  status (get_tasks store_AC) = 500 ∧
  (∀ later, status (get_stats utc_env later store_AC) = 500).
Proof.
  apply (post_tasks_stored_but_refused utc_env 1700000000002 "c3" task_with_toDate
           store_A "notes" [("toDate", VStr "tomorrow")] stored_C);
    lazymatch goal with
    | |- NoDup _ => apply (bool_decide_unpack _); vm_compute; exact I
    | |- _ ≠ _ => discriminate
    | |- _ => vm_compute; reflexivity
    end.
Defined.

(** ** What every stored task has *)

(** X15.  Every document of a collection the API can reach has the
    fields [date], [createdAt] and [completed]: create writes the three
    and no request removes a field. *)
Theorem reachable_task_fields env (s : store) :
  reachable env s → ∀ id data, s !! id = Some data → task_fields data.
Proof.
  induction 1 as [|r s _ IH]; [by intros id data H|].
  intros id data. destruct r; simpl; try apply IH.
  - destruct (post_tasks_cases env now newId req_body s) as [->|(stored & He & ->)];
      [apply IH|].
    rewrite lookup_insert. case_decide; [|apply IH].
    intros Hd. injection Hd as <-.
    pose proof (encode_fields_get _ _ "date" He) as H1.
    pose proof (encode_fields_get _ _ "createdAt" He) as H2.
    pose proof (encode_fields_get _ _ "completed" He) as H3.
    rewrite taskData_date in H1. rewrite taskData_createdAt in H2.
    rewrite taskData_completed in H3.
    destruct H1 as (? & _ & E1), H2 as (? & _ & E2), H3 as (? & _ & E3).
    unfold task_fields. by rewrite E1, E2, E3.
  - destruct (put_task_cases env taskId req_body s)
      as [->|(id' & old & writes & Hold & ->)]; [apply IH|].
    rewrite lookup_insert. case_decide; [|apply IH].
    intros Hd. injection Hd as <-. specialize (IH _ _ Hold).
    clear Hold. revert old IH.
    induction writes as [|w writes IHw]; intros old IH; [done|].
    simpl. apply IHw. destruct IH as (H1 & H2 & H3).
    unfold task_fields. repeat split; by apply set_path_is_Some.
  - destruct (delete_task_cases taskId s) as [->|[id' ->]]; [apply IH|].
    rewrite lookup_delete. case_decide; [done|apply IH].
Qed.

Lemma reachable_task_fields_witness : task_fields stored_A.
Proof.
  apply (reachable_task_fields utc_env store_AB reachable_store_AB "a1").
  vm_compute. reflexivity.
Defined.

(** ** Today, for dates at midnight UTC *)

(** X16.  On a server whose zone has a fixed offset from UTC (of less
    than a day), a task dated midnight UTC of the day [day] (the form
    sends such dates) is counted in [todayTasks] exactly while the
    server's local day is [day] when the offset is zero or positive, and
    exactly while it is [day - 1] when the offset is negative. *)
Theorem is_today_utc_midnight env now offset day (task : object) :
  (∀ t isUTC, LocalTZA env t isUTC = offset) →
  - Calendar.msPerDay < offset < Calendar.msPerDay →
  iso_range now →
  new_Date env (obj_get task "date") = Some (day * Calendar.msPerDay) →
  is_today env now task
  = (Calendar.Day (now + offset) =? (if offset <? 0 then day - 1 else day)).
Proof.
  intros Hoff Hrange Hnow Hdate. rewrite is_today_eq, Hdate.
  by apply in_today_utc_midnight.
Qed.

Lemma is_today_utc_midnight_witness :
  is_today utc_minus_5 1710435600000 (shaped_A false) = true ∧
  is_today utc_minus_5 1710522000000 (shaped_A false) = false.
Proof.
  assert (H : ∀ now, iso_range now →
            is_today utc_minus_5 now (shaped_A false)
            = (Calendar.Day (now + -18000000) =? 19797 - 1)).
  { intros now Hnow.
    apply (is_today_utc_midnight utc_minus_5 now (-18000000) 19797 (shaped_A false));
      [reflexivity | unfold Calendar.msPerDay; lia | exact Hnow
      | vm_compute; reflexivity]. }
  repeat split; rewrite H by (unfold iso_range; lia); vm_compute; reflexivity.
Defined.

(** ** Dates as the form gives them *)

Lemma legal_date_fields y m d :
  legal_date y m d → 1 <= m <= 12 ∧ 1 <= d <= 31.
Proof.
  intros [_ H].
  destruct (civil_from_days_fields (Calendar.days_from_civil y m d))
    as (y' & m' & d' & Hc & Hm & Hd & _).
  rewrite H in Hc. by injection Hc as -> -> ->.
Qed.

Lemma legal_date_day y m d :
  legal_date y m d → -719162 <= Calendar.days_from_civil y m d <= 2932896.
Proof.
  intros Hl. destruct (legal_date_fields y m d Hl) as [Hm Hd].
  destruct Hl as [Hy _]. unfold Calendar.days_from_civil.
  destruct (Z.leb_spec m 2); destruct (Z.ltb_spec 2 m); try lia; euclid.
Qed.

Lemma parse_iso_date_text y m d :
  legal_date y m d →
  JSDate.parse_iso (date_text y m d)
  = Some (Calendar.days_from_civil y m d * Calendar.msPerDay).
Proof.
  intros Hl. destruct (legal_date_fields y m d Hl) as [Hm Hd].
  destruct Hl as [Hy Hc]. unfold JSDate.parse_iso, date_text.
  read_field 10000. read_field 100. read_field 100.
  rewrite Hc, !Z.eqb_refl. by cbn [andb String.eqb].
Qed.

(** A date of the form read by [new Date] and written back by
    [toISOString]: midnight UTC of that day, whatever the time zone. *)
Lemma date_text_toISOString env y m d :
  legal_date y m d →
  new_Date env (Some (VStr (date_text y m d)))
  = Some (Calendar.days_from_civil y m d * Calendar.msPerDay) ∧
  JSDate.toISOString (Some (Calendar.days_from_civil y m d * Calendar.msPerDay))
  = Ok (date_text y m d +:+ "T00:00:00.000Z").
Proof.
  intros Hl. pose proof (legal_date_day y m d Hl) as Hday.
  pose proof (parse_iso_date_text y m d Hl) as Hparse.
  destruct Hl as [Hy Hc]. split.
  - cbn [new_Date]. rewrite Hparse. apply TimeClip_Some.
    unfold JSDate.maxTime, Calendar.msPerDay. lia.
  - unfold JSDate.toISOString.
    replace (Calendar.Day (Calendar.days_from_civil y m d * Calendar.msPerDay))
      with (Calendar.days_from_civil y m d)
      by (unfold Calendar.Day, Calendar.msPerDay; euclid).
    rewrite Hc.
    replace (Calendar.TimeWithinDay (Calendar.days_from_civil y m d * Calendar.msPerDay))
      with 0 by (unfold Calendar.TimeWithinDay, Calendar.msPerDay; euclid).
    unfold JSDate.year_field.
    destruct (Z.leb_spec 0 y); [|lia]. destruct (Z.leb_spec y 9999); [|lia].
    cbn [andb]. reflexivity.
Qed.

(** ** The form *)

(** X17.  What [handleSubmit] sends.  When the form's date cannot be
    read, no request is made and the state is unchanged.  For a date
    yyyy-mm-dd of the form, the write carries the form's fields with
    [date] replaced by that day's midnight UTC in ISO form, whatever the
    time zone of the browser; it is a PUT for the task being edited, else
    a POST.  When the write is refused nothing else is sent and the state
    is unchanged (the form keeps its contents); when it is accepted the
    form is reset, [editingId] is cleared, and the tasks and the
    statistics are read again, in that order. *)
Theorem handleSubmit_calls (browser : environment) {server : Type}
    (axios : Client.api_call → server → result value * server)
    today (st : Client.app) (w : Client.world) :
  (new_Date browser (obj_get (Client.formData st) "date") = None →
   Client.handleSubmit browser axios today st w = (st, w)) ∧
  (∀ y m d,
     legal_date y m d →
     obj_get (Client.formData st) "date" = Some (VStr (date_text y m d)) →
     let data := obj_set (obj_spread [] (Client.formData st)) "date"
                   (VStr (date_text y m d +:+ "T00:00:00.000Z")) in
     let call := if truthy (Some (Client.editingId st))
                 then Client.put_task_call (Client.editingId st) data
                 else Client.post_task_call data in
     match axios call w.1 with
     | (Throw _, srv) =>
         Client.handleSubmit browser axios today st w = (st, (srv, w.2 ++ [call]))
     | (Ok _, _) =>
         ∃ st' srv,
           Client.handleSubmit browser axios today st w
           = (st', (srv, w.2 ++ [call;
                                 Client.get_tasks_call
                                   [("date", VStr (Client.selectedDate st))];
                                 Client.get_stats_call])) ∧
           Client.formData st' = Client.emptyForm today ∧
           Client.editingId st' = VNull
     end).
Proof.
  split.
  - intros H. unfold Client.handleSubmit, Client.submitted. by rewrite H.
  - intros y m d Hl Hdate data call.
    destruct (date_text_toISOString browser y m d Hl) as [Hnew Hiso].
    unfold Client.handleSubmit, Client.submitted.
    rewrite Hdate, Hnew, Hiso. cbn [mbind result_bind].
    fold data. fold call. unfold Client.request.
    destruct (axios call w.1) as [[answer|m0] srv]; [|done].
    unfold Client.fetchTasks, Client.fetchStats, Client.request. cbn [fst snd].
    destruct (axios _ srv) as [[tasks|m1] srv1]; cbn [fst snd];
      destruct (axios Client.get_stats_call srv1) as [[stats|m2] srv2];
      eexists _, _;
      (split; [by rewrite <- !app_assoc | split; reflexivity]).
Qed.

Lemma handleSubmit_calls_witness :
  Client.handleSubmit utc_env axios_refuses "2024-03-16" app_typed (tt, [])
  = (app_typed,
     (tt, [Client.post_task_call
             (form "A" EmptyString "2024-03-15T00:00:00.000Z" "medium"
                EmptyString)])) ∧
  ∃ st' srv,
    Client.handleSubmit utc_env axios_accepts "2024-03-16" app_typed (tt, [])
    = (st', (srv, [Client.post_task_call
                     (form "A" EmptyString "2024-03-15T00:00:00.000Z" "medium"
                        EmptyString);
                   Client.get_tasks_call [("date", VStr "2024-03-15")];
                   Client.get_stats_call])) ∧
    Client.formData st' = Client.emptyForm "2024-03-16" ∧
    Client.editingId st' = VNull.
Proof.
  assert (Hl : legal_date 2024 3 15) by (split; [lia | vm_compute; reflexivity]).
  assert (Hd : obj_get (Client.formData app_typed) "date"
               = Some (VStr (date_text 2024 3 15))) by (vm_compute; reflexivity).
  split.
  - exact (proj2 (handleSubmit_calls utc_env axios_refuses "2024-03-16" app_typed
                    (tt, [])) 2024 3 15 Hl Hd).
  - exact (proj2 (handleSubmit_calls utc_env axios_accepts "2024-03-16" app_typed
                    (tt, [])) 2024 3 15 Hl Hd).
Defined.

Lemma date_text_parsed env y m d :
  legal_date y m d →
  new_Date env (Some (VStr (date_text y m d +:+ "T00:00:00.000Z")))
  = Some (Calendar.days_from_civil y m d * Calendar.msPerDay).
Proof.
  intros Hl. pose proof (legal_date_day y m d Hl) as Hday.
  destruct (date_text_toISOString env y m d Hl) as [_ Hiso].
  assert (Hr : iso_range (Calendar.days_from_civil y m d * Calendar.msPerDay))
    by (unfold iso_range, Calendar.msPerDay; lia).
  destruct (parse_iso_toISOString _ Hr) as (iso & Hiso' & Hparse).
  assert (iso = date_text y m d +:+ "T00:00:00.000Z") as -> by congruence.
  cbn [new_Date]. rewrite Hparse. apply TimeClip_Some.
  unfold iso_range, JSDate.maxTime in *. lia.
Qed.

Lemma form_encoded env now title description priority category y m d :
  legal_date y m d →
  iso_range now →
  encode_fields
    (taskData env now
       (form title description (date_text y m d +:+ "T00:00:00.000Z")
          priority category))
  = Ok (stored_form title description priority category y m d now).
Proof.
  intros Hl Hnow. pose proof (legal_date_day y m d Hl) as Hday.
  pose proof (date_text_parsed env y m d Hl) as Hparsed.
  set (iso := date_text y m d +:+ "T00:00:00.000Z") in *.
  assert (Hdata : taskData env now (form title description iso priority category)
                  = [("title", VStr title); ("description", VStr description);
                     ("date", VDate (new_Date env (Some (VStr iso))));
                     ("priority", VStr priority); ("category", VStr category);
                     ("createdAt", VDate (JSDate.TimeClip now));
                     ("completed", VBool false)]) by reflexivity.
  rewrite Hdata, Hparsed.
  rewrite TimeClip_Some by (unfold iso_range, JSDate.maxTime in *; lia).
  unfold encode_fields. cbn [mapR fst snd encode mbind result_bind].
  rewrite !Timestamp_fromDate_range
    by (unfold timestamp_range, iso_range, MIN_SECONDS, MAX_SECONDS,
          Calendar.msPerDay in *; lia).
  cbn [mbind result_bind]. unfold stored_form, Calendar.msPerDay.
  replace (Calendar.days_from_civil y m d * 86400000 / 1000)
    with (Calendar.days_from_civil y m d * 86400) by euclid.
  replace ((Calendar.days_from_civil y m d * 86400000
            - Calendar.days_from_civil y m d * 86400 * 1000) * 1000000)
    with 0 by lia.
  reflexivity.
Qed.

(** X18.  Adding a task through the form.  The payload [handleSubmit]
    builds from the form's five fields, given to the create handler under
    a fresh identifier, is answered 201 and stored with [title],
    [description], [priority] and [category] as in the form (so priority
    [medium] unless changed), [date] the timestamp of the chosen day's
    midnight UTC, [createdAt] the clock reading of the server and
    [completed] false. *)
Theorem form_create_stored (browser env : environment) now newId (s : store)
    title description priority category y m d :
  legal_date y m d →
  iso_range now →
  s !! newId = None →
  storeAccepts env (stored_form title description priority category y m d now) = true →
  ∃ data created,
    Client.submitted browser (form title description (date_text y m d) priority category)
    = Ok data ∧
    JSDate.toISOString (Some now) = Ok created ∧
    post_tasks env now newId data s
    = (json 201 (VObj
         [("id", VStr newId); ("title", VStr title);
          ("description", VStr description);
          ("date", VStr (date_text y m d +:+ "T00:00:00.000Z"));
          ("priority", VStr priority); ("category", VStr category);
          ("createdAt", VStr created); ("completed", VBool false)]),
       <[newId := stored_form title description priority category y m d now]> s).
Proof.
  intros Hl Hnow Hfresh Hacc. pose proof (legal_date_day y m d Hl) as Hday.
  destruct (date_text_toISOString browser y m d Hl) as [Hnew Hiso].
  destruct (parse_iso_toISOString now Hnow) as (created & Hcreated & _).
  exists (form title description (date_text y m d +:+ "T00:00:00.000Z")
            priority category), created.
  split.
  { unfold Client.submitted.
    change (obj_get (form title description (date_text y m d) priority category) "date")
      with (Some (VStr (date_text y m d))).
    by rewrite Hnew, Hiso. }
  split; [done|].
  unfold post_tasks, collection_add.
  rewrite (form_encoded env now title description priority category y m d Hl Hnow).
  cbn [mbind result_bind]. rewrite Hacc, Hfresh. unfold doc_get.
  rewrite lookup_insert_eq.
  set (iso := date_text y m d +:+ "T00:00:00.000Z") in *.
  assert (Hshape :
    convertTimestamps
      {| snap_id := newId;
         snap_data := Some (stored_form title description priority category y m d now) |}
    = (date' ← JSDate.toISOString
                 (Timestamp_toDate (Calendar.days_from_civil y m d * 86400) 0);
       created' ← JSDate.toISOString
                    (Timestamp_toDate (now / 1000)
                       ((now - now / 1000 * 1000) * 1000000));
       Ok [("id", VStr newId); ("title", VStr title);
           ("description", VStr description); ("date", VStr date');
           ("priority", VStr priority); ("category", VStr category);
           ("createdAt", VStr created'); ("completed", VBool false)])).
  { unfold convertTimestamps, stored_form.
    cbn [snap_data snap_id obj_keys map fst convert_keys obj_get String.eqb
           Ascii.eqb Bool.eqb has_toDate toDate_toISOString].
    destruct (JSDate.toISOString (Timestamp_toDate _ 0)) as [date'|]; [|done].
    cbn [mbind result_bind].
    destruct (JSDate.toISOString (Timestamp_toDate (now / 1000) _)) as [created'|];
      [|done].
    reflexivity. }
  rewrite Hshape. unfold Timestamp_toDate.
  replace (Calendar.days_from_civil y m d * 86400 * 1000 + (0 + 500000) / 1000000)
    with (Calendar.days_from_civil y m d * Calendar.msPerDay)
    by (unfold Calendar.msPerDay; euclid).
  replace (now / 1000 * 1000 + ((now - now / 1000 * 1000) * 1000000 + 500000) / 1000000)
    with now by euclid.
  rewrite !TimeClip_Some
    by (unfold iso_range, JSDate.maxTime, Calendar.msPerDay in *; lia).
  by rewrite Hiso, Hcreated.
Qed.

Lemma form_create_stored_witness :
  ∃ data created,
    Client.submitted utc_minus_5 (form "A" EmptyString (date_text 2024 3 15) "medium"
                                    EmptyString) = Ok data ∧
    JSDate.toISOString (Some 1700000000000) = Ok created ∧
    post_tasks utc_env 1700000000000 "a1" data ∅
    = (json 201 (VObj
         [("id", VStr "a1"); ("title", VStr "A");
          ("description", VStr EmptyString);
          ("date", VStr (date_text 2024 3 15 +:+ "T00:00:00.000Z"));
          ("priority", VStr "medium"); ("category", VStr EmptyString);
          ("createdAt", VStr created); ("completed", VBool false)]),
       <["a1" := stored_form "A" EmptyString "medium" EmptyString 2024 3 15
                   1700000000000]> ∅).
Proof.
  apply (form_create_stored utc_minus_5 utc_env 1700000000000 "a1" ∅
           "A" EmptyString "medium" EmptyString 2024 3 15).
  - split; [lia | vm_compute; reflexivity].
  - unfold iso_range. lia.
  - vm_compute. reflexivity.
  - reflexivity.
Defined.

(** ** The fields of the form *)

Lemma obj_set_fresh (o : object) k v :
  ¬ In k (obj_keys o) → obj_set o k v = o ++ [(k, v)].
Proof.
  induction o as [|[k0 v0] o IH]; [done|]. cbn. intros Hnot.
  destruct (String.eqb_spec k k0) as [->|_]; [exfalso; apply Hnot; by left|].
  rewrite IH; [done|]. intros Hin. apply Hnot. by right.
Qed.

Lemma obj_spread_fresh (src target : object) :
  NoDup (obj_keys (target ++ src)) → obj_spread target src = target ++ src.
Proof.
  revert target. induction src as [|[k v] src IH]; intros target Hnd.
  - by rewrite app_nil_r.
  - unfold obj_spread in *. cbn [fold_left fst snd].
    assert (Hfresh : ¬ In k (obj_keys target)).
    { unfold obj_keys in *. rewrite map_app in Hnd. cbn in Hnd.
      apply NoDup_app in Hnd as (_ & Hdis & _). intros Hin.
      apply (Hdis k); [by apply list_elem_of_In | by left]. }
    rewrite (obj_set_fresh _ _ _ Hfresh).
    rewrite IH; rewrite <- app_assoc; done.
Qed.

Lemma obj_keys_set_present (o : object) k v :
  In k (obj_keys o) → obj_keys (obj_set o k v) = obj_keys o.
Proof.
  induction o as [|[k0 v0] o IH]; [done|]. cbn.
  destruct (String.eqb_spec k k0) as [->|Hne]; [done|].
  intros [Heq|Hin]; [congruence|]. cbn. f_equal. by apply IH.
Qed.

Lemma form_keys_set (o : object) k v :
  obj_keys o = form_keys → In k form_keys →
  obj_keys (obj_set (obj_spread [] o) k v) = form_keys.
Proof.
  intros Ho Hk. rewrite obj_spread_fresh.
  - cbn [app]. rewrite obj_keys_set_present; [done|]. by rewrite Ho.
  - cbn [app]. rewrite Ho. apply (bool_decide_unpack _). vm_compute. exact I.
Qed.

Lemma handle_form_fields (browser : environment) {server : Type}
    (axios : Client.api_call → server → result value * server)
    (format_parseISO : value → result string) e (c : Client.app * Client.world) :
  form_fields c.1 →
  form_fields (Client.handle browser axios format_parseISO e c).1.
Proof.
  destruct c as [st w]. cbn [fst]. unfold form_fields. intros Hst.
  assert (Hrefresh : ∀ (st0 : Client.app) w0,
            obj_keys (Client.formData st0) = form_keys →
            obj_keys (Client.formData (Client.useEffect axios st0 w0).1) = form_keys).
  { intros st0 w0 H0.
    unfold Client.useEffect, Client.fetchTasks, Client.fetchStats, Client.request.
    cbn [fst snd].
    destruct (axios _ w0.1) as [[tasks|m1] srv1]; cbn [fst snd];
      by destruct (axios Client.get_stats_call srv1) as [[stats|m2] srv2]. }
  destruct e; cbn [Client.handle fst].
  - by apply Hrefresh.
  - unfold Client.selectDate. destruct (String.eqb _ _); [done|]. by apply Hrefresh.
  - apply form_keys_set; [done|]. destruct name; cbn; tauto.
  - unfold Client.handleSubmit.
    destruct (Client.submitted browser _) as [data|]; [|done].
    destruct (Client.request axios _ w) as [[answer|m0] w0]; [|done].
    by apply (Hrefresh (Client.setEditingId VNull
                          (Client.setFormData (Client.emptyForm today) st))).
  - done.
  - unfold Client.editTask. by destruct (if truthy _ then _ else _).
  - unfold Client.toggleTaskCompletion.
    destruct (Client.request axios _ w) as [[answer|m0] w0]; [|done].
    by apply Hrefresh.
  - destruct confirmed; unfold Client.deleteTask; [|done].
    destruct (Client.request axios _ w) as [[answer|m0] w0]; [|done].
    by apply Hrefresh.
Qed.

(** X19.  In every state of the page, the form holds exactly its five
    fields [title], [description], [date], [priority] and [category]:
    mounting, choosing a date for the list, typing into one of the form's
    inputs, submitting, cancelling, pressing Edit, Complete or Delete on a
    task all keep them; so the payload [handleSubmit] builds has these
    five keys and no other (never [id], [createdAt] or [completed]). *)
Theorem form_fields_kept (browser : environment) {server : Type}
    (axios : Client.api_call → server → result value * server)
    (format_parseISO : value → result string) (c : Client.app * Client.world) :
  Client.reachable browser axios format_parseISO c →
  form_fields c.1 ∧
  (∀ data, Client.submitted browser (Client.formData c.1) = Ok data →
           obj_keys data = form_keys).
Proof.
  intros Hc.
  assert (Hst : form_fields c.1).
  { induction Hc as [today srv|e c _ IH]; [reflexivity|].
    by apply handle_form_fields. }
  split; [done|].
  intros data. unfold Client.submitted.
  destruct (JSDate.toISOString _) as [iso|]; [|done].
  cbn [mbind result_bind]. intros [= <-].
  apply form_keys_set; [done|]. cbn. tauto.
Qed.

Lemma form_fields_kept_witness :
  Client.formData page_edited.1
  = form "A, again" EmptyString "2024-03-15" "medium" EmptyString ∧
  Client.editingId page_edited.1 = VStr "a1" ∧
  form_fields page_edited.1 ∧
  ∀ data, Client.submitted utc_env (Client.formData page_edited.1) = Ok data →
          obj_keys data = form_keys.
Proof.
  split; [vm_compute; reflexivity|]. split; [vm_compute; reflexivity|].
  apply (form_fields_kept utc_env axios_accepts format_parseISO_utc page_edited).
  unfold page_edited. do 3 apply Client.reachable_handle.
  apply Client.reachable_initial.
Defined.

(** ** The order of the listing *)

Lemma weak_order_cases {A} (cmp : A → A → comparison) x y z :
  weak_order cmp → cmp x y ≠ Lt → cmp y z ≠ Lt →
  cmp x z ≠ Lt ∧ (cmp x z = Eq → cmp x y = Eq ∧ cmp y z = Eq).
Proof.
  intros (W1 & W2 & W3) Hxy Hyz.
  destruct (cmp x y) eqn:Exy; [|done|]; destruct (cmp y z) eqn:Eyz; try done.
  - rewrite <- (W2 x y z Exy), Eyz. done.
  - rewrite <- (W2 x y z Exy), Eyz. done.
  - assert (Ezy : cmp z y = Eq) by (by rewrite W1, Eyz).
    pose proof (W2 z y x Ezy) as H. rewrite (W1 x y), Exy in H. cbn in H.
    rewrite (W1 x z) in H. by destruct (cmp x z).
  - by rewrite (W3 x y z Exy Eyz).
Qed.

#[global] Instance key_before_trans : Transitive key_before.
Proof.
  intros [id1 a] [id2 b] [id3 c]. unfold key_before. cbn [fst snd].
  intros H12 H23.
  destruct (weak_order_cases compare_value a b c compare_value_weak_order)
    as [Hac Heq].
  - by destruct (compare_value a b).
  - by destruct (compare_value b c).
  - destruct (compare_value a c) eqn:Eac; [|done|done].
    destruct (Heq eq_refl) as [Eab Ebc]. rewrite Eab in H12. rewrite Ebc in H23.
    by apply (weak_order_cases String.compare id1 id2 id3 string_compare_weak_order).
Qed.

Lemma key_before_sort_key (d1 d2 : string * object) :
  obj_has d1.2 "createdAt" = true → obj_has d2.2 "createdAt" = true →
  comes_before "createdAt" d1 d2 → key_before (sort_key d1) (sort_key d2).
Proof.
  unfold obj_has, comes_before, before_desc, key_before, sort_key. cbn [fst snd].
  destruct (obj_get d1.2 "createdAt") as [a|]; [|done].
  destruct (obj_get d2.2 "createdAt") as [b|]; [|done].
  intros _ _. simpl. destruct (compare_value a b); [|done|done].
  by destruct (String.compare d1.1 d2.1).
Qed.

Lemma Sorted_sort_key (l : list (string * object)) :
  Forall (λ d, obj_has d.2 "createdAt" = true) l →
  Sorted (comes_before "createdAt") l →
  Sorted key_before (sort_key <$> l).
Proof.
  intros Hall Hs. induction Hs as [|d l Hs IH Hhd]; [constructor|].
  apply Forall_cons in Hall as [Hd Hall]. cbn. constructor; [by apply IH|].
  destruct Hhd as [|d' l' Hdd']; [constructor|].
  apply Forall_cons in Hall as [Hd' _]. cbn. constructor.
  by apply key_before_sort_key.
Qed.

Lemma elem_of_listed_keys (s : store) (k : string * value) :
  k ∈ sort_key <$> listed s ↔ key_view s k.1 = Some (Some k.2).
Proof.
  unfold listed, key_view. rewrite list_elem_of_fmap. split.
  - intros ([id data] & -> & Hin). apply list_elem_of_filter in Hin as [Hhas Hin].
    apply elem_of_map_to_list in Hin. cbn in *. rewrite Hin. cbn.
    unfold obj_has in Hhas. by destruct (obj_get data "createdAt").
  - destruct k as [id v]. cbn. destruct (s !! id) as [data|] eqn:Hs; [|done].
    cbn. intros [= Hv]. exists (id, data). split.
    + unfold sort_key. cbn. by rewrite Hv.
    + apply list_elem_of_filter. split; [|by apply elem_of_map_to_list].
      unfold obj_has. cbn. by rewrite Hv.
Qed.

Lemma NoDup_listed_keys (s : store) : NoDup (sort_key <$> listed s).
Proof.
  apply (NoDup_fmap_1 fst). rewrite <- list_fmap_compose.
  change (fst ∘ sort_key) with (fst : string * object → string).
  apply (sublist_NoDup _ ((map_to_list s).*1)); [apply NoDup_fst_map_to_list|].
  apply fmap_sublist, sublist_filter.
Qed.

Lemma listed_ids_keys (s : store) :
  listed_ids s
  = fst <$> (sort_key <$> merge_sort (comes_before "createdAt") (listed s)).
Proof.
  unfold listed_ids, query_orderBy_desc. fold (listed s).
  rewrite <- !list_fmap_compose. apply list_fmap_ext. by intros i [id data] _.
Qed.

Lemma StronglySorted_filter {A} (R : relation A) (P : A → Prop)
    `{∀ x, Decision (P x)} (l : list A) :
  StronglySorted R l → StronglySorted R (filter P l).
Proof.
  induction 1 as [|x l Hl IH Hx]; [constructor|].
  rewrite filter_cons. destruct (decide (P x)); [|done].
  constructor; [done|]. apply Forall_forall. intros y Hy.
  apply list_elem_of_filter in Hy as [_ Hy]. rewrite Forall_forall in Hx. by apply Hx.
Qed.

Lemma filter_fst_keys (keep : string → bool) (l : list (string * value)) :
  fst <$> filter (λ k, keep k.1 = true) l = filter (λ id, keep id = true) (fst <$> l).
Proof.
  induction l as [|[id v] l IH]; [done|].
  rewrite fmap_cons, !filter_cons. cbn [fst].
  destruct (decide (keep id = true)); cbn; by rewrite IH.
Qed.

(** The order of the listing depends on nothing but the identifiers and
    what the documents hold under [createdAt]: when a collection keeps
    some documents of another one with their [createdAt], and has no
    others, its listing is the listing of the other one without the
    documents left out. *)
Lemma listed_ids_filter (keep : string → bool) (s s' : store) :
  (∀ id, key_view s' id = if keep id then key_view s id else None) →
  listed_ids s' = filter (λ id, keep id = true) (listed_ids s).
Proof.
  intros Hview. rewrite !listed_ids_keys, <- filter_fst_keys. f_equal.
  set (l := merge_sort _ (listed s)). set (l' := merge_sort _ (listed s')).
  assert (Hl : l ≡ₚ listed s) by apply merge_sort_Permutation.
  assert (Hl' : l' ≡ₚ listed s') by apply merge_sort_Permutation.
  assert (Hall : ∀ s0, Forall (λ d : string * object, obj_has d.2 "createdAt" = true)
                         (listed s0)).
  { intros s0. apply Forall_forall. intros d Hd.
    by apply list_elem_of_filter in Hd as [Hd _]. }
  assert (Hkept : ∀ k, k ∈ filter (λ k : string * value, keep k.1 = true) (sort_key <$> l)
                       ↔ key_view s' k.1 = Some (Some k.2)).
  { intros k. rewrite list_elem_of_filter, Hl, elem_of_listed_keys, Hview.
    destruct (keep k.1); [tauto|]. split; [by intros [? _] | done]. }
  assert (Hperm : sort_key <$> l'
                  ≡ₚ filter (λ k : string * value, keep k.1 = true) (sort_key <$> l)).
  { apply NoDup_Permutation.
    - rewrite Hl'. apply NoDup_listed_keys.
    - apply (sublist_NoDup _ (sort_key <$> l)); [|apply sublist_filter].
      rewrite Hl. apply NoDup_listed_keys.
    - intros k. by rewrite Hkept, Hl', elem_of_listed_keys. }
  apply (Sorted_unique_strong key_before); [| | |exact Hperm].
  - intros [id1 a] [id2 b] H1 H2. rewrite Hl' in H1.
    apply elem_of_listed_keys in H1. apply Hkept in H2.
    cbn [fst snd] in *. unfold key_before. cbn [fst snd].
    rewrite (compare_value_antisym a b).
    destruct (compare_value a b); cbn; [|by intros []|by intros _ []].
    rewrite (String.compare_antisym id2 id1).
    destruct (String.compare id1 id2) eqn:E; cbn;
      [|by intros []|by intros _ []].
    apply String.compare_eq_iff in E as ->. intros _ _. congruence.
  - apply Sorted_sort_key; [by rewrite Hl' | apply Sorted_merge_sort, _].
  - apply StronglySorted_Sorted, StronglySorted_filter, Sorted_StronglySorted;
      [apply _|].
    apply Sorted_sort_key; [by rewrite Hl | apply Sorted_merge_sort, _].
Qed.

(** X20.  The order of the listing after a change, for an identifier:
    an update whose payload names no field path rooted at [createdAt]
    (completing a task, for one) leaves the identifiers of the listing in
    the same order, and a delete leaves the other identifiers in the order
    they had. *)
Theorem listing_order_kept env taskId (req_body : object) (s : store) :
  document_id taskId = true →
  ((∀ key, is_Some (obj_get req_body key) → field_root key ≠ "createdAt") →
   listed_ids (put_task env taskId req_body s).2 = listed_ids s) ∧
  listed_ids (delete_task taskId s).2 = filter (λ id, id ≠ taskId) (listed_ids s).
Proof.
  intros Hid. split.
  - intros Hkeys.
    rewrite (listed_ids_filter (λ _, true) s (put_task env taskId req_body s).2).
    + apply filter_all, Forall_forall. done.
    + intros id. unfold key_view.
      destruct (put_task_outcomes env taskId req_body s Hid)
        as [->|(old & writes & Hold & Hw & ->)]; [done|].
      destruct (decide (id = taskId)) as [->|Hne]; [|by rewrite lookup_insert_ne].
      rewrite lookup_insert_eq, Hold. cbn. f_equal.
      apply (fold_set_path_other _ _ _ _ Hw). intros [key v] Hin.
      apply Hkeys, (updateData_keys env), (obj_get_In _ key v), Hin.
  - rewrite (listed_ids_filter (λ id, negb (String.eqb id taskId)) s).
    + apply list_filter_iff. intros id.
      destruct (String.eqb_spec id taskId); cbn; split; congruence.
    + intros id. unfold key_view. rewrite delete_task_id by done.
      unfold snap_exists, doc_get. cbn [snap_data].
      destruct (String.eqb_spec id taskId) as [->|Hne]; cbn.
      * destruct (s !! taskId) eqn:E; cbn; [by rewrite lookup_delete_eq | by rewrite E].
      * destruct (s !! taskId); cbn; [by rewrite lookup_delete_ne | done].
Qed.

Lemma listing_order_kept_witness :
  listed_ids store_AB = ["b2"; "a1"] ∧
  listed_ids (put_task utc_env "a1" [("completed", VBool true)] store_AB).2
  = listed_ids store_AB ∧
  listed_ids (delete_task "b2" store_AB).2
  = filter (λ id, id ≠ "b2") (listed_ids store_AB).
Proof.
  split; [vm_compute; reflexivity|].
  destruct (listing_order_kept utc_env "b2" [] store_AB) as [_ H2];
    [vm_compute; reflexivity|].
  destruct (listing_order_kept utc_env "a1" [("completed", VBool true)] store_AB)
    as [H1 _]; [vm_compute; reflexivity|].
  split; [|exact H2]. apply H1.
  intros key. simpl. destruct (String.eqb_spec key "completed") as [->|_].
  - intros _. vm_compute. discriminate.
  - by intros [? ?].
Defined.
